(** * SAN7-ERP: crime / ACS data integration pipeline

    A shallow embedding of the three scripts of the repository:

    - [STEP-1-CRIME-DATA-FILTERING-R.R]   (module [RStep]),
    - the 2010-2020 notebook              (module [Post2009]),
    - [STEP-2-ACS_CRIME_2005-2009.ipynb]  (module [Pre2010]),

    with the spatial overlay and areal weights that both notebooks
    compute in module [Geo] and their common crime steps in module
    [Nb].  Module [City] holds a small input on which the scripts are
    run.

    Data frames are lists of records (row order is the order of the
    list).  Floating-point columns are modelled by exact rationals [Q]
    extended with the IEEE special values the scripts can produce
    (missing/NaN and the infinities); rounding is not modelled.  Calls
    into geospatial and date libraries are parameters of the sections in
    which they are used. *)

From Stdlib Require Import List String Ascii Bool ZArith QArith Lia Lqa.
From Stdlib Require Import DecimalString.
From Stdlib Require DecimalN DecimalPos.
Import ListNotations.

Local Open Scope string_scope.
Local Open Scope Q_scope.

Set Implicit Arguments.

(* ================================================================== *)
(** ** Generic helpers: strings, sums, group keys *)

(** Membership of a string in a vector of strings ([%in%], [isin]). *)
Definition str_in (s : string) (l : list string) : bool :=
  existsb (String.eqb s) l.

(** Python's [str.lstrip('0')]: drop every leading ['0']. *)
Fixpoint lstrip0 (s : string) : string :=
  match s with
  | String "0"%char rest => lstrip0 rest
  | _ => s
  end.

(** [n] copies of the character ['0']. *)
Fixpoint zeros (n : nat) : string :=
  match n with
  | O => EmptyString
  | S k => String "0"%char (zeros k)
  end.

(** pandas' [Series.str.zfill(width)]: pad on the left with ['0'] up to
    [width] characters (no special treatment of a sign). *)
Definition zfill (width : nat) (s : string) : string :=
  zeros (width - String.length s) ++ s.

(** Decimal rendering of an integer ([str(int)] in Python, the digits
    of [%d] in R). *)
Definition digits_of (z : Z) : string :=
  NilZero.string_of_uint (N.to_uint (Z.abs_N z)).

Definition str_of_int (z : Z) : string :=
  if (z <? 0)%Z then String "-"%char (digits_of z) else digits_of z.

(** Sum of a list of rationals (a column [sum]). *)
Fixpoint Qsum (l : list Q) : Q :=
  match l with
  | [] => 0
  | x :: r => x + Qsum r
  end.

(** Keys of a [groupby]: the distinct key values.  pandas sorts them;
    the order plays no role below, so first-appearance order is kept. *)
Definition group_keys {K : Type} (eq_dec : forall a b : K, {a = b} + {a <> b})
    (l : list K) : list K :=
  nodup eq_dec l.

Definition key2_dec (a b : string * Z) : {a = b} + {a <> b}.
Proof. decide equality; [apply Z.eq_dec | apply string_dec]. Defined.

Definition key3_dec (a b : string * Z * Z) : {a = b} + {a <> b}.
Proof. decide equality; [apply Z.eq_dec | apply key2_dec]. Defined.

(* ================================================================== *)
(** ** Float-like column values

    A numeric cell of a data frame: a number, one of the two infinities,
    or NaN, which pandas also uses for a missing value. *)

Inductive fval : Type :=
| Num (q : Q)
| PInf
| NInf
| NaN.

(** Sign of a rational as a comparison with zero. *)
Definition Qsign (q : Q) : comparison := 0 ?= q.

(** IEEE division as numpy performs it on float columns (warnings are
    suppressed by the notebooks): [x/0] is an infinity of the sign of
    [x], [0/0] is NaN. *)
Definition fdiv (a b : fval) : fval :=
  match a, b with
  | NaN, _ | _, NaN => NaN
  | Num x, Num y =>
      match Qsign y with
      | Eq => match Qsign x with Eq => NaN | Lt => PInf | Gt => NInf end
      | _ => Num (x / y)
      end
  | Num _, (PInf | NInf) => Num 0
  | PInf, Num y => match Qsign y with Gt => NInf | _ => PInf end
  | NInf, Num y => match Qsign y with Gt => PInf | _ => NInf end
  | (PInf | NInf), (PInf | NInf) => NaN
  end.

Definition fmul (a b : fval) : fval :=
  match a, b with
  | NaN, _ | _, NaN => NaN
  | Num x, Num y => Num (x * y)
  | Num x, PInf | PInf, Num x =>
      match Qsign x with Eq => NaN | Lt => PInf | Gt => NInf end
  | Num x, NInf | NInf, Num x =>
      match Qsign x with Eq => NaN | Lt => NInf | Gt => PInf end
  | PInf, PInf | NInf, NInf => PInf
  | PInf, NInf | NInf, PInf => NaN
  end.

Definition fadd (a b : fval) : fval :=
  match a, b with
  | NaN, _ | _, NaN => NaN
  | Num x, Num y => Num (x + y)
  | PInf, NInf | NInf, PInf => NaN
  | PInf, _ | _, PInf => PInf
  | NInf, _ | _, NInf => NInf
  end.

Definition is_nan (a : fval) : bool :=
  match a with NaN => true | _ => false end.

(** The comparison [a >= 0] on a float cell; false on NaN. *)
Definition fge0 (a : fval) : bool :=
  match a with
  | Num q => match Qsign q with Gt => false | _ => true end
  | PInf => true
  | NInf => false
  | NaN => false
  end.


(** The usual sum of a sequence of float cells: NaN propagates. *)
Fixpoint fsum (l : list fval) : fval :=
  match l with
  | [] => Num 0
  | a :: r => fadd a (fsum r)
  end.

(** pandas' [.sum(...)] with its default [skipna=True]: missing cells
    are left out of the sum. *)
Definition sum_skipna (l : list fval) : fval :=
  fsum (filter (fun a => negb (is_nan a)) l).

(** [fillna(0)] on one cell. *)
Definition fillna0 (a : fval) : fval :=
  match a with NaN => Num 0 | _ => a end.

(** Equality of cells up to equality of rationals. *)
Definition feq (a b : fval) : Prop :=
  match a, b with
  | Num x, Num y => x == y
  | PInf, PInf | NInf, NInf | NaN, NaN => True
  | _, _ => False
  end.

(** Python's [a != b] between a string and an integer literal, as the
    element-wise comparison of an object column meets it. *)
Inductive pyval : Type :=
| PyStr (s : string)
| PyInt (z : Z).

Definition py_ne (a b : pyval) : bool :=
  match a, b with
  | PyStr s, PyStr t => negb (String.eqb s t)
  | PyInt x, PyInt y => negb (Z.eqb x y)
  | _, _ => true
  end.

(** An integer cell read as a float cell. *)
Definition of_int (z : Z) : fval := Num (inject_Z z).

Definition of_count (n : nat) : fval := of_int (Z.of_nat n).

(* ================================================================== *)
(** ** Spatial overlay and areal weights (both notebooks)

    The shapefiles are read, reprojected and intersected by geopandas.
    The geometry type, the reprojection and the area of the
    intersection of two geometries are parameters.  [gpd.overlay(...,
    how='intersection')] returns one row per pair of a tract and a
    district whose intersection is a polygon, that is, has positive
    area; the row carries the columns of both inputs. *)

Module Geo.
Section Overlay.

Variable geometry : Type.
(** [GeoDataFrame.to_crs(epsg=26971)] on one geometry. *)
Variable to_crs : geometry -> geometry.
(** [.area] of the intersection of two geometries. *)
Variable inter_area : geometry -> geometry -> Q.

(** Census tract record; [tract_id] is the column [geoid10] of the
    2010 shapefile and [CENSUS_T_1] of the 2000 one. *)
Record tract : Type := mk_tract {
  tract_id : string;
  tract_geom : geometry
}.

(** Police district record. *)
Record district : Type := mk_district {
  dist_label : string;
  dist_num : string;
  dist_geom : geometry
}.

(** Row of the overlay with its [intersection_area] column. *)
Record piece : Type := mk_piece {
  p_tract : string;
  p_label : string;
  p_dist : string;
  intersection_area : fval
}.

(** Areal-weight record: the columns kept for the merge. *)
Record weight : Type := mk_weight {
  w_tract : string;
  w_dist : string;
  proportion : fval
}.

(** [df[df['dist_label'] != '31ST']] *)
Definition drop_31ST (districts : list district) : list district :=
  filter (fun d => negb (String.eqb (dist_label d) "31ST")) districts.

Definition reproject_tracts (l : list tract) : list tract :=
  map (fun t => mk_tract (tract_id t) (to_crs (tract_geom t))) l.

Definition reproject_districts (l : list district) : list district :=
  map (fun d => mk_district (dist_label d) (dist_num d) (to_crs (dist_geom d))) l.

(** [gpd.overlay(tracts, districts, how='intersection')] followed by
    [tracts_to_districts.geometry.area]. *)
Definition overlay (tracts : list tract) (districts : list district)
    : list piece :=
  flat_map (fun t =>
    flat_map (fun d =>
      let a := inter_area (tract_geom t) (dist_geom d) in
      match Qsign a with
      | Lt => [mk_piece (tract_id t) (dist_label d) (dist_num d) (Num a)]
      | _ => []
      end)
    districts)
  tracts.

(** [groupby(tract id)['intersection_area'].transform('sum')] at the
    rows of tract [k]. *)
Definition total_tract_area (pieces : list piece) (k : string) : fval :=
  sum_skipna
    (map intersection_area
       (filter (fun p => String.eqb (p_tract p) k) pieces)).

(** The [proportion] column and the selection of the three columns. *)
Definition areal_weights (pieces : list piece) : list weight :=
  map (fun p =>
         mk_weight (p_tract p) (p_dist p)
           (fdiv (intersection_area p)
                 (total_tract_area pieces (p_tract p))))
      pieces.

End Overlay.
End Geo.

(* ================================================================== *)
(** ** Crime records shared by the R step and the notebooks *)

Record datetime : Type := mk_datetime {
  dt_year : Z;
  dt_month : Z;
  dt_day : Z;
  dt_hour : Z;
  dt_minute : Z;
  dt_second : Z
}.

(** A cell of a [Date] column: a timestamp, text that has not been
    parsed, or null (R's [NA], pandas' [NaT]/[None]). *)
Inductive date_cell : Type :=
| DTimestamp (d : datetime)
| DString (s : string)
| DNull.

(** Row of [crimeunits2409.parquet], the file that the R step writes
    and both notebooks read. *)
Record crime_unit : Type := mk_crime_unit {
  Date : date_cell;
  ID : Z;
  Beat : string;
  District : string;
  Ward : fval;
  Arrest : bool;
  Latitude : fval;
  Longitude : fval;
  Primary_Type : option string;
  Crime_Category : string
}.

(** The six labels of the crime categories, in the order of
    [crime_types] in the notebooks. *)
Definition crime_types : list string :=
  ["Violent Crime"; "Property Crime"; "Drug-Related Crime";
   "Administrative or Non-Criminal"; "Public Order Crime"; "Other"].

(* ================================================================== *)
(** ** STEP-1-CRIME-DATA-FILTERING-R.R *)

Module RStep.

(** Row of [Crimes_-_2001_to_Present_20240909.csv] after step 4:
    [District] has gone through [as.numeric] ([None] is [NA]);
    [Primary Type] is a character column ([None] is [NA]). *)
Record raw_crime : Type := mk_raw_crime {
  raw_Date : string;
  raw_ID : Z;
  raw_Beat : string;
  raw_District : option Z;
  raw_Ward : fval;
  raw_Arrest : bool;
  raw_Latitude : fval;
  raw_Longitude : fval;
  raw_Primary_Type : option string
}.

(** Step 5: [sprintf("%03d", District)].  An [NA] prints as ["NA"]
    padded with blanks to the width. *)
Definition sprintf_03d (x : option Z) : string :=
  match x with
  | None => " NA"
  | Some z =>
      if (z <? 0)%Z
      then String "-"%char (zfill 2 (digits_of z))
      else zfill 3 (digits_of z)
  end.

(** Step 11. *)
Definition districts : list string :=
  ["001"; "002"; "003"; "004"; "005"; "006"; "007"; "008"; "009";
   "010"; "011"; "012"; "013"; "014"; "015"; "016"; "017"; "018";
   "019"; "020"; "021"; "022"; "023"; "024"; "025"].

(** Step 13: deprecated districts and their post-2012 equivalents. *)
Definition district_mapping : list (string * string) :=
  [("013", "012"); ("021", "002"); ("023", "019")].

(** Step 14: [recode(District, !!!district_mapping)]; a value without
    an entry in the mapping is left as it is. *)
Fixpoint recode (x : string) (mapping : list (string * string)) : string :=
  match mapping with
  | [] => x
  | (old, new) :: rest => if String.eqb x old then new else recode x rest
  end.

Definition violent_types : list string :=
  ["ROBBERY"; "CRIMINAL SEXUAL ASSAULT"; "OFFENSE INVOLVING CHILDREN";
   "CRIM SEXUAL ASSAULT"; "ASSAULT"; "SEX OFFENSE"; "BATTERY"; "HOMICIDE";
   "STALKING"; "KIDNAPPING"; "INTIMIDATION"].

Definition property_types : list string :=
  ["THEFT"; "DECEPTIVE PRACTICE"; "BURGLARY"; "MOTOR VEHICLE THEFT";
   "CRIMINAL TRESPASS"; "CRIMINAL DAMAGE"; "ARSON"].

Definition drug_types : list string :=
  ["NARCOTICS"; "OTHER NARCOTIC VIOLATION"].

Definition public_order_types : list string :=
  ["WEAPONS VIOLATION"; "LIQUOR LAW VIOLATION"; "PUBLIC PEACE VIOLATION";
   "PROSTITUTION"; "GAMBLING"; "INTERFERENCE WITH PUBLIC OFFICER";
   "OBSCENITY"; "PUBLIC INDECENCY"].

Definition administrative_types : list string :=
  ["NON-CRIMINAL"; "NON - CRIMINAL"; "NON-CRIMINAL (SUBJECT SPECIFIED)";
   "CONCEALED CARRY LICENSE VIOLATION"; "HUMAN TRAFFICKING"; "OTHER OFFENSE"].

(** [x %in% table] on a character cell: [NA] is in no table of
    non-[NA] strings. *)
Definition in_types (pt : option string) (table : list string) : bool :=
  match pt with
  | None => false
  | Some s => str_in s table
  end.

(** Step 16: the [case_when] that defines [Crime_Category]; the first
    condition that holds decides. *)
Definition categorize (pt : option string) : string :=
  if in_types pt violent_types then "Violent Crime"
  else if in_types pt property_types then "Property Crime"
  else if in_types pt drug_types then "Drug-Related Crime"
  else if in_types pt public_order_types then "Public Order Crime"
  else if in_types pt administrative_types then "Administrative or Non-Criminal"
  else "Other".

Section Dates.

(** lubridate's [mdy_hms] on one string: a timestamp, or [NA] (with a
    warning, not an error) when the string does not parse. *)
Variable mdy_hms : string -> option datetime.
(** The test [Date >= as.Date("2004-01-01") & Date <= as.Date("2020-12-31")]
    of step 8 on a timestamp, as R evaluates it. *)
Variable in_window : datetime -> bool.

(** Steps 4 to 7: the [District] and [Date] columns are rewritten. *)
Record crime_row : Type := mk_crime_row {
  cr_raw : raw_crime;
  cr_District : string;
  cr_Date : option datetime
}.

Definition format_and_parse (r : raw_crime) : crime_row :=
  mk_crime_row r (sprintf_03d (raw_District r)) (mdy_hms (raw_Date r)).

(** Step 8: [filter] keeps the rows whose condition is [TRUE]; a row
    whose [Date] is [NA] has an [NA] condition and is dropped. *)
Definition date_filter (r : crime_row) : bool :=
  match cr_Date r with
  | None => false
  | Some d => in_window d
  end.

(** Step 12. *)
Definition district_filter (r : crime_row) : bool :=
  str_in (cr_District r) districts.

(** Steps 9, 14 and 16 on one row. *)
Definition finish (r : crime_row) : crime_unit :=
  let raw := cr_raw r in
  mk_crime_unit
    (match cr_Date r with Some d => DTimestamp d | None => DNull end)
    (raw_ID raw) (raw_Beat raw)
    (recode (cr_District r) district_mapping)
    (raw_Ward raw) (raw_Arrest raw) (raw_Latitude raw) (raw_Longitude raw)
    (raw_Primary_Type raw)
    (categorize (raw_Primary_Type raw)).

(** The whole script: from the rows of the CSV file to the rows of
    [crimeunits2409.parquet]. *)
Definition crime_units (crime_data : list raw_crime) : list crime_unit :=
  map finish
    (filter district_filter
       (filter date_filter (map format_and_parse crime_data))).

End Dates.
End RStep.

(* ================================================================== *)
(** ** Steps that the two notebooks share *)

(** Result of a step that may raise. *)
Inductive outcome (A : Type) : Type :=
| Returned (a : A)
| Raised (exn : string).

Arguments Returned {A} a.
Arguments Raised {A} exn.

Definition bind {A B : Type} (m : outcome A) (k : A -> outcome B) : outcome B :=
  match m with
  | Returned a => k a
  | Raised e => Raised e
  end.

Notation "x <- m ;; k" := (bind m (fun x => k))
  (at level 61, m at next level, right associativity).

Module Nb.

(** The [errors] argument of [pd.to_datetime]. *)
Inductive errors_mode : Type :=
| errors_raise
| errors_coerce.

Section ToDatetime.

(** pandas' datetime parser on one string; [None] when the string is
    not a date. *)
Variable parse_datetime : string -> option datetime.

(** [pd.to_datetime] on one cell; [Returned None] is [NaT]. *)
Definition to_datetime_cell (errors : errors_mode) (c : date_cell)
    : outcome (option datetime) :=
  match c with
  | DTimestamp d => Returned (Some d)
  | DNull => Returned None
  | DString s =>
      match parse_datetime s with
      | Some d => Returned (Some d)
      | None =>
          match errors with
          | errors_raise => Raised "ValueError"
          | errors_coerce => Returned None
          end
      end
  end.

(** [pd.to_datetime(column, errors=...)]. *)
Fixpoint to_datetime (errors : errors_mode) (column : list date_cell)
    : outcome (list (option datetime)) :=
  match column with
  | [] => Returned []
  | c :: rest =>
      d <- to_datetime_cell errors c ;;
      ds <- to_datetime errors rest ;;
      Returned (d :: ds)
  end.

(** A crime record with the columns the notebooks add or rewrite:
    the converted [Date], [year], [month], and [District]. *)
Record dated_crime : Type := mk_dated_crime {
  dc_unit : crime_unit;
  dc_Date : option datetime;
  dc_District : string;
  dc_year : option Z;
  dc_month : option Z
}.

Definition add_year_month (u : crime_unit) (d : option datetime) : dated_crime :=
  mk_dated_crime u d (District u) (option_map dt_year d) (option_map dt_month d).

(** [crime_data['Date'] = pd.to_datetime(crime_data['Date'],
    errors='coerce')], then [.dt.year] and [.dt.month]. *)
Definition convert_dates (crime_data : list crime_unit)
    : outcome (list dated_crime) :=
  ds <- to_datetime errors_coerce (map Date crime_data) ;;
  Returned (map (fun ud => add_year_month (fst ud) (snd ud))
                (combine crime_data ds)).

End ToDatetime.

(** [(crime_data['year'] >= lo) & (crime_data['year'] <= hi)]; a
    comparison with a missing year is false. *)
Definition year_between (lo hi : Z) (r : dated_crime) : bool :=
  match dc_year r with
  | None => false
  | Some y => (lo <=? y)%Z && (y <=? hi)%Z
  end.

(** [df['District'].str.lstrip('0')] on the crime records. *)
Definition strip_district (r : dated_crime) : dated_crime :=
  mk_dated_crime (dc_unit r) (dc_Date r) (lstrip0 (dc_District r))
                 (dc_year r) (dc_month r).

(** Row of the district-month table of counts; [ag_count c] is the
    cell of the column named [c]. *)
Record agg_row : Type := mk_agg_row {
  ag_District : string;
  ag_year : Z;
  ag_month : Z;
  ag_count : string -> nat
}.

(** The table of counts with the names of its category columns. *)
Record crime_frame : Type := mk_crime_frame {
  columns : list string;
  rows : list agg_row
}.

(** The group key and category of a record; [groupby] leaves out a
    record with a missing key. *)
Definition keyed (l : list dated_crime) : list ((string * Z * Z) * string) :=
  flat_map (fun r =>
    match dc_year r, dc_month r with
    | Some y, Some m => [((dc_District r, y, m), Crime_Category (dc_unit r))]
    | _, _ => []
    end) l.

Definition same_key (a b : string * Z * Z) : bool :=
  if key3_dec a b then true else false.

(** [.size()] of the group of key [k] and category [c]; 0 for an empty
    group ([fill_value=0]). *)
Definition group_size (ks : list ((string * Z * Z) * string))
    (k : string * Z * Z) (c : string) : nat :=
  List.length
    (filter (fun kc => same_key (fst kc) k && String.eqb (snd kc) c) ks).

(** [groupby(['District', 'year', 'month', 'Crime_Category']).size()
    .unstack(fill_value=0).reset_index()]: one row per district, year
    and month, one column per category that occurs in the data. *)
Definition aggregate (l : list dated_crime) : crime_frame :=
  let ks := keyed l in
  mk_crime_frame
    (nodup string_dec (map snd ks))
    (map (fun k =>
            mk_agg_row (fst (fst k)) (snd (fst k)) (snd k) (group_size ks k))
         (group_keys key3_dec (map fst ks))).

(** The rate of one category per 1,000 residents:
    [(df[crime_type] / df['Total_Population']) * 1000]. *)
Definition rate_of (count : nat) (Total_Population : fval) : fval :=
  fmul (fdiv (of_count count) Total_Population) (Num 1000).

(** [df[[six rate columns]].sum(axis=1)]. *)
Definition total_of (rate : string -> fval) : fval :=
  sum_skipna (map rate crime_types).

(** [df[crime_type]] raises [KeyError] when the table has no column of
    that name; the first such name of the loop over [crime_types]. *)
Fixpoint first_missing (cols wanted : list string) : option string :=
  match wanted with
  | [] => None
  | c :: rest => if str_in c cols then first_missing cols rest else Some c
  end.

End Nb.

(* ================================================================== *)
(** ** The 2010-2020 notebook *)

Module Post2009.

(** The ACS variables that are requested from the Census API. *)
Inductive acs_var : Type :=
| B01003_001E   (* Total Population *)
| B03002_003E   (* Non-Hispanic White *)
| B03002_004E   (* Non-Hispanic Black *)
| B03002_006E   (* Non-Hispanic Asian *)
| B03002_012E   (* Hispanic or Latino *)
| C17002_001E   (* Population for whom poverty status is determined *)
| C17002_002E   (* Population under 0.50 *)
| C17002_003E.  (* Population between 0.50 and 0.99 *)

Definition acs_var_dec (a b : acs_var) : {a = b} + {a <> b}.
Proof. decide equality. Defined.

(** The columns to which the proportion is applied. *)
Definition acs_columns_post_2009 : list acs_var :=
  [B01003_001E; C17002_001E; C17002_002E; C17002_003E;
   B03002_003E; B03002_004E; B03002_006E; B03002_012E].

(** Row returned by the API for one tract. *)
Record api_row : Type := mk_api_row {
  state : string;
  county : string;
  tract : string;
  estimate : acs_var -> fval
}.

(** Row of [acs_data_post_2009]. *)
Record acs_row : Type := mk_acs_row {
  acs_api : api_row;
  GEOID : string;
  acs_year : Z;
  acs_value : acs_var -> fval
}.

(** Row of [acs_mapped_post_2009]: an ACS row merged with an
    areal-weight record. *)
Record mapped_row : Type := mk_mapped_row {
  m_acs : acs_row;
  m_dist_num : string;
  m_proportion : fval;
  m_value : acs_var -> fval
}.

(** Row of the [groupby(['dist_num', 'year'])] sums. *)
Record sums_row : Type := mk_sums_row {
  s_dist_num : string;
  s_year : Z;
  s_sum : acs_var -> fval
}.

(** Row of [district_aggregated_post_2009] as it is saved. *)
Record district_row : Type := mk_district_row {
  dist_num : string;
  year : Z;
  Total_Population : fval;
  Total_Population_Poverty_Status : fval;
  Percent_Hispanic : fval;
  Percent_NonHispanic_White : fval;
  Percent_NonHispanic_Black : fval;
  Percent_NonHispanic_Asian : fval;
  Poverty_Percent : fval
}.

(** Row of [crime_aggregated_2010_2020] after the merge with the
    population: the counts and the two columns that the merge adds
    (missing when the district and year have no row in the survey
    table). *)
Record merged_row : Type := mk_merged_row {
  cm_counts : Nb.agg_row;
  cm_dist_num : option string;
  cm_Total_Population : fval
}.

(** Row of [crime_aggregated_2010_2020] as it is saved; [rate c] is
    the column [c ++ "_rate"]. *)
Record rate_row : Type := mk_rate_row {
  rr_merged : merged_row;
  rate : string -> fval;
  total_crime_rate : fval
}.

(** [range(2010, 2021)] *)
Definition acs_years : list Z :=
  map Z.of_nat (seq 2010 11).

(** One step of the loop [df[col] = df[col] * df['proportion']]. *)
Definition apply_proportion (p : fval) (value : acs_var -> fval)
    (col : acs_var) : acs_var -> fval :=
  fun v => if acs_var_dec v col then fmul (value col) p else value v.

Section Notebook.

Variable geometry : Type.
Variable to_crs : geometry -> geometry.
Variable inter_area : geometry -> geometry -> Q.
(** [c.acs5.state_county_tract(acs_variables, states.IL.fips, "*", "*",
    year=year)]: the rows that the API returns for a year. *)
Variable acs5_state_county_tract : Z -> list api_row.
Variable parse_datetime : string -> option datetime.

(** Steps 1 and 2. *)
Definition tracts_to_districts (chicago_census : list (Geo.tract geometry))
    (cpd_districts : list (Geo.district geometry)) : list Geo.weight :=
  let cpd_districts := Geo.drop_31ST cpd_districts in
  let chicago_census := Geo.reproject_tracts to_crs chicago_census in
  let cpd_districts := Geo.reproject_districts to_crs cpd_districts in
  Geo.areal_weights (Geo.overlay inter_area chicago_census cpd_districts).

(** Step 3: [get_acs_data] for each year, the [GEOID] column and
    [fillna(0)]. *)
Definition get_acs_data (y : Z) : list acs_row :=
  map (fun a => mk_acs_row a (state a ++ county a ++ tract a) y (estimate a))
      (acs5_state_county_tract y).

Definition acs_data_post_2009 : list acs_row :=
  map (fun a => mk_acs_row (acs_api a) (GEOID a) (acs_year a)
                           (fun v => fillna0 (acs_value a v)))
      (flat_map get_acs_data acs_years).

(** Step 4: the inner merge on [GEOID] = [geoid10], the proportion
    applied to each column, and [fillna(0)]. *)
Definition acs_mapped_post_2009 (weights : list Geo.weight) : list mapped_row :=
  flat_map (fun a =>
    map (fun w =>
           let scaled :=
             fold_left (apply_proportion (Geo.proportion w))
                       acs_columns_post_2009 (acs_value a) in
           mk_mapped_row a (Geo.w_dist w) (Geo.proportion w)
                         (fun v => fillna0 (scaled v)))
        (filter (fun w => String.eqb (GEOID a) (Geo.w_tract w)) weights))
    acs_data_post_2009.

Definition in_group (k : string * Z) (m : mapped_row) : bool :=
  String.eqb (m_dist_num m) (fst k) && Z.eqb (acs_year (m_acs m)) (snd k).

(** [groupby(['dist_num', 'year']).agg({... : 'sum'}).reset_index()] *)
Definition district_sums (mapped : list mapped_row) : list sums_row :=
  map (fun k =>
         mk_sums_row (fst k) (snd k)
           (fun v => sum_skipna
                       (map (fun m => m_value m v) (filter (in_group k) mapped))))
      (group_keys key2_dec
         (map (fun m => (m_dist_num m, acs_year (m_acs m))) mapped)).

Definition percent (part whole : fval) : fval :=
  fmul (fdiv part whole) (Num 100).

(** The derived percentages, the dropped and the renamed columns. *)
Definition derive (s : sums_row) : district_row :=
  mk_district_row (s_dist_num s) (s_year s)
    (s_sum s B01003_001E)
    (s_sum s C17002_001E)
    (percent (s_sum s B03002_012E) (s_sum s B01003_001E))
    (percent (s_sum s B03002_003E) (s_sum s B01003_001E))
    (percent (s_sum s B03002_004E) (s_sum s B01003_001E))
    (percent (s_sum s B03002_006E) (s_sum s B01003_001E))
    (percent (fadd (s_sum s C17002_002E) (s_sum s C17002_003E))
             (s_sum s C17002_001E)).

Definition district_aggregated_post_2009 (weights : list Geo.weight)
    : list district_row :=
  map derive (district_sums (acs_mapped_post_2009 weights)).

(** Steps 5 and 6: dates, the years 2010 to 2020, the counts per
    district, year and month, and the leading zeros of [District]. *)
Definition crime_filtered_2010_2020 (crime_data : list crime_unit)
    : outcome (list Nb.dated_crime) :=
  dated <- Nb.convert_dates parse_datetime crime_data ;;
  Returned (filter (Nb.year_between 2010 2020) dated).

Definition strip_row (r : Nb.agg_row) : Nb.agg_row :=
  Nb.mk_agg_row (lstrip0 (Nb.ag_District r)) (Nb.ag_year r) (Nb.ag_month r)
                (Nb.ag_count r).

Definition crime_counts (crime_data : list crime_unit)
    : outcome Nb.crime_frame :=
  filtered <- crime_filtered_2010_2020 crime_data ;;
  let frame := Nb.aggregate filtered in
  Returned (Nb.mk_crime_frame (Nb.columns frame) (map strip_row (Nb.rows frame))).

(** Step 7: the left merge on district and year. *)
Definition matches (r : Nb.agg_row) (d : district_row) : bool :=
  String.eqb (Nb.ag_District r) (dist_num d) && Z.eqb (Nb.ag_year r) (year d).

Definition merge_population (survey : list district_row)
    (counts : list Nb.agg_row) : list merged_row :=
  flat_map (fun r =>
    match filter (matches r) survey with
    | [] => [mk_merged_row r None NaN]
    | ds => map (fun d => mk_merged_row r (Some (dist_num d))
                                        (Total_Population d)) ds
    end) counts.

Definition crime_merged (survey : list district_row)
    (crime_data : list crime_unit) : outcome (list merged_row) :=
  frame <- crime_counts crime_data ;;
  Returned (merge_population survey (Nb.rows frame)).

(** The six rates and their total on one row. *)
Definition with_rates (r : merged_row) : rate_row :=
  let rate := fun c => Nb.rate_of (Nb.ag_count (cm_counts r) c)
                                  (cm_Total_Population r) in
  mk_rate_row r rate (Nb.total_of rate).

(** The table that is saved as [crime_2010-2020.parquet]. *)
Definition crime_aggregated_2010_2020 (survey : list district_row)
    (crime_data : list crime_unit) : outcome (list rate_row) :=
  frame <- crime_counts crime_data ;;
  let merged := merge_population survey (Nb.rows frame) in
  match Nb.first_missing (Nb.columns frame) crime_types with
  | Some c => Raised ("KeyError: " ++ c)
  | None => Returned (map with_rates merged)
  end.

(** The notebook from its inputs: the two shapefiles and the crime
    file; the survey table and the crime table are its outputs. *)
Definition survey_table (chicago_census : list (Geo.tract geometry))
    (cpd_districts : list (Geo.district geometry)) : list district_row :=
  district_aggregated_post_2009 (tracts_to_districts chicago_census cpd_districts).

Definition crime_table (chicago_census : list (Geo.tract geometry))
    (cpd_districts : list (Geo.district geometry))
    (crime_data : list crime_unit) : outcome (list rate_row) :=
  crime_aggregated_2010_2020 (survey_table chicago_census cpd_districts) crime_data.

End Notebook.
End Post2009.

(* ================================================================== *)
(** ** STEP-2-ACS_CRIME_2005-2009.ipynb *)

Module Pre2010.

(** The columns of the NHGIS extract that the notebook uses. *)
Inductive nhgis_var : Type :=
| RK9E001   (* Total Population *)
| RLIE001   (* Total, Hispanic or Latino Origin by Race *)
| RLIE003   (* Not Hispanic or Latino: White alone *)
| RLIE004   (* Not Hispanic or Latino: Black or African American alone *)
| RLIE006   (* Not Hispanic or Latino: Asian alone *)
| RLIE012   (* Hispanic or Latino *)
| RNBE001   (* Population for whom poverty status is determined *)
| RNBE002   (* Under 0.50 *)
| RNBE003.  (* 0.50 to 0.99 *)

(** Row of [nhgis0006_ds195_20095_tract_E.csv]. *)
Record nhgis_row : Type := mk_nhgis_row {
  STATEA : Z;
  COUNTYA : Z;
  TRACTA : Z;
  nhgis_value : nhgis_var -> fval
}.

(** Row of [acs2005_2009_chicago] with its [census_tract_id]. *)
Record chicago_row : Type := mk_chicago_row {
  ch_STATEA : Z;
  ch_COUNTYA : Z;
  ch_TRACTA : Z;
  ch_value : nhgis_var -> fval;
  census_tract_id : string
}.

(** Row of [filtered_df] after the percentages, the dropped and the
    renamed columns. *)
Record filtered_row : Type := mk_filtered_row {
  f_Total_Population : fval;
  f_RLIE001 : fval;
  f_Total_Population_Poverty_Status : fval;
  f_dist_num : string;
  f_proportion : fval;
  f_Percent_Hispanic : fval;
  f_Percent_NonHispanic_White : fval;
  f_Percent_NonHispanic_Black : fval;
  f_Percent_NonHispanic_Asian : fval;
  f_Poverty_Percent : fval
}.

(** Row of [district_aggregated2005] as it is saved. *)
Record district_row : Type := mk_district_row {
  dist_num : string;
  Total_Population : fval;
  Poverty_Percent : fval;
  Percent_NonHispanic_White : fval;
  Percent_NonHispanic_Black : fval;
  Percent_NonHispanic_Asian : fval;
  Percent_Hispanic : fval
}.

(** Row of [crime_aggregated_monthly2005] after the merge with the
    population and the drop of [dist_num]. *)
Record merged_row : Type := mk_merged_row {
  cm_counts : Nb.agg_row;
  cm_Total_Population : fval
}.

(** Row of [crime_aggregated_monthly2005] as it is saved. *)
Record rate_row : Type := mk_rate_row {
  rr_merged : merged_row;
  rate : string -> fval;
  total_crime_rate : fval
}.

(** Step 1: Cook County, Illinois, and [fillna(0)]; step 2: the tract
    identifier. *)
Definition acs2005_2009_chicago (acs2005_2009 : list nhgis_row)
    : list chicago_row :=
  map (fun r =>
         mk_chicago_row (STATEA r) (COUNTYA r) (TRACTA r)
           (fun v => fillna0 (nhgis_value r v))
           (zfill 2 (str_of_int (STATEA r)) ++
            zfill 3 (str_of_int (COUNTYA r)) ++
            zfill 6 (str_of_int (TRACTA r))))
      (filter (fun r => Z.eqb (STATEA r) 17 && Z.eqb (COUNTYA r) 31)
              acs2005_2009).

Definition percent (part whole : fval) : fval :=
  fmul (fdiv part whole) (Num 100).

(** pandas' [mean] of a group: the sum of the cells that are not
    missing over their number. *)
Definition mean (l : list fval) : fval :=
  fdiv (sum_skipna l)
       (of_count (List.length (filter (fun a => negb (is_nan a)) l))).

(** Step 4, first cell: the inner merge of the areal weights with the
    survey rows on [CENSUS_T_1] = [census_tract_id], the percentages
    of each tract, and [fillna(0)]. *)
Definition filtered_df (weights : list Geo.weight) (acs : list chicago_row)
    : list filtered_row :=
  flat_map (fun w =>
    map (fun a =>
           let v := ch_value a in
           mk_filtered_row
             (fillna0 (v RK9E001))
             (fillna0 (v RLIE001))
             (fillna0 (v RNBE001))
             (Geo.w_dist w)
             (fillna0 (Geo.proportion w))
             (fillna0 (percent (v RLIE012) (v RK9E001)))
             (fillna0 (percent (v RLIE003) (v RK9E001)))
             (fillna0 (percent (v RLIE004) (v RK9E001)))
             (fillna0 (percent (v RLIE006) (v RK9E001)))
             (fillna0 (percent (fadd (v RNBE002) (v RNBE003)) (v RNBE001))))
        (filter (fun a => String.eqb (Geo.w_tract w) (census_tract_id a)) acs))
    weights.

(** Step 4, second cell: [filtered_df.groupby('dist_num')
    .agg(agg_funcs).reset_index()] with [sum] for the population and
    [mean] for the percentages. *)
Definition district_aggregated2005 (filtered : list filtered_row)
    : list district_row :=
  map (fun k =>
         let g := filter (fun f => String.eqb (f_dist_num f) k) filtered in
         mk_district_row k
           (sum_skipna (map f_Total_Population g))
           (mean (map f_Poverty_Percent g))
           (mean (map f_Percent_NonHispanic_White g))
           (mean (map f_Percent_NonHispanic_Black g))
           (mean (map f_Percent_NonHispanic_Asian g))
           (mean (map f_Percent_Hispanic g)))
      (group_keys string_dec (map f_dist_num filtered)).

Section Notebook.

Variable geometry : Type.
Variable to_crs : geometry -> geometry.
Variable inter_area : geometry -> geometry -> Q.
Variable parse_datetime : string -> option datetime.

(** Step 3: the districts without the rows labelled ['31ST'], the
    overlay, the proportions, and the filter [dist_num != 31] on the
    result, which compares the text of [dist_num] with an integer. *)
Definition tracts_to_districts (tracts : list (Geo.tract geometry))
    (districts : list (Geo.district geometry)) : list Geo.weight :=
  let districts := Geo.drop_31ST districts in
  let tracts := Geo.reproject_tracts to_crs tracts in
  let districts := Geo.reproject_districts to_crs districts in
  let tracts_to_districts :=
    Geo.areal_weights (Geo.overlay inter_area tracts districts) in
  filter (fun w => py_ne (PyStr (Geo.w_dist w)) (PyInt 31)) tracts_to_districts.

(** Steps 5 to 7: dates, the years 2005 to 2009, and the leading zeros
    of [District]. *)
Definition crime_filtered2005 (crime_data : list crime_unit)
    : outcome (list Nb.dated_crime) :=
  dated <- Nb.convert_dates parse_datetime crime_data ;;
  Returned (map Nb.strip_district (filter (Nb.year_between 2005 2009) dated)).

(** Step 8: the counts per district, year and month. *)
Definition crime_counts (crime_data : list crime_unit)
    : outcome Nb.crime_frame :=
  filtered <- crime_filtered2005 crime_data ;;
  Returned (Nb.aggregate filtered).

(** The left merge on the district alone; the column [dist_num] is
    dropped afterwards. *)
Definition matches (r : Nb.agg_row) (d : district_row) : bool :=
  String.eqb (Nb.ag_District r) (dist_num d).

Definition merge_population (survey : list district_row)
    (counts : list Nb.agg_row) : list merged_row :=
  flat_map (fun r =>
    match filter (matches r) survey with
    | [] => [mk_merged_row r NaN]
    | ds => map (fun d => mk_merged_row r (Total_Population d)) ds
    end) counts.

Definition crime_merged (survey : list district_row)
    (crime_data : list crime_unit) : outcome (list merged_row) :=
  frame <- crime_counts crime_data ;;
  Returned (merge_population survey (Nb.rows frame)).

(** The six rates and their total on one row. *)
Definition with_rates (r : merged_row) : rate_row :=
  let rate := fun c => Nb.rate_of (Nb.ag_count (cm_counts r) c)
                                  (cm_Total_Population r) in
  mk_rate_row r rate (Nb.total_of rate).

(** The table that is saved as [crime_2005-2009.parquet]. *)
Definition crime_aggregated_monthly2005 (survey : list district_row)
    (crime_data : list crime_unit) : outcome (list rate_row) :=
  frame <- crime_counts crime_data ;;
  let merged := merge_population survey (Nb.rows frame) in
  match Nb.first_missing (Nb.columns frame) crime_types with
  | Some c => Raised ("KeyError: " ++ c)
  | None => Returned (map with_rates merged)
  end.

(** The notebook from its inputs: the survey file, the two
    shapefiles and the crime file. *)
Definition survey_table (acs2005_2009 : list nhgis_row)
    (tracts : list (Geo.tract geometry))
    (districts : list (Geo.district geometry)) : list district_row :=
  district_aggregated2005
    (filtered_df (tracts_to_districts tracts districts)
                 (acs2005_2009_chicago acs2005_2009)).

Definition crime_table (acs2005_2009 : list nhgis_row)
    (tracts : list (Geo.tract geometry))
    (districts : list (Geo.district geometry))
    (crime_data : list crime_unit) : outcome (list rate_row) :=
  crime_aggregated_monthly2005
    (survey_table acs2005_2009 tracts districts) crime_data.

End Notebook.
End Pre2010.

(* ================================================================== *)
(** ** A small city used to run the scripts

    Geometries are intervals of a line, the area of an intersection is
    the length of the overlap, and the reprojection changes nothing. *)

Module City.

Definition strip : Type := (Q * Q)%type.

Definition overlap (a b : strip) : Q :=
  let lo := if Qle_bool (fst a) (fst b) then fst b else fst a in
  let hi := if Qle_bool (snd a) (snd b) then snd a else snd b in
  if Qle_bool lo hi then hi - lo else 0.

Definition same_crs (g : strip) : strip := g.

(** One tract that lies half in district 1 and half in district 2,
    next to the area labelled ['31ST']. *)
Definition tracts : list (Geo.tract strip) :=
  [Geo.mk_tract "17031010100" (0, 2)].

Definition districts : list (Geo.district strip) :=
  [Geo.mk_district "1ST" "1" (0, 1);
   Geo.mk_district "2ND" "2" (1, 2);
   Geo.mk_district "31ST" "31" (2, 5)].

(** Value of a decimal digit. *)
Definition digit (c : ascii) : option Z :=
  let n := nat_of_ascii c in
  if (48 <=? n)%nat && (n <=? 57)%nat then Some (Z.of_nat (n - 48)) else None.

Definition two_digits (a b : ascii) : option Z :=
  match digit a, digit b with
  | Some x, Some y => Some (10 * x + y)%Z
  | _, _ => None
  end.

(** A parser for the one layout ["MM/DD/YYYY HH:MM:SS"] followed by
    [" AM"] or [" PM"]; it stands for the date parsers of lubridate and
    pandas on the inputs below. *)
Definition parse_mdy_hms (s : string) : option datetime :=
  match list_ascii_of_string s with
  | [m1; m2; "/"; d1; d2; "/"; y1; y2; y3; y4; " ";
     h1; h2; ":"; n1; n2; ":"; s1; s2; " "; ap; "M"]%char =>
      match two_digits m1 m2, two_digits d1 d2, two_digits y1 y2,
            two_digits y3 y4, two_digits h1 h2, two_digits n1 n2,
            two_digits s1 s2 with
      | Some mo, Some dd, Some yh, Some yl, Some hh, Some mi, Some ss =>
          if ((1 <=? mo) && (mo <=? 12) && (1 <=? dd) && (dd <=? 31) &&
              (1 <=? hh) && (hh <=? 12) && (mi <=? 59) && (ss <=? 59))%Z
          then
            if Ascii.eqb ap "A" then
              Some (mk_datetime (100 * yh + yl) mo dd (hh mod 12) mi ss)
            else if Ascii.eqb ap "P" then
              Some (mk_datetime (100 * yh + yl) mo dd (hh mod 12 + 12) mi ss)
            else None
          else None
      | _, _, _, _, _, _, _ => None
      end
  | _ => None
  end.

(** The window of step 8 of the R script on the calendar date. *)
Definition in_window (d : datetime) : bool :=
  (2004 <=? dt_year d)%Z && (dt_year d <=? 2020)%Z.

(** One incident in a district, at a date, of a primary type. *)
Definition incident (id : Z) (district : Z) (date : string)
    (primary_type : string) : RStep.raw_crime :=
  RStep.mk_raw_crime date id "0111" (Some district) (Num 1) false
    (Num (418 # 10)) (Num (-876 # 10)) (Some primary_type).

(** One incident of each category in district 1 and one incident in
    district 5, in 2007, in 2015 and in 2008; one more record whose
    date is not a date. *)
Definition incidents_of (first_id : Z) (date : string) : list RStep.raw_crime :=
  [incident first_id 1 date "BATTERY";
   incident (first_id + 1) 1 date "THEFT";
   incident (first_id + 2) 1 date "NARCOTICS";
   incident (first_id + 3) 1 date "GAMBLING";
   incident (first_id + 4) 1 date "OTHER OFFENSE";
   incident (first_id + 5) 1 date "RITUALISM";
   incident (first_id + 6) 5 date "THEFT"].

Definition crimes_csv : list RStep.raw_crime :=
  incidents_of 100 "03/14/2007 09:30:00 PM" ++
  incidents_of 200 "09/05/2015 01:30:00 PM" ++
  [incident 300 1 "not a date" "THEFT"] ++
  incidents_of 400 "11/02/2008 08:00:00 AM".

(** The file that the R step writes from [crimes_csv]. *)
Definition crimeunits : list crime_unit :=
  RStep.crime_units parse_mdy_hms in_window crimes_csv.

(** A crime file whose only record carries its date as text that is
    not a date. *)
Definition undated : crime_unit :=
  mk_crime_unit (DString "not a date") 300 "0111" "001" (Num 1) false
    (Num (418 # 10)) (Num (-876 # 10)) (Some "THEFT") "Property Crime".

(** The survey: 100 residents in the one tract, 20 of them below the
    poverty threshold, in every year. *)
Definition acs_estimate (v : Post2009.acs_var) : fval :=
  match v with
  | Post2009.B01003_001E => Num 100
  | Post2009.B03002_003E => Num 40
  | Post2009.B03002_004E => Num 30
  | Post2009.B03002_006E => Num 10
  | Post2009.B03002_012E => Num 20
  | Post2009.C17002_001E => Num 100
  | Post2009.C17002_002E => Num 5
  | Post2009.C17002_003E => Num 15
  end.

Definition acs5 (y : Z) : list Post2009.api_row :=
  [Post2009.mk_api_row "17" "031" "010100" acs_estimate].

Definition nhgis_estimate (v : Pre2010.nhgis_var) : fval :=
  match v with
  | Pre2010.RK9E001 => Num 100
  | Pre2010.RLIE001 => Num 100
  | Pre2010.RLIE003 => Num 40
  | Pre2010.RLIE004 => Num 30
  | Pre2010.RLIE006 => Num 10
  | Pre2010.RLIE012 => Num 20
  | Pre2010.RNBE001 => Num 100
  | Pre2010.RNBE002 => Num 5
  | Pre2010.RNBE003 => Num 15
  end.

Definition nhgis_csv : list Pre2010.nhgis_row :=
  [Pre2010.mk_nhgis_row 17 31 10100 nhgis_estimate].

(** The tables that the two notebooks save for this city. *)
Definition survey2010 : list Post2009.district_row :=
  Post2009.survey_table same_crs overlap acs5 tracts districts.

Definition survey2005 : list Pre2010.district_row :=
  Pre2010.survey_table same_crs overlap nhgis_csv tracts districts.

Definition rows2010 : list Post2009.rate_row :=
  match Post2009.crime_table same_crs overlap acs5 parse_mdy_hms
          tracts districts crimeunits with
  | Returned table => table
  | Raised _ => []
  end.

Definition rows2005 : list Pre2010.rate_row :=
  match Pre2010.crime_table same_crs overlap parse_mdy_hms nhgis_csv
          tracts districts crimeunits with
  | Returned table => table
  | Raised _ => []
  end.

Definition no_counts : Nb.agg_row :=
  Nb.mk_agg_row "" 0 0 (fun _ => O).

Definition no_row2010 : Post2009.rate_row :=
  Post2009.mk_rate_row (Post2009.mk_merged_row no_counts None NaN)
                       (fun _ => NaN) NaN.

Definition no_row2005 : Pre2010.rate_row :=
  Pre2010.mk_rate_row (Pre2010.mk_merged_row no_counts NaN)
                      (fun _ => NaN) NaN.

End City.

(* ================================================================== *)
(** ** Vocabulary of the statements *)

(** The area in a row of the overlay, as a rational. *)
Definition area_of (p : Geo.piece) : Q :=
  match Geo.intersection_area p with
  | Num a => a
  | _ => 0
  end.

(** Every row of an overlay has a positive, finite area. *)
Definition positive_areas (pieces : list Geo.piece) : Prop :=
  Forall (fun p => exists a, Geo.intersection_area p = Num a /\ 0 < a) pieces.


(** The sum of the [proportion] column over the rows of tract [k]. *)
Definition proportion_sum (table : list Geo.weight) (k : string) : fval :=
  fsum (map Geo.proportion
            (filter (fun w => String.eqb (Geo.w_tract w) k) table)).

(** What [errors='coerce'] makes of one cell of a date column. *)
Definition coerce_cell (parse_datetime : string -> option datetime)
    (c : date_cell) : option datetime :=
  match c with
  | DTimestamp d => Some d
  | DString s => parse_datetime s
  | DNull => None
  end.

(** The district identifiers that leave the R step, without leading
    zeros: the form in which the notebooks compare them with
    [dist_num]. *)
Definition normalized_districts : list string :=
  nodup string_dec
    (map (fun d => lstrip0 (RStep.recode d RStep.district_mapping))
         RStep.districts).

(** The primary types that the [case_when] of the R step lists. *)
Definition listed_types : list string :=
  RStep.violent_types ++ RStep.property_types ++ RStep.drug_types ++
  RStep.public_order_types ++ RStep.administrative_types.

(** A finite, non-negative number. *)
Definition finite_nonneg (a : fval) : Prop :=
  exists q, a = Num q /\ 0 <= q.

(** A cell that is missing or a finite, non-negative number: a
    population estimate as the survey files give it. *)
Definition estimate_ok (a : fval) : Prop :=
  a = NaN \/ finite_nonneg a.

(** A cell that is missing or not below zero. *)
Definition missing_or_nonneg (a : fval) : Prop :=
  a = NaN \/ fge0 a = true.


(** Every proportion of an areal-weight table is a positive number. *)
Definition positive_weights (table : list Geo.weight) : Prop :=
  forall w, In w table -> exists p, Geo.proportion w = Num p /\ 0 < p.



(** The number that a string of decimal digits denotes; leading zeros
    do not count. *)
Definition code_value (s : string) : option N :=
  option_map N.of_uint (NilZero.uint_of_string s).

(** The district number after the recoding of the deprecated
    districts 13, 21 and 23. *)
Definition recoded_number (z : Z) : Z :=
  if (z =? 13)%Z then 12
  else if (z =? 21)%Z then 2
  else if (z =? 23)%Z then 19
  else z.

(** The key of a row of the table of counts. *)
Definition row_key (r : Nb.agg_row) : string * Z * Z :=
  (Nb.ag_District r, Nb.ag_year r, Nb.ag_month r).

(** The number of incidents of a row over the category columns of its
    table, and of a whole table. *)
Definition row_total (cols : list string) (r : Nb.agg_row) : nat :=
  list_sum (map (Nb.ag_count r) cols).

Definition frame_total (frame : Nb.crime_frame) : nat :=
  list_sum (map (row_total (Nb.columns frame)) (Nb.rows frame)).

(** A crime record whose converted date has a year from [lo] to [hi]. *)
Definition in_years (parse_datetime : string -> option datetime)
    (lo hi : Z) (u : crime_unit) : bool :=
  match coerce_cell parse_datetime (Date u) with
  | Some d => (lo <=? dt_year d)%Z && (dt_year d <=? hi)%Z
  | None => false
  end.

(** The three-digit district codes that the R step can write. *)
Definition written_codes : list string :=
  nodup string_dec
    (map (fun d => RStep.recode d RStep.district_mapping) RStep.districts).

(** A boundary table in which the area numbered 31 carries another
    label than ['31ST']. *)
Module Relabelled.

Definition districts : list (Geo.district City.strip) :=
  [Geo.mk_district "1ST" "1" (0, 1);
   Geo.mk_district "OHARE" "31" (1, 2)].

End Relabelled.

(** The number in a cell; 0 for a cell that is not a number. *)
Definition num_of (a : fval) : Q :=
  match a with
  | Num q => q
  | _ => 0
  end.

(** A cell that is missing or a finite number. *)
Definition finite_or_missing (a : fval) : Prop :=
  a = NaN \/ exists q, a = Num q.

(** A percentage that is missing or a number from 0 to 100. *)
Definition percent_ok (a : fval) : Prop :=
  a = NaN \/ exists q, a = Num q /\ 0 <= q <= 100.

(** The estimates of a tract as the ACS tables relate them: each is
    missing or a non-negative number, each race or ethnicity group is
    at most the total population, and the two poverty bands together
    are at most the population for whom poverty status is determined. *)
Definition consistent_estimates (e : Post2009.acs_var -> fval) : Prop :=
  (forall v, estimate_ok (e v)) /\
  num_of (e Post2009.B03002_003E) <= num_of (e Post2009.B01003_001E) /\
  num_of (e Post2009.B03002_004E) <= num_of (e Post2009.B01003_001E) /\
  num_of (e Post2009.B03002_006E) <= num_of (e Post2009.B01003_001E) /\
  num_of (e Post2009.B03002_012E) <= num_of (e Post2009.B01003_001E) /\
  num_of (e Post2009.C17002_002E) + num_of (e Post2009.C17002_003E)
    <= num_of (e Post2009.C17002_001E).

(** A percentage that is a number from 0 to 100. *)
Definition percentage (a : fval) : Prop :=
  exists q, a = Num q /\ 0 <= q <= 100.

(** The estimates of a tract in the 2005-2009 survey file as the
    tables relate them: each is missing or a non-negative number, each
    race or ethnicity group is at most the total population, and the
    two poverty bands together are at most the population for whom
    poverty status is determined. *)
Definition consistent_estimates2005 (e : Pre2010.nhgis_var -> fval) : Prop :=
  (forall v, estimate_ok (e v)) /\
  num_of (e Pre2010.RLIE012) <= num_of (e Pre2010.RK9E001) /\
  num_of (e Pre2010.RLIE003) <= num_of (e Pre2010.RK9E001) /\
  num_of (e Pre2010.RLIE004) <= num_of (e Pre2010.RK9E001) /\
  num_of (e Pre2010.RLIE006) <= num_of (e Pre2010.RK9E001) /\
  num_of (e Pre2010.RNBE002) + num_of (e Pre2010.RNBE003)
    <= num_of (e Pre2010.RNBE001).

(* ================================================================== *)
(** * Properties *)

Unset Implicit Arguments.

(** ** Float cells and sums *)

Lemma Qsign_pos (q : Q) : Qsign q = Lt <-> 0 < q.
Proof. unfold Qsign. rewrite Qlt_alt. tauto. Qed.

Lemma Qsign_zero (q : Q) : Qsign q = Eq <-> q == 0.
Proof.
  unfold Qsign. rewrite <- Qeq_alt. split; intro H; symmetry; exact H.
Qed.

Lemma Qsign_neg (q : Q) : Qsign q = Gt <-> q < 0.
Proof. unfold Qsign. rewrite Qgt_alt. tauto. Qed.

Lemma fsum_Num (l : list Q) : fsum (map Num l) = Num (Qsum l).
Proof.
  induction l as [|x r IH]; simpl; [reflexivity|].
  rewrite IH. reflexivity.
Qed.

Lemma skipna_Num (l : list Q) :
  filter (fun a => negb (is_nan a)) (map Num l) = map Num l.
Proof.
  induction l as [|x r IH]; simpl; [reflexivity|]. now rewrite IH.
Qed.

Lemma sum_skipna_Num (l : list Q) : sum_skipna (map Num l) = Num (Qsum l).
Proof. unfold sum_skipna. rewrite skipna_Num. apply fsum_Num. Qed.

Lemma Qsum_pos (l : list Q) :
  l <> [] -> Forall (fun x => 0 < x) l -> 0 < Qsum l.
Proof.
  induction l as [|x r IH]; intros Hne Hall; [congruence|].
  inversion Hall as [|? ? Hx Hr]; subst. simpl.
  destruct r as [|y r'].
  - simpl. lra.
  - assert (0 < Qsum (y :: r')) by (apply IH; [discriminate|assumption]). lra.
Qed.

Lemma Qsum_nonneg (l : list Q) : Forall (fun x => 0 <= x) l -> 0 <= Qsum l.
Proof.
  induction 1 as [|x r Hx _ IH]; simpl; lra.
Qed.

Lemma Qsum_scale (c : Q) (l : list Q) :
  Qsum (map (fun x => x * c) l) == Qsum l * c.
Proof.
  induction l as [|x r IH]; simpl; [lra|]. rewrite IH. lra.
Qed.

Lemma filter_map_swap {A B : Type} (f : B -> bool) (g : A -> B) (l : list A) :
  filter f (map g l) = map g (filter (fun x => f (g x)) l).
Proof.
  induction l as [|x r IH]; simpl; [reflexivity|].
  destruct (f (g x)); simpl; now rewrite IH.
Qed.

(** ** The overlay and the areal weights *)

Section GeoFacts.

Variable geometry : Type.
Variable inter_area : geometry -> geometry -> Q.

Lemma overlay_In (ts : list (Geo.tract geometry))
    (ds : list (Geo.district geometry)) (p : Geo.piece) :
  In p (Geo.overlay inter_area ts ds) <->
  exists t d, In t ts /\ In d ds /\
    0 < inter_area (Geo.tract_geom t) (Geo.dist_geom d) /\
    p = Geo.mk_piece (Geo.tract_id t) (Geo.dist_label d) (Geo.dist_num d)
          (Num (inter_area (Geo.tract_geom t) (Geo.dist_geom d))).
Proof.
  unfold Geo.overlay. rewrite in_flat_map. split.
  - intros (t & Ht & Hp). apply in_flat_map in Hp. destruct Hp as (d & Hd & Hp).
    exists t, d. cbv zeta in Hp.
    destruct (Qsign (inter_area (Geo.tract_geom t) (Geo.dist_geom d))) eqn:E;
      simpl in Hp; try contradiction.
    destruct Hp as [Hp|[]]. apply Qsign_pos in E. auto.
  - intros (t & d & Ht & Hd & Hpos & ->). exists t. split; [assumption|].
    apply in_flat_map. exists d. split; [assumption|]. cbv zeta.
    apply Qsign_pos in Hpos. rewrite Hpos. left. reflexivity.
Qed.

Lemma overlay_positive (ts : list (Geo.tract geometry))
    (ds : list (Geo.district geometry)) :
  positive_areas (Geo.overlay inter_area ts ds).
Proof.
  apply Forall_forall. intros p Hp. apply overlay_In in Hp.
  destruct Hp as (t & d & _ & _ & Hpos & ->). simpl. eauto.
Qed.

End GeoFacts.

Lemma positive_areas_filter (f : Geo.piece -> bool) (l : list Geo.piece) :
  positive_areas l -> positive_areas (filter f l).
Proof.
  unfold positive_areas. rewrite !Forall_forall. intros H p Hp.
  apply filter_In in Hp. apply H, Hp.
Qed.

Lemma positive_areas_Num (l : list Geo.piece) :
  positive_areas l ->
  map Geo.intersection_area l = map Num (map area_of l).
Proof.
  induction 1 as [|p r (a & Ha & _) _ IH]; simpl; [reflexivity|].
  rewrite IH. unfold area_of. rewrite Ha. reflexivity.
Qed.

Lemma positive_areas_sum (l : list Geo.piece) :
  positive_areas l -> l <> [] -> 0 < Qsum (map area_of l).
Proof.
  intros H Hne. apply Qsum_pos.
  - destruct l; [congruence|discriminate].
  - apply Forall_map. revert H. apply Forall_impl.
    intros p (a & Ha & Hpos). unfold area_of. now rewrite Ha.
Qed.

(** The total area of a tract that occurs in the overlay is a positive
    number. *)
Lemma total_tract_area_pos (pieces : list Geo.piece) (k : string) :
  positive_areas pieces -> In k (map Geo.p_tract pieces) ->
  exists T, Geo.total_tract_area pieces k = Num T /\ 0 < T /\
    T = Qsum (map area_of
                (filter (fun p => String.eqb (Geo.p_tract p) k) pieces)).
Proof.
  intros Hpos Hk. unfold Geo.total_tract_area.
  set (F := filter (fun p => String.eqb (Geo.p_tract p) k) pieces).
  assert (HF : positive_areas F) by now apply positive_areas_filter.
  rewrite (positive_areas_Num _ HF), sum_skipna_Num.
  eexists; split; [reflexivity|]. split; [|reflexivity].
  apply positive_areas_sum; [assumption|].
  apply in_map_iff in Hk. destruct Hk as (p & Hp & Hin).
  intro E. assert (In p F) as Hc.
  { apply filter_In. split; [assumption|]. rewrite Hp. apply String.eqb_refl. }
  rewrite E in Hc. exact Hc.
Qed.

(** Each proportion is the area of the row over the positive total of
    its tract. *)
Lemma proportion_value (pieces : list Geo.piece) (p : Geo.piece) :
  positive_areas pieces -> In p pieces ->
  fdiv (Geo.intersection_area p)
       (Geo.total_tract_area pieces (Geo.p_tract p)) =
  Num (area_of p /
       Qsum (map area_of
               (filter (fun x => String.eqb (Geo.p_tract x) (Geo.p_tract p))
                       pieces))) /\
  0 < area_of p /\
  0 < Qsum (map area_of
              (filter (fun x => String.eqb (Geo.p_tract x) (Geo.p_tract p))
                      pieces)).
Proof.
  intros Hpos Hp.
  destruct (@total_tract_area_pos pieces (Geo.p_tract p) Hpos) as (T & HT & HTpos & HTeq).
  { apply in_map. assumption. }
  unfold positive_areas in Hpos. rewrite Forall_forall in Hpos.
  destruct (Hpos p Hp) as (a & Ha & Hapos).
  rewrite HT, Ha. unfold area_of. rewrite Ha. simpl.
  apply Qsign_pos in HTpos as HTs. rewrite HTs. subst T.
  split; [reflexivity|]. split; assumption.
Qed.

Lemma areal_weights_sum_to_one (pieces : list Geo.piece) (k : string) :
  positive_areas pieces -> In k (map Geo.p_tract pieces) ->
  feq (proportion_sum (Geo.areal_weights pieces) k) (Num 1).
Proof.
  intros Hpos Hk. unfold proportion_sum, Geo.areal_weights.
  rewrite filter_map_swap. cbn [Geo.w_tract]. rewrite map_map. cbn [Geo.proportion].
  set (F := filter (fun p => String.eqb (Geo.p_tract p) k) pieces).
  destruct (@total_tract_area_pos pieces k Hpos Hk) as (T & HT & HTpos & HTeq).
  fold F in HTeq.
  rewrite (map_ext_in _ (fun p => Num (area_of p * / T))).
  - rewrite <- (map_map (fun p => area_of p * / T) Num), fsum_Num.
    rewrite <- (map_map area_of (fun x => x * / T)).
    simpl. rewrite Qsum_scale, <- HTeq. field. lra.
  - intros p Hp. apply filter_In in Hp. destruct Hp as [Hp Hkp].
    apply String.eqb_eq in Hkp.
    destruct (@proportion_value pieces p Hpos Hp) as (E & _ & _).
    rewrite E, Hkp. fold F. rewrite <- HTeq. reflexivity.
Qed.

Lemma filter_all {A : Type} (f : A -> bool) (l : list A) :
  (forall x, f x = true) -> filter f l = l.
Proof.
  intro H. induction l as [|x r IH]; simpl; [reflexivity|].
  now rewrite H, IH.
Qed.

(** The filter [dist_num != 31] of the 2005-2009 notebook compares a
    string with an integer and keeps every row. *)
Lemma Pre2010_filter_31_keeps_all (table : list Geo.weight) :
  filter (fun w => py_ne (PyStr (Geo.w_dist w)) (PyInt 31)) table = table.
Proof. apply filter_all. reflexivity. Qed.




(** ** Dates and counts in the notebooks *)

Section NbFacts.

Variable parse_datetime : string -> option datetime.

Lemma to_datetime_cell_coerce (c : date_cell) :
  Nb.to_datetime_cell parse_datetime Nb.errors_coerce c =
  Returned (coerce_cell parse_datetime c).
Proof.
  destruct c as [d|s|]; simpl; try reflexivity.
  destruct (parse_datetime s); reflexivity.
Qed.

Lemma to_datetime_coerce (column : list date_cell) :
  Nb.to_datetime parse_datetime Nb.errors_coerce column =
  Returned (map (coerce_cell parse_datetime) column).
Proof.
  induction column as [|c rest IH]; [reflexivity|].
  cbn [Nb.to_datetime]. rewrite to_datetime_cell_coerce, IH. reflexivity.
Qed.

Lemma convert_dates_returns (crime_data : list crime_unit) :
  Nb.convert_dates parse_datetime crime_data =
  Returned (map (fun u => Nb.add_year_month u (coerce_cell parse_datetime (Date u)))
                crime_data).
Proof.
  unfold Nb.convert_dates. rewrite to_datetime_coerce. simpl. f_equal.
  induction crime_data as [|u r IH]; simpl; [reflexivity|]. now rewrite IH.
Qed.

End NbFacts.

Lemma keyed_In (l : list Nb.dated_crime) (k : string * Z * Z) (c : string) :
  In (k, c) (Nb.keyed l) <->
  exists r, In r l /\ Nb.dc_year r = Some (snd (fst k)) /\
            Nb.dc_month r = Some (snd k) /\
            Nb.dc_District r = fst (fst k) /\
            Crime_Category (Nb.dc_unit r) = c.
Proof.
  unfold Nb.keyed. rewrite in_flat_map. split.
  - intros (r & Hr & Hin). exists r.
    destruct (Nb.dc_year r) as [y|], (Nb.dc_month r) as [m|];
      simpl in Hin; try contradiction.
    destruct Hin as [E|[]]. inversion E; subst. simpl. auto.
  - intros (r & Hr & Hy & Hm & Hd & Hc). exists r. split; [assumption|].
    rewrite Hy, Hm. left. destruct k as [[d y] m]. simpl in *. now subst.
Qed.

(** Every row of the table of counts comes from a record of its
    district, year and month. *)
Lemma aggregate_row_origin (l : list Nb.dated_crime) (r : Nb.agg_row) :
  In r (Nb.rows (Nb.aggregate l)) ->
  exists x, In x l /\ Nb.dc_District x = Nb.ag_District r /\
            Nb.dc_year x = Some (Nb.ag_year r) /\
            Nb.dc_month x = Some (Nb.ag_month r).
Proof.
  unfold Nb.aggregate. cbn [Nb.rows]. intro H.
  apply in_map_iff in H. destruct H as (k & <- & Hk).
  unfold group_keys in Hk. apply nodup_In in Hk.
  apply in_map_iff in Hk. destruct Hk as ([k' c] & <- & Hkc).
  apply keyed_In in Hkc. destruct Hkc as (x & Hx & Hy & Hm & Hd & _).
  exists x. simpl in *. auto.
Qed.

(** ** The R step *)

Lemma categorize_in_crime_types (pt : option string) :
  In (RStep.categorize pt) crime_types.
Proof.
  unfold RStep.categorize, crime_types.
  repeat match goal with
         | |- context [if ?b then _ else _] => destruct b
         end; simpl; auto 10.
Qed.

Lemma in_types_app (pt : option string) (l1 l2 : list string) :
  RStep.in_types pt (l1 ++ l2) =
  RStep.in_types pt l1 || RStep.in_types pt l2.
Proof.
  destruct pt as [s|]; [|reflexivity].
  unfold RStep.in_types, str_in. apply existsb_app.
Qed.

Ltac by_listed_type s :=
  repeat match goal with
         | |- (String.eqb s ?x || _)%bool = true -> _ =>
             destruct (String.eqb_spec s x) as [->|_];
             [intros _; reflexivity | simpl]
         | |- false = true -> _ => intro; discriminate
         end.

(** C6. The category mapping of the R step gives every Primary Type
    value, a missing one included, one of the six labels: the label of
    the list that contains the value, and ['Other'] for a value in
    none of the lists.  The six labels are distinct, and the category
    column of every record that the step writes is this label. *)
Theorem crime_category_is_one_of_six :
  NoDup crime_types /\
  (forall pt : option string,
     In (RStep.categorize pt) crime_types /\
     (RStep.in_types pt RStep.violent_types = true ->
      RStep.categorize pt = "Violent Crime") /\
     (RStep.in_types pt RStep.property_types = true ->
      RStep.categorize pt = "Property Crime") /\
     (RStep.in_types pt RStep.drug_types = true ->
      RStep.categorize pt = "Drug-Related Crime") /\
     (RStep.in_types pt RStep.public_order_types = true ->
      RStep.categorize pt = "Public Order Crime") /\
     (RStep.in_types pt RStep.administrative_types = true ->
      RStep.categorize pt = "Administrative or Non-Criminal") /\
     (RStep.in_types pt listed_types = false ->
      RStep.categorize pt = "Other")) /\
  (forall mdy_hms in_window crime_data u,
     In u (RStep.crime_units mdy_hms in_window crime_data) ->
     Crime_Category u = RStep.categorize (Primary_Type u)).
Proof.
  split; [|split].
  - unfold crime_types.
    repeat (constructor; [simpl; intuition discriminate|]). constructor.
  - intro pt. split; [apply categorize_in_crime_types|].
    repeat split.
    + intro H. unfold RStep.categorize. now rewrite H.
    + destruct pt as [s|]; [|discriminate].
      unfold RStep.in_types, str_in, RStep.property_types. simpl existsb.
      by_listed_type s.
    + destruct pt as [s|]; [|discriminate].
      unfold RStep.in_types, str_in, RStep.drug_types. simpl existsb.
      by_listed_type s.
    + destruct pt as [s|]; [|discriminate].
      unfold RStep.in_types, str_in, RStep.public_order_types. simpl existsb.
      by_listed_type s.
    + destruct pt as [s|]; [|discriminate].
      unfold RStep.in_types, str_in, RStep.administrative_types. simpl existsb.
      by_listed_type s.
    + unfold listed_types. rewrite !in_types_app, !orb_false_iff.
      intros (H1 & H2 & H3 & H4 & H5). unfold RStep.categorize.
      now rewrite H1, H2, H3, H4, H5.
  - intros mdy_hms in_window crime_data u Hu. unfold RStep.crime_units in Hu.
    apply in_map_iff in Hu. destruct Hu as (r & <- & _). reflexivity.
Qed.

(** C6 on three values: a listed type, an unlisted one, and [NA]. *)
Lemma crime_category_is_one_of_six_witness :
  RStep.categorize (Some "BATTERY") = "Violent Crime" /\
  RStep.categorize (Some "RITUALISM") = "Other" /\
  RStep.categorize None = "Other".
Proof.
  destruct crime_category_is_one_of_six as (_ & H & _).
  split; [|split].
  - apply (H (Some "BATTERY")). reflexivity.
  - apply (H (Some "RITUALISM")). reflexivity.
  - apply (H None). reflexivity.
Defined.

Lemma str_in_In (s : string) (l : list string) : str_in s l = true <-> In s l.
Proof.
  unfold str_in. rewrite existsb_exists. split.
  - intros (x & Hx & E). apply String.eqb_eq in E. now subst.
  - intro H. exists s. split; [assumption|apply String.eqb_refl].
Qed.

(** Every record that the R step writes has a timestamp and a district
    among the twenty-two that remain after the recoding. *)
Lemma crime_units_record (mdy_hms : string -> option datetime)
    (in_window : datetime -> bool) (crime_data : list RStep.raw_crime)
    (u : crime_unit) :
  In u (RStep.crime_units mdy_hms in_window crime_data) ->
  In (lstrip0 (District u)) normalized_districts /\
  exists d, Date u = DTimestamp d.
Proof.
  unfold RStep.crime_units. intro Hu.
  apply in_map_iff in Hu. destruct Hu as (r & <- & Hr).
  apply filter_In in Hr. destruct Hr as [Hr Hdist].
  apply filter_In in Hr. destruct Hr as [_ Hdate].
  split.
  - unfold normalized_districts. apply nodup_In.
    apply str_in_In in Hdist. cbn [RStep.finish District].
    apply (in_map (fun d => lstrip0 (RStep.recode d RStep.district_mapping))) in Hdist.
    exact Hdist.
  - unfold RStep.date_filter in Hdate. cbn [RStep.finish Date].
    destruct (RStep.cr_Date r) as [d|]; [eauto|discriminate].
Qed.

(** The three-digit code of a district number from 1 to 25 is one of
    the codes that the R step keeps, and without its leading zeros it
    is the number in decimal. *)
Lemma district_code_roundtrip (z : Z) :
  (1 <= z <= 25)%Z ->
  In (RStep.sprintf_03d (Some z)) RStep.districts /\
  lstrip0 (RStep.sprintf_03d (Some z)) = str_of_int z.
Proof.
  intro Hz.
  assert (H : In z (map Z.of_nat (seq 1 25))).
  { apply in_map_iff. exists (Z.to_nat z). split; [lia|].
    apply in_seq. lia. }
  clear Hz. cbn [seq map Z.of_nat] in H.
  repeat (destruct H as [<-|H]; [split; [cbn; tauto|reflexivity]|]).
  destruct H.
Qed.



(** ** The crime tables of the notebooks *)

Section CrimeFacts.

Variable parse_datetime : string -> option datetime.



(** The counts never fail: the date conversion coerces. *)
Lemma Post2009_counts_returns (crime_data : list crime_unit) :
  exists frame, Post2009.crime_counts parse_datetime crime_data = Returned frame.
Proof.
  unfold Post2009.crime_counts, Post2009.crime_filtered_2010_2020.
  rewrite convert_dates_returns. simpl. eauto.
Qed.

Lemma Pre2010_counts_returns (crime_data : list crime_unit) :
  exists frame, Pre2010.crime_counts parse_datetime crime_data = Returned frame.
Proof.
  unfold Pre2010.crime_counts, Pre2010.crime_filtered2005.
  rewrite convert_dates_returns. simpl. eauto.
Qed.

End CrimeFacts.

(** A row of the merged table keeps its counts; its population is that
    of a survey row of its district and year, or is missing when there
    is none. *)
Lemma Post2009_merge_row (survey : list Post2009.district_row)
    (counts : list Nb.agg_row) (m : Post2009.merged_row) :
  In m (Post2009.merge_population survey counts) ->
  In (Post2009.cm_counts m) counts /\
  ((Post2009.cm_dist_num m = None /\ Post2009.cm_Total_Population m = NaN /\
    filter (Post2009.matches (Post2009.cm_counts m)) survey = []) \/
   (exists d, In d (filter (Post2009.matches (Post2009.cm_counts m)) survey) /\
      Post2009.cm_dist_num m = Some (Post2009.dist_num d) /\
      Post2009.cm_Total_Population m = Post2009.Total_Population d)).
Proof.
  unfold Post2009.merge_population. intro H.
  apply in_flat_map in H. destruct H as (r & Hr & Hm).
  destruct (filter (Post2009.matches r) survey) as [|d ds] eqn:E.
  - destruct Hm as [<-|[]]. simpl. split; [assumption|]. left. auto.
  - apply in_map_iff in Hm. destruct Hm as (d' & <- & Hd'). simpl.
    split; [assumption|]. right. exists d'. rewrite E. auto.
Qed.

Lemma Pre2010_merge_row (survey : list Pre2010.district_row)
    (counts : list Nb.agg_row) (m : Pre2010.merged_row) :
  In m (Pre2010.merge_population survey counts) ->
  In (Pre2010.cm_counts m) counts /\
  ((Pre2010.cm_Total_Population m = NaN /\
    filter (Pre2010.matches (Pre2010.cm_counts m)) survey = []) \/
   (exists d, In d (filter (Pre2010.matches (Pre2010.cm_counts m)) survey) /\
      Pre2010.cm_Total_Population m = Pre2010.Total_Population d)).
Proof.
  unfold Pre2010.merge_population. intro H.
  apply in_flat_map in H. destruct H as (r & Hr & Hm).
  destruct (filter (Pre2010.matches r) survey) as [|d ds] eqn:E.
  - destruct Hm as [<-|[]]. simpl. split; [assumption|]. left. auto.
  - apply in_map_iff in Hm. destruct Hm as (d' & <- & Hd'). simpl.
    split; [assumption|]. right. exists d'. rewrite E. auto.
Qed.

(** The saved crime table is the merged table with its rates; it
    exists when each of the six categories is a column of the counts. *)
Lemma Post2009_table_rows (parse_datetime : string -> option datetime)
    (survey : list Post2009.district_row) (crime_data : list crime_unit)
    (table : list Post2009.rate_row) :
  Post2009.crime_aggregated_2010_2020 parse_datetime survey crime_data
    = Returned table ->
  exists frame,
    Post2009.crime_counts parse_datetime crime_data = Returned frame /\
    Nb.first_missing (Nb.columns frame) crime_types = None /\
    table = map Post2009.with_rates
                (Post2009.merge_population survey (Nb.rows frame)).
Proof.
  unfold Post2009.crime_aggregated_2010_2020.
  destruct (Post2009.crime_counts parse_datetime crime_data) as [frame|e];
    cbn [bind]; [|discriminate].
  destruct (Nb.first_missing (Nb.columns frame) crime_types) eqn:Hcols;
    [discriminate|].
  intro E. injection E as <-. exists frame. auto.
Qed.

Lemma Pre2010_table_rows (parse_datetime : string -> option datetime)
    (survey : list Pre2010.district_row) (crime_data : list crime_unit)
    (table : list Pre2010.rate_row) :
  Pre2010.crime_aggregated_monthly2005 parse_datetime survey crime_data
    = Returned table ->
  exists frame,
    Pre2010.crime_counts parse_datetime crime_data = Returned frame /\
    Nb.first_missing (Nb.columns frame) crime_types = None /\
    table = map Pre2010.with_rates
                (Pre2010.merge_population survey (Nb.rows frame)).
Proof.
  unfold Pre2010.crime_aggregated_monthly2005.
  destruct (Pre2010.crime_counts parse_datetime crime_data) as [frame|e];
    cbn [bind]; [|discriminate].
  destruct (Nb.first_missing (Nb.columns frame) crime_types) eqn:Hcols;
    [discriminate|].
  intro E. injection E as <-. exists frame. auto.
Qed.

(** ** One survey row per group *)


Lemma district_aggregated2005_keys (filtered : list Pre2010.filtered_row) :
  map Pre2010.dist_num (Pre2010.district_aggregated2005 filtered) =
  nodup string_dec (map Pre2010.f_dist_num filtered).
Proof.
  unfold Pre2010.district_aggregated2005, group_keys.
  rewrite map_map. cbn [Pre2010.dist_num]. apply map_id.
Qed.



(** ** District 31 *)

Section District31.

Variable geometry : Type.
Variable to_crs : geometry -> geometry.
Variable inter_area : geometry -> geometry -> Q.


End District31.



(** The districts of the crime tables, when the crime file is the one
    that the R step writes. *)
Section CrimeDistricts.

Variable mdy_hms : string -> option datetime.
Variable in_window : datetime -> bool.
Variable parse_datetime : string -> option datetime.
Variable crime_csv : list RStep.raw_crime.





End CrimeDistricts.




(** ** Malformed dates *)

(** C7, counterexample. A crime record whose date is text that is not a
    date goes through the date conversion of the notebooks without an
    exception: the conversion returns, and the date of the record is
    the missing timestamp. *)
Lemma malformed_date_does_not_raise :
  Date City.undated = DString "not a date" /\
  City.parse_mdy_hms "not a date" = None /\
  Nb.convert_dates City.parse_mdy_hms [City.undated] =
  Returned [Nb.mk_dated_crime City.undated None "001" None None].
Proof. repeat split. Qed.

(** C7, amended. The date conversion never raises on a malformed date.
    In the notebooks ([errors='coerce']) the date becomes the missing
    timestamp and the year and month are missing; the year filter of
    either notebook then leaves the record out, so that every record
    that is kept has a converted date.  In the R step [mdy_hms] gives
    [NA], the date filter drops the row, and every record that the
    step writes has a timestamp. *)
Theorem malformed_date_is_coerced_and_dropped :
  forall (parse_datetime : string -> option datetime)
         (crime_data : list crime_unit),
    (exists dated,
       Nb.convert_dates parse_datetime crime_data = Returned dated /\
       forall u s,
         In u crime_data -> Date u = DString s -> parse_datetime s = None ->
         In (Nb.mk_dated_crime u None (District u) None None) dated) /\
    (forall filtered x,
       Post2009.crime_filtered_2010_2020 parse_datetime crime_data
         = Returned filtered \/
       Pre2010.crime_filtered2005 parse_datetime crime_data
         = Returned filtered ->
       In x filtered ->
       exists d, coerce_cell parse_datetime (Date (Nb.dc_unit x)) = Some d /\
                 Nb.dc_Date x = Some d) /\
    (forall (mdy_hms : string -> option datetime) (in_window : datetime -> bool)
            (r : RStep.raw_crime),
       mdy_hms (RStep.raw_Date r) = None ->
       RStep.date_filter in_window (RStep.format_and_parse mdy_hms r) = false) /\
    (forall (mdy_hms : string -> option datetime) (in_window : datetime -> bool)
            (crime_csv : list RStep.raw_crime) (u : crime_unit),
       In u (RStep.crime_units mdy_hms in_window crime_csv) ->
       exists d, Date u = DTimestamp d).
Proof.
  intros parse_datetime crime_data. split; [|split; [|split]].
  - eexists. split; [apply convert_dates_returns|].
    intros u s Hu Hdate Hparse. apply in_map_iff. exists u.
    split; [|assumption]. unfold Nb.add_year_month.
    rewrite Hdate. simpl. rewrite Hparse. reflexivity.
  - intros filtered x Hf Hx.
    assert (Hkept : exists x0,
              In x0 (map (fun u => Nb.add_year_month u
                                     (coerce_cell parse_datetime (Date u)))
                         crime_data) /\
              Nb.dc_year x0 <> None /\
              Nb.dc_unit x = Nb.dc_unit x0 /\ Nb.dc_Date x = Nb.dc_Date x0).
    { destruct Hf as [Hf|Hf].
      - unfold Post2009.crime_filtered_2010_2020 in Hf.
        rewrite convert_dates_returns in Hf. simpl in Hf. injection Hf as <-.
        apply filter_In in Hx. destruct Hx as [Hx Hy]. exists x.
        split; [assumption|]. split; [|auto].
        unfold Nb.year_between in Hy. destruct (Nb.dc_year x); congruence.
      - unfold Pre2010.crime_filtered2005 in Hf.
        rewrite convert_dates_returns in Hf. simpl in Hf. injection Hf as <-.
        apply in_map_iff in Hx. destruct Hx as (x0 & <- & Hx0).
        apply filter_In in Hx0. destruct Hx0 as [Hx0 Hy]. exists x0.
        split; [assumption|]. split; [|auto].
        unfold Nb.year_between in Hy. destruct (Nb.dc_year x0); congruence. }
    destruct Hkept as (x0 & Hx0 & Hy & -> & ->).
    apply in_map_iff in Hx0. destruct Hx0 as (u & <- & _).
    cbn in *. destruct (coerce_cell parse_datetime (Date u)) as [d|].
    + eauto.
    + simpl in Hy. congruence.
  - intros mdy_hms in_window r Hr.
    unfold RStep.date_filter, RStep.format_and_parse. simpl. now rewrite Hr.
  - intros mdy_hms in_window crime_csv u Hu.
    apply (crime_units_record _ _ _ _ Hu).
Qed.

(** C7, amended, on the record whose date is not a date. *)
Lemma malformed_date_is_coerced_and_dropped_witness :
  exists dated,
    Nb.convert_dates City.parse_mdy_hms [City.undated] = Returned dated /\
    In (Nb.mk_dated_crime City.undated None "001" None None) dated.
Proof.
  destruct (malformed_date_is_coerced_and_dropped City.parse_mdy_hms [City.undated])
    as ((dated & E & H) & _).
  exists dated. split; [exact E|].
  apply (H City.undated "not a date"); [left; reflexivity | reflexivity | reflexivity].
Defined.

(** ** District identifiers of the crime and survey tables *)




(** ** Signs of cells, rates and totals *)

Lemma fge0_Num (q : Q) : fge0 (Num q) = true <-> 0 <= q.
Proof.
  simpl. destruct (Qsign q) eqn:E.
  - apply (proj1 (Qsign_zero _)) in E. split; [intros _; lra|reflexivity].
  - apply (proj1 (Qsign_pos _)) in E. split; [intros _; lra|reflexivity].
  - apply (proj1 (Qsign_neg _)) in E. split; [discriminate|intro; exfalso; lra].
Qed.


Lemma fge0_cases (a : fval) :
  fge0 a = true -> a = PInf \/ exists q, a = Num q /\ 0 <= q.
Proof.
  destruct a as [q| | |]; try discriminate; [|auto].
  intro H. right. exists q. split; [reflexivity|]. now apply fge0_Num.
Qed.

Lemma fadd_nonneg (a b : fval) :
  fge0 a = true -> fge0 b = true -> fge0 (fadd a b) = true.
Proof.
  intros Ha Hb.
  destruct (fge0_cases a Ha) as [->|(x & -> & Hx)],
           (fge0_cases b Hb) as [->|(y & -> & Hy)]; try reflexivity.
  cbn [fadd]. apply fge0_Num. lra.
Qed.

Lemma fsum_nonneg (l : list fval) :
  Forall (fun a => fge0 a = true) l -> fge0 (fsum l) = true.
Proof.
  induction 1 as [|a r Ha _ IH]; [reflexivity|].
  cbn [fsum]. now apply fadd_nonneg.
Qed.

Lemma sum_skipna_nonneg (l : list fval) :
  Forall missing_or_nonneg l -> fge0 (sum_skipna l) = true.
Proof.
  intro H. unfold sum_skipna. apply fsum_nonneg.
  apply Forall_forall. intros a Ha. apply filter_In in Ha.
  destruct Ha as [Ha Hnan]. rewrite Forall_forall in H.
  destruct (H a Ha) as [->|Hge]; [discriminate|assumption].
Qed.

Lemma sum_skipna_finite_nonneg (l : list fval) :
  Forall finite_nonneg l -> finite_nonneg (sum_skipna l).
Proof.
  induction 1 as [|a r (q & -> & Hq) _ IH].
  - exists 0. split; [reflexivity|lra].
  - destruct IH as (s & Hs & Hpos). unfold sum_skipna in *.
    cbn [filter is_nan negb fsum]. rewrite Hs. cbn [fadd].
    exists (q + s). split; [reflexivity|lra].
Qed.

Lemma fillna0_estimate (a : fval) : estimate_ok a -> finite_nonneg (fillna0 a).
Proof.
  intros [->|(q & -> & Hq)]; simpl.
  - exists 0. split; [reflexivity|lra].
  - exists q. auto.
Qed.

Lemma of_count_nonneg (n : nat) : 0 <= inject_Z (Z.of_nat n).
Proof.
  change 0 with (inject_Z 0). rewrite <- Zle_Qle. lia.
Qed.

Lemma of_count_zero (n : nat) : inject_Z (Z.of_nat n) == 0 <-> n = O.
Proof.
  change 0 with (inject_Z 0). rewrite inject_Z_injective. lia.
Qed.

(** The rate on a row whose population is missing. *)
Lemma rate_of_missing (n : nat) : Nb.rate_of n NaN = NaN.
Proof. reflexivity. Qed.

(** The rate on a row whose population is a number other than 0. *)
Lemma rate_of_number (n : nat) (P : Q) :
  ~ P == 0 ->
  Nb.rate_of n (Num P) = Num (inject_Z (Z.of_nat n) / P * 1000).
Proof.
  intro HP. unfold Nb.rate_of, of_count, of_int. cbn [fdiv].
  destruct (Qsign P) eqn:E; [apply Qsign_zero in E; contradiction| |];
    reflexivity.
Qed.

(** The rate on a row whose population is 0. *)
Lemma rate_of_zero (n : nat) (P : Q) :
  P == 0 ->
  Nb.rate_of n (Num P) = match n with O => NaN | S _ => PInf end.
Proof.
  intro HP. unfold Nb.rate_of, of_count, of_int. cbn [fdiv].
  apply (proj2 (Qsign_zero _)) in HP. rewrite HP.
  pose proof (of_count_nonneg n) as Hn.
  pose proof (of_count_zero n) as Hz.
  destruct (Qsign (inject_Z (Z.of_nat n))) eqn:E.
  - apply (proj1 (Qsign_zero _)) in E. apply Hz in E. subst n. reflexivity.
  - apply (proj1 (Qsign_pos _)) in E. destruct n; [|reflexivity].
    exfalso. assert (inject_Z (Z.of_nat 0) == 0) by (apply Hz; reflexivity). lra.
  - apply (proj1 (Qsign_neg _)) in E. lra.
Qed.

Lemma rate_of_nonneg (n : nat) (pop : fval) :
  pop = NaN \/ finite_nonneg pop -> missing_or_nonneg (Nb.rate_of n pop).
Proof.
  intros [->|(P & -> & HP)]; [left; reflexivity|].
  destruct (Qeq_dec P 0) as [E|E].
  - rewrite (rate_of_zero n P E). destruct n; [left|right]; reflexivity.
  - rewrite (rate_of_number n P E). right. apply fge0_Num.
    pose proof (of_count_nonneg n) as Hn.
    assert (0 < P) by lra.
    assert (0 <= inject_Z (Z.of_nat n) / P).
    { apply Qle_shift_div_l; [assumption|lra]. }
    lra.
Qed.

(** When the rate is missing. *)
Lemma rate_of_missing_iff (n : nat) (pop : fval) :
  pop = NaN \/ finite_nonneg pop ->
  (Nb.rate_of n pop = NaN <-> pop = NaN \/ (feq pop (Num 0) /\ n = O)).
Proof.
  intros [->|(P & -> & HP)].
  - split; [auto|reflexivity].
  - destruct (Qeq_dec P 0) as [E|E].
    + rewrite (rate_of_zero n P E). destruct n; split; try discriminate.
      * intros _. right. split; [exact E|reflexivity].
      * reflexivity.
      * intros [H|[_ H]]; discriminate.
    + rewrite (rate_of_number n P E). split; [discriminate|].
      intros [H|[H _]]; [discriminate|]. simpl in H. contradiction.
Qed.

Lemma total_of_nonneg (rate : string -> fval) :
  (forall c, In c crime_types -> missing_or_nonneg (rate c)) ->
  fge0 (Nb.total_of rate) = true.
Proof.
  intro H. unfold Nb.total_of. apply sum_skipna_nonneg.
  apply Forall_map, Forall_forall. exact H.
Qed.

(** ** Populations of the survey tables *)

Lemma areal_weights_positive (pieces : list Geo.piece) :
  positive_areas pieces -> positive_weights (Geo.areal_weights pieces).
Proof.
  intros Hpos w Hw. unfold Geo.areal_weights in Hw.
  apply in_map_iff in Hw. destruct Hw as (p & <- & Hp).
  destruct (proportion_value pieces p Hpos Hp) as (E & Ha & HT).
  cbn [Geo.proportion]. rewrite E. eexists. split; [reflexivity|].
  apply Qlt_shift_div_l; [assumption|lra].
Qed.

Lemma tracts_to_districts_positive (geometry : Type)
    (to_crs : geometry -> geometry) (inter_area : geometry -> geometry -> Q)
    (tracts : list (Geo.tract geometry))
    (districts : list (Geo.district geometry)) :
  positive_weights
    (Post2009.tracts_to_districts to_crs inter_area tracts districts) /\
  positive_weights
    (Pre2010.tracts_to_districts to_crs inter_area tracts districts).
Proof.
  split.
  - apply areal_weights_positive, overlay_positive.
  - unfold Pre2010.tracts_to_districts. cbv zeta.
    rewrite Pre2010_filter_31_keeps_all.
    apply areal_weights_positive, overlay_positive.
Qed.

(** The loop over [acs_columns_post_2009] multiplies each of the eight
    columns by the proportion, once. *)
Lemma scaled_value (p : fval) (value : Post2009.acs_var -> fval)
    (v : Post2009.acs_var) :
  fold_left (Post2009.apply_proportion p) Post2009.acs_columns_post_2009 value v =
  fmul (value v) p.
Proof. destruct v; reflexivity. Qed.

Lemma acs_data_post_2009_In (acs5 : Z -> list Post2009.api_row)
    (a : Post2009.acs_row) :
  In a (Post2009.acs_data_post_2009 acs5) ->
  exists y a0, In y Post2009.acs_years /\ In a0 (acs5 y) /\
    Post2009.acs_year a = y /\
    Post2009.GEOID a =
      (Post2009.state a0 ++ Post2009.county a0 ++ Post2009.tract a0)%string /\
    forall v, Post2009.acs_value a v = fillna0 (Post2009.estimate a0 v).
Proof.
  unfold Post2009.acs_data_post_2009. intro H.
  apply in_map_iff in H. destruct H as (a1 & <- & H1).
  apply in_flat_map in H1. destruct H1 as (y & Hy & H1).
  unfold Post2009.get_acs_data in H1.
  apply in_map_iff in H1. destruct H1 as (a0 & <- & H0).
  exists y, a0. simpl. auto.
Qed.

Lemma acs_mapped_post_2009_In (acs5 : Z -> list Post2009.api_row)
    (weights : list Geo.weight) (m : Post2009.mapped_row) :
  In m (Post2009.acs_mapped_post_2009 acs5 weights) ->
  exists a w, In a (Post2009.acs_data_post_2009 acs5) /\ In w weights /\
    Post2009.GEOID a = Geo.w_tract w /\
    Post2009.m_acs m = a /\ Post2009.m_dist_num m = Geo.w_dist w /\
    forall v, Post2009.m_value m v =
              fillna0 (fmul (Post2009.acs_value a v) (Geo.proportion w)).
Proof.
  unfold Post2009.acs_mapped_post_2009. intro H.
  apply in_flat_map in H. destruct H as (a & Ha & H).
  apply in_map_iff in H. destruct H as (w & <- & Hw).
  apply filter_In in Hw. destruct Hw as [Hw Hkey].
  apply String.eqb_eq in Hkey.
  exists a, w. repeat split; try assumption.
  intro v. cbn [Post2009.m_value]. now rewrite scaled_value.
Qed.

Lemma Post2009_population_nonneg (acs5 : Z -> list Post2009.api_row)
    (weights : list Geo.weight) (d : Post2009.district_row) :
  (forall y a, In y Post2009.acs_years -> In a (acs5 y) ->
     estimate_ok (Post2009.estimate a Post2009.B01003_001E)) ->
  positive_weights weights ->
  In d (Post2009.district_aggregated_post_2009 acs5 weights) ->
  finite_nonneg (Post2009.Total_Population d).
Proof.
  intros Hest Hw Hd. unfold Post2009.district_aggregated_post_2009 in Hd.
  apply in_map_iff in Hd. destruct Hd as (s & <- & Hs).
  unfold Post2009.district_sums in Hs.
  apply in_map_iff in Hs. destruct Hs as (k & <- & _).
  cbn [Post2009.derive Post2009.Total_Population Post2009.s_sum].
  apply sum_skipna_finite_nonneg, Forall_map, Forall_forall.
  intros m Hm. apply filter_In in Hm. destruct Hm as [Hm _].
  apply acs_mapped_post_2009_In in Hm.
  destruct Hm as (a & w & Ha & Hin & _ & _ & _ & Hval).
  rewrite Hval.
  apply acs_data_post_2009_In in Ha.
  destruct Ha as (y & a0 & Hy & Ha0 & _ & _ & Hfill). rewrite Hfill.
  destruct (fillna0_estimate _ (Hest y a0 Hy Ha0)) as (q & -> & Hq).
  destruct (Hw w Hin) as (p & -> & Hp). cbn [fmul fillna0].
  exists (q * p). split; [reflexivity|]. apply Qmult_le_0_compat; lra.
Qed.

Lemma Pre2010_population_nonneg (nhgis : list Pre2010.nhgis_row)
    (weights : list Geo.weight) (d : Pre2010.district_row) :
  (forall a, In a nhgis ->
     estimate_ok (Pre2010.nhgis_value a Pre2010.RK9E001)) ->
  In d (Pre2010.district_aggregated2005
          (Pre2010.filtered_df weights (Pre2010.acs2005_2009_chicago nhgis))) ->
  finite_nonneg (Pre2010.Total_Population d).
Proof.
  intros Hest Hd. unfold Pre2010.district_aggregated2005 in Hd.
  apply in_map_iff in Hd. destruct Hd as (k & <- & _).
  cbn [Pre2010.Total_Population].
  apply sum_skipna_finite_nonneg, Forall_map, Forall_forall.
  intros f Hf. apply filter_In in Hf. destruct Hf as [Hf _].
  unfold Pre2010.filtered_df in Hf.
  apply in_flat_map in Hf. destruct Hf as (w & _ & Hf).
  apply in_map_iff in Hf. destruct Hf as (a & <- & Ha).
  apply filter_In in Ha. destruct Ha as [Ha _].
  unfold Pre2010.acs2005_2009_chicago in Ha.
  apply in_map_iff in Ha. destruct Ha as (a0 & <- & Ha0).
  apply filter_In in Ha0. destruct Ha0 as [Ha0 _].
  cbn [Pre2010.f_Total_Population Pre2010.ch_value].
  destruct (fillna0_estimate _ (Hest a0 Ha0)) as (q & Hq & Hpos).
  rewrite Hq. simpl. exists q. auto.
Qed.

(** ** Populations and rates of the crime tables *)

Section Rates.

Variable geometry : Type.
Variable to_crs : geometry -> geometry.
Variable inter_area : geometry -> geometry -> Q.
Variable acs5 : Z -> list Post2009.api_row.
Variable nhgis : list Pre2010.nhgis_row.
Variable parse_datetime : string -> option datetime.
Variable tracts : list (Geo.tract geometry).
Variable districts : list (Geo.district geometry).
Variable crime_data : list crime_unit.

Hypothesis acs5_ok :
  forall y a, In y Post2009.acs_years -> In a (acs5 y) ->
    estimate_ok (Post2009.estimate a Post2009.B01003_001E).

Hypothesis nhgis_ok :
  forall a, In a nhgis -> estimate_ok (Pre2010.nhgis_value a Pre2010.RK9E001).

(** The population of a row of the 2010-2020 crime table: missing when
    no survey row has the district and year of the row, and otherwise
    the non-negative population of such a survey row. *)
Lemma Post2009_row_population (table : list Post2009.rate_row)
    (r : Post2009.rate_row) :
  Post2009.crime_table to_crs inter_area acs5 parse_datetime
    tracts districts crime_data = Returned table ->
  In r table ->
  let survey := Post2009.survey_table to_crs inter_area acs5 tracts districts in
  let counts := Post2009.cm_counts (Post2009.rr_merged r) in
  let pop := Post2009.cm_Total_Population (Post2009.rr_merged r) in
  (forall c, Post2009.rate r c = Nb.rate_of (Nb.ag_count counts c) pop) /\
  Post2009.total_crime_rate r = Nb.total_of (Post2009.rate r) /\
  ((pop = NaN /\
    forall d, In d survey ->
      ~ (Post2009.dist_num d = Nb.ag_District counts /\
         Post2009.year d = Nb.ag_year counts)) \/
   (finite_nonneg pop /\
    exists d, In d survey /\ Post2009.dist_num d = Nb.ag_District counts /\
      Post2009.year d = Nb.ag_year counts /\
      pop = Post2009.Total_Population d)).
Proof.
  intros Htable Hr. cbv zeta. unfold Post2009.crime_table in Htable.
  apply Post2009_table_rows in Htable. destruct Htable as (frame & _ & _ & ->).
  apply in_map_iff in Hr. destruct Hr as (m & <- & Hm).
  cbn [Post2009.with_rates Post2009.rr_merged Post2009.rate
       Post2009.total_crime_rate].
  split; [reflexivity|]. split; [reflexivity|].
  apply Post2009_merge_row in Hm.
  destruct Hm as [_ [(_ & E & Hnone)|(d & Hd & _ & E)]].
  - left. split; [assumption|]. intros d Hd (Hnum & Hyear).
    assert (Hin : In d (filter (Post2009.matches (Post2009.cm_counts m))
                   (Post2009.survey_table to_crs inter_area acs5 tracts districts))).
    { apply filter_In. split; [assumption|]. unfold Post2009.matches.
      rewrite Hnum, Hyear, String.eqb_refl, Z.eqb_refl. reflexivity. }
    rewrite Hnone in Hin. exact Hin.
  - right. apply filter_In in Hd. destruct Hd as [Hd Hmatch].
    unfold Post2009.matches in Hmatch. apply andb_prop in Hmatch.
    destruct Hmatch as [Hnum Hyear].
    apply String.eqb_eq in Hnum. apply Z.eqb_eq in Hyear.
    split.
    + rewrite E.
      apply (Post2009_population_nonneg acs5
               (Post2009.tracts_to_districts to_crs inter_area tracts districts));
        [exact acs5_ok | apply tracts_to_districts_positive | exact Hd].
    + exists d. auto.
Qed.

Lemma Pre2010_row_population (table : list Pre2010.rate_row)
    (r : Pre2010.rate_row) :
  Pre2010.crime_table to_crs inter_area parse_datetime nhgis
    tracts districts crime_data = Returned table ->
  In r table ->
  let survey := Pre2010.survey_table to_crs inter_area nhgis tracts districts in
  let counts := Pre2010.cm_counts (Pre2010.rr_merged r) in
  let pop := Pre2010.cm_Total_Population (Pre2010.rr_merged r) in
  (forall c, Pre2010.rate r c = Nb.rate_of (Nb.ag_count counts c) pop) /\
  Pre2010.total_crime_rate r = Nb.total_of (Pre2010.rate r) /\
  ((pop = NaN /\
    forall d, In d survey -> Pre2010.dist_num d <> Nb.ag_District counts) \/
   (finite_nonneg pop /\
    exists d, In d survey /\ Pre2010.dist_num d = Nb.ag_District counts /\
      pop = Pre2010.Total_Population d)).
Proof.
  intros Htable Hr. cbv zeta. unfold Pre2010.crime_table in Htable.
  apply Pre2010_table_rows in Htable. destruct Htable as (frame & _ & _ & ->).
  apply in_map_iff in Hr. destruct Hr as (m & <- & Hm).
  cbn [Pre2010.with_rates Pre2010.rr_merged Pre2010.rate
       Pre2010.total_crime_rate].
  split; [reflexivity|]. split; [reflexivity|].
  apply Pre2010_merge_row in Hm.
  destruct Hm as [_ [(E & Hnone)|(d & Hd & E)]].
  - left. split; [assumption|]. intros d Hd Hnum.
    assert (Hin : In d (filter (Pre2010.matches (Pre2010.cm_counts m))
                   (Pre2010.survey_table to_crs inter_area nhgis tracts districts))).
    { apply filter_In. split; [assumption|]. unfold Pre2010.matches.
      rewrite Hnum. apply String.eqb_refl. }
    rewrite Hnone in Hin. exact Hin.
  - right. apply filter_In in Hd. destruct Hd as [Hd Hmatch].
    unfold Pre2010.matches in Hmatch. apply String.eqb_eq in Hmatch.
    split.
    + rewrite E.
      apply (Pre2010_population_nonneg nhgis
               (Pre2010.tracts_to_districts to_crs inter_area tracts districts));
        [exact nhgis_ok | exact Hd].
    + exists d. auto.
Qed.

End Rates.

(** ** Non-negative rates *)

(** C3, counterexample. In the crime tables of the small city the row
    of district 5, which has no survey row, carries a rate that is
    missing (NaN); the comparison of that rate with 0 is false. *)
Lemma rate_of_unmatched_district_is_not_nonnegative :
  Post2009.crime_table City.same_crs City.overlap City.acs5 City.parse_mdy_hms
    City.tracts City.districts City.crimeunits = Returned City.rows2010 /\
  In (nth 1 City.rows2010 City.no_row2010) City.rows2010 /\
  Nb.ag_count (Post2009.cm_counts (Post2009.rr_merged
                 (nth 1 City.rows2010 City.no_row2010))) "Property Crime" = 1%nat /\
  Post2009.rate (nth 1 City.rows2010 City.no_row2010) "Property Crime" = NaN /\
  fge0 (Post2009.rate (nth 1 City.rows2010 City.no_row2010) "Property Crime")
    = false /\
  Pre2010.crime_table City.same_crs City.overlap City.parse_mdy_hms
    City.nhgis_csv City.tracts City.districts City.crimeunits
    = Returned City.rows2005 /\
  In (nth 1 City.rows2005 City.no_row2005) City.rows2005 /\
  Pre2010.rate (nth 1 City.rows2005 City.no_row2005) "Property Crime" = NaN /\
  fge0 (Pre2010.rate (nth 1 City.rows2005 City.no_row2005) "Property Crime")
    = false.
Proof.
  split; [vm_compute; reflexivity|].
  split; [apply nth_In; vm_compute; lia|].
  split; [vm_compute; reflexivity|].
  split; [vm_compute; reflexivity|].
  split; [vm_compute; reflexivity|].
  split; [vm_compute; reflexivity|].
  split; [apply nth_In; vm_compute; lia|].
  split; vm_compute; reflexivity.
Qed.

(** C3, amended. When the tract population estimates of the survey are
    missing or non-negative, no rate of the crime table of either
    notebook is negative: each of the six rates is missing or not below
    zero, and it is missing exactly when the population of the row is
    missing, or is zero together with a zero count.  The total rate is
    never missing and never below zero. *)
Theorem rates_are_never_negative :
  forall (geometry : Type) (to_crs : geometry -> geometry)
         (inter_area : geometry -> geometry -> Q)
         (acs5 : Z -> list Post2009.api_row)
         (nhgis : list Pre2010.nhgis_row)
         (parse_datetime : string -> option datetime)
         (tracts : list (Geo.tract geometry))
         (districts : list (Geo.district geometry))
         (crime_data : list crime_unit),
    (forall y a, In y Post2009.acs_years -> In a (acs5 y) ->
       estimate_ok (Post2009.estimate a Post2009.B01003_001E)) ->
    (forall a, In a nhgis ->
       estimate_ok (Pre2010.nhgis_value a Pre2010.RK9E001)) ->
    (forall table r,
       Post2009.crime_table to_crs inter_area acs5 parse_datetime
         tracts districts crime_data = Returned table ->
       In r table ->
       (forall c, In c crime_types ->
          missing_or_nonneg (Post2009.rate r c) /\
          (Post2009.rate r c = NaN <->
           Post2009.cm_Total_Population (Post2009.rr_merged r) = NaN \/
           (feq (Post2009.cm_Total_Population (Post2009.rr_merged r)) (Num 0) /\
            Nb.ag_count (Post2009.cm_counts (Post2009.rr_merged r)) c = O))) /\
       fge0 (Post2009.total_crime_rate r) = true) /\
    (forall table r,
       Pre2010.crime_table to_crs inter_area parse_datetime nhgis
         tracts districts crime_data = Returned table ->
       In r table ->
       (forall c, In c crime_types ->
          missing_or_nonneg (Pre2010.rate r c) /\
          (Pre2010.rate r c = NaN <->
           Pre2010.cm_Total_Population (Pre2010.rr_merged r) = NaN \/
           (feq (Pre2010.cm_Total_Population (Pre2010.rr_merged r)) (Num 0) /\
            Nb.ag_count (Pre2010.cm_counts (Pre2010.rr_merged r)) c = O))) /\
       fge0 (Pre2010.total_crime_rate r) = true).
Proof.
  intros geometry to_crs inter_area acs5 nhgis parse_datetime tracts districts
         crime_data Hacs Hnhgis.
  split.
  - intros table r Htable Hr.
    destruct (Post2009_row_population geometry to_crs inter_area acs5
                parse_datetime tracts districts crime_data Hacs table r Htable Hr)
      as (Hrate & Htotal & Hpop).
    assert (Hok : Post2009.cm_Total_Population (Post2009.rr_merged r) = NaN \/
                  finite_nonneg (Post2009.cm_Total_Population (Post2009.rr_merged r)))
      by (destruct Hpop as [(E & _)|(Hfin & _)]; auto).
    split.
    + intros c _. rewrite Hrate.
      split; [apply rate_of_nonneg | apply rate_of_missing_iff]; exact Hok.
    + rewrite Htotal. apply total_of_nonneg. intros c _. rewrite Hrate.
      apply rate_of_nonneg, Hok.
  - intros table r Htable Hr.
    destruct (Pre2010_row_population geometry to_crs inter_area nhgis
                parse_datetime tracts districts crime_data Hnhgis table r Htable Hr)
      as (Hrate & Htotal & Hpop).
    assert (Hok : Pre2010.cm_Total_Population (Pre2010.rr_merged r) = NaN \/
                  finite_nonneg (Pre2010.cm_Total_Population (Pre2010.rr_merged r)))
      by (destruct Hpop as [(E & _)|(Hfin & _)]; auto).
    split.
    + intros c _. rewrite Hrate.
      split; [apply rate_of_nonneg | apply rate_of_missing_iff]; exact Hok.
    + rewrite Htotal. apply total_of_nonneg. intros c _. rewrite Hrate.
      apply rate_of_nonneg, Hok.
Qed.

(** The survey estimates of the small city are non-negative. *)
Lemma acs5_city_ok :
  forall y a, In y Post2009.acs_years -> In a (City.acs5 y) ->
    estimate_ok (Post2009.estimate a Post2009.B01003_001E).
Proof.
  intros y a _ [<-|[]]. right. exists 100. split; [reflexivity|lra].
Qed.

Lemma nhgis_city_ok :
  forall a, In a City.nhgis_csv ->
    estimate_ok (Pre2010.nhgis_value a Pre2010.RK9E001).
Proof.
  intros a [<-|[]]. right. exists 100. split; [reflexivity|lra].
Qed.

(** C3, amended, on the first rows of the crime tables of the small
    city. *)
Lemma rates_are_never_negative_witness :
  fge0 (Post2009.total_crime_rate (nth 0 City.rows2010 City.no_row2010)) = true /\
  fge0 (Pre2010.total_crime_rate (nth 0 City.rows2005 City.no_row2005)) = true.
Proof.
  destruct (rates_are_never_negative City.strip City.same_crs City.overlap
              City.acs5 City.nhgis_csv City.parse_mdy_hms City.tracts
              City.districts City.crimeunits acs5_city_ok nhgis_city_ok)
    as (H2010 & H2005).
  split.
  - apply (H2010 City.rows2010).
    + vm_compute. reflexivity.
    + apply nth_In. vm_compute. lia.
  - apply (H2005 City.rows2005).
    + vm_compute. reflexivity.
    + apply nth_In. vm_compute. lia.
Defined.

(** ** The population under the rates *)





(** ** The rates and their total *)

Lemma feq_refl (a : fval) : feq a a.
Proof. destruct a; simpl; auto. reflexivity. Qed.









(** ** Areal weighting of the survey attributes *)

Lemma merged_rows_as_pairs {A B C D : Type} (l1 : list A) (l2 : list B)
    (sel : A -> B -> bool) (mk : A -> B -> C) (keep : C -> bool) (val : C -> D) :
  map val (filter keep (flat_map (fun a => map (mk a) (filter (sel a) l2)) l1)) =
  map (fun ab => val (mk (fst ab) (snd ab)))
      (filter (fun ab => sel (fst ab) (snd ab) && keep (mk (fst ab) (snd ab)))
              (list_prod l1 l2)).
Proof.
  induction l1 as [|a r IH]; [reflexivity|].
  cbn [flat_map list_prod]. rewrite !filter_app, !map_app, IH. f_equal.
  clear IH. induction l2 as [|b l2 IH]; [reflexivity|].
  cbn [filter map fst snd]. destruct (sel a b); cbn [map filter andb].
  - destruct (keep (mk a b)); cbn [map]; now rewrite IH.
  - exact IH.
Qed.

(** 2010-2020: each attribute of a district and year is the sum, over
    the pairs of a survey row of that year and an areal-weight record
    of that district for the same tract, of the tract's value times
    the proportion. *)
Lemma Post2009_sums_are_areal_weighted (acs5 : Z -> list Post2009.api_row)
    (weights : list Geo.weight) (s : Post2009.sums_row) (v : Post2009.acs_var) :
  In s (Post2009.district_sums (Post2009.acs_mapped_post_2009 acs5 weights)) ->
  Post2009.s_sum s v =
  sum_skipna
    (map (fun aw => fillna0 (fmul (Post2009.acs_value (fst aw) v)
                                  (Geo.proportion (snd aw))))
         (filter (fun aw =>
                    String.eqb (Post2009.GEOID (fst aw)) (Geo.w_tract (snd aw)) &&
                    (String.eqb (Geo.w_dist (snd aw)) (Post2009.s_dist_num s) &&
                     Z.eqb (Post2009.acs_year (fst aw)) (Post2009.s_year s)))
                 (list_prod (Post2009.acs_data_post_2009 acs5) weights))).
Proof.
  unfold Post2009.district_sums. intro H.
  apply in_map_iff in H. destruct H as (k & <- & _).
  cbn [Post2009.s_sum Post2009.s_dist_num Post2009.s_year]. f_equal.
  unfold Post2009.acs_mapped_post_2009.
  rewrite (merged_rows_as_pairs (Post2009.acs_data_post_2009 acs5) weights
             (fun a w => String.eqb (Post2009.GEOID a) (Geo.w_tract w))
             (fun a w =>
                Post2009.mk_mapped_row a (Geo.w_dist w) (Geo.proportion w)
                  (fun v0 => fillna0
                     (fold_left (Post2009.apply_proportion (Geo.proportion w))
                        Post2009.acs_columns_post_2009 (Post2009.acs_value a) v0)))
             (Post2009.in_group k)
             (fun m => Post2009.m_value m v)).
  cbn [Post2009.m_value]. unfold Post2009.in_group.
  cbn [Post2009.m_dist_num Post2009.m_acs].
  apply map_ext. intros [a w]. cbn [fst snd]. now rewrite scaled_value.
Qed.

(** 2005-2009: the population of a district is the sum, over the pairs
    of an areal-weight record of that district and a survey row of the
    same tract, of the whole population of the tract; the proportion
    does not enter. *)
Lemma Pre2010_population_is_unweighted (weights : list Geo.weight)
    (acs : list Pre2010.chicago_row) (d : Pre2010.district_row) :
  In d (Pre2010.district_aggregated2005 (Pre2010.filtered_df weights acs)) ->
  Pre2010.Total_Population d =
  sum_skipna
    (map (fun wa => fillna0 (Pre2010.ch_value (snd wa) Pre2010.RK9E001))
         (filter (fun wa =>
                    String.eqb (Geo.w_tract (fst wa))
                               (Pre2010.census_tract_id (snd wa)) &&
                    String.eqb (Geo.w_dist (fst wa)) (Pre2010.dist_num d))
                 (list_prod weights acs))).
Proof.
  unfold Pre2010.district_aggregated2005. intro H.
  apply in_map_iff in H. destruct H as (k & <- & _).
  cbn [Pre2010.Total_Population Pre2010.dist_num]. f_equal.
  unfold Pre2010.filtered_df.
  rewrite (merged_rows_as_pairs weights acs
             (fun w a => String.eqb (Geo.w_tract w) (Pre2010.census_tract_id a))
             _
             (fun f => String.eqb (Pre2010.f_dist_num f) k)
             Pre2010.f_Total_Population).
  reflexivity.
Qed.

(** C2. The tract of the small city has 100 residents and lies half in
    district 1 and half in district 2.  The 2010-2020 notebook gives
    each district 50 residents, the tract's population times its
    proportion; the 2005-2009 notebook gives each district all 100
    residents of the tract. *)
Theorem tract_population_counted_in_full_2005 :
  map (fun w => (Geo.w_tract w, Geo.w_dist w, Geo.proportion w))
      (Pre2010.tracts_to_districts City.same_crs City.overlap
         City.tracts City.districts) =
    [("17031010100", "1", Num (1 # 2)); ("17031010100", "2", Num (1 # 2))] /\
  map (fun d => (Pre2010.dist_num d, Pre2010.Total_Population d)) City.survey2005 =
    [("1", Num 100); ("2", Num 100)] /\
  map (fun d => (Post2009.dist_num d, Post2009.Total_Population d))
      (filter (fun d => Z.eqb (Post2009.year d) 2010) City.survey2010) =
    [("1", Num (100 # 2)); ("2", Num (100 # 2))].
Proof.
  split; [vm_compute; reflexivity|].
  split; vm_compute; reflexivity.
Qed.

(* ================================================================== *)
(** * Further properties of the scripts *)

(** ** The R step: which records are written *)

Lemma digits_of_value (z : Z) : code_value (digits_of z) = Some (Z.abs_N z).
Proof.
  unfold code_value, digits_of.
  rewrite NilZero.usu.
  - simpl. f_equal. apply DecimalN.Unsigned.of_to.
  - destruct (Z.abs_N z) as [|p]; [discriminate|].
    apply DecimalPos.Unsigned.to_uint_nonnil.
Qed.

Lemma digits_of_nonempty (z : Z) : digits_of z <> EmptyString.
Proof.
  intro E. pose proof (digits_of_value z) as H. rewrite E in H. discriminate.
Qed.

Lemma code_value_zero (s : string) :
  s <> EmptyString -> code_value (String "0"%char s) = code_value s.
Proof.
  intro Hs. unfold code_value, NilZero.uint_of_string.
  destruct s as [|a s']; [congruence|].
  cbn [NilEmpty.uint_of_string].
  destruct (uint_of_char a (NilEmpty.uint_of_string s')) as [d|]; reflexivity.
Qed.

Lemma code_value_zeros (k : nat) (s : string) :
  s <> EmptyString -> code_value (zeros k ++ s) = code_value s.
Proof.
  intro Hs. induction k as [|k IH]; [reflexivity|].
  cbn [zeros append]. rewrite code_value_zero; [exact IH|].
  destruct k; cbn [zeros append]; [exact Hs|discriminate].
Qed.

Lemma district_codes_values :
  map code_value RStep.districts =
  map (fun n => Some (N.of_nat n)) (seq 1 25).
Proof. reflexivity. Qed.

(** X1. The district filter of the R step keeps exactly the records
    whose district is an integer from 1 to 25: a missing district, zero,
    a negative number and a number above 25 are all dropped. *)
Theorem district_filter_keeps_1_to_25 :
  forall (mdy_hms : string -> option datetime) (r : RStep.raw_crime),
    RStep.district_filter (RStep.format_and_parse mdy_hms r) = true <->
    exists z, RStep.raw_District r = Some z /\ (1 <= z <= 25)%Z.
Proof.
  intros mdy_hms r. unfold RStep.district_filter, RStep.format_and_parse.
  cbn [RStep.cr_District]. rewrite str_in_In. split.
  - destruct (RStep.raw_District r) as [z|]; cbn [RStep.sprintf_03d].
    + destruct (z <? 0)%Z eqn:Hneg.
      * intro H. exfalso. cbn in H.
        repeat (destruct H as [H|H]; [discriminate H|]). exact H.
      * intro H. exists z. split; [reflexivity|].
        apply (in_map code_value) in H.
        unfold zfill in H.
        rewrite code_value_zeros, digits_of_value in H
          by apply digits_of_nonempty.
        rewrite district_codes_values in H.
        apply in_map_iff in H. destruct H as (n & E & Hn).
        apply in_seq in Hn. injection E as E.
        apply Z.ltb_ge in Hneg. lia.
    + intro H. exfalso. cbn in H.
      repeat (destruct H as [H|H]; [discriminate H|]). exact H.
  - intros (z & -> & Hz). apply district_code_roundtrip, Hz.
Qed.

Lemma recode_code (z : Z) :
  (1 <= z <= 25)%Z ->
  RStep.recode (RStep.sprintf_03d (Some z)) RStep.district_mapping =
  RStep.sprintf_03d (Some (recoded_number z)) /\
  (1 <= recoded_number z <= 25)%Z /\
  recoded_number z <> 13%Z /\ recoded_number z <> 21%Z /\
  recoded_number z <> 23%Z.
Proof.
  intro Hz.
  assert (H : In z (map Z.of_nat (seq 1 25))).
  { apply in_map_iff. exists (Z.to_nat z). split; [lia|].
    apply in_seq. lia. }
  clear Hz. cbn [seq map Z.of_nat] in H.
  repeat (destruct H as [<-|H];
          [split; [reflexivity|cbn; repeat split; (lia || discriminate)]|]).
  destruct H.
Qed.

(** X2. A record is written by the R step exactly when it comes from a
    row of the file whose date parses and lies in the window and whose
    district is an integer from 1 to 25; the record keeps the columns of
    the row, its district is the three-digit code of the recoded number,
    and its category is that of the primary type. *)
Theorem crime_units_characterization :
  forall (mdy_hms : string -> option datetime) (in_window : datetime -> bool)
         (crime_data : list RStep.raw_crime) (u : crime_unit),
    In u (RStep.crime_units mdy_hms in_window crime_data) <->
    exists r d z,
      In r crime_data /\
      mdy_hms (RStep.raw_Date r) = Some d /\ in_window d = true /\
      RStep.raw_District r = Some z /\ (1 <= z <= 25)%Z /\
      u = mk_crime_unit (DTimestamp d) (RStep.raw_ID r) (RStep.raw_Beat r)
            (RStep.sprintf_03d (Some (recoded_number z)))
            (RStep.raw_Ward r) (RStep.raw_Arrest r)
            (RStep.raw_Latitude r) (RStep.raw_Longitude r)
            (RStep.raw_Primary_Type r)
            (RStep.categorize (RStep.raw_Primary_Type r)).
Proof.
  intros mdy_hms in_window crime_data u. unfold RStep.crime_units.
  rewrite in_map_iff. split.
  - intros (x & <- & Hx).
    apply filter_In in Hx. destruct Hx as [Hx Hdist].
    apply filter_In in Hx. destruct Hx as [Hx Hdate].
    apply in_map_iff in Hx. destruct Hx as (r & <- & Hr).
    apply district_filter_keeps_1_to_25 in Hdist.
    destruct Hdist as (z & Hz & Hrange).
    unfold RStep.date_filter, RStep.format_and_parse in Hdate.
    cbn [RStep.cr_Date] in Hdate.
    destruct (mdy_hms (RStep.raw_Date r)) as [d|] eqn:Hd; [|discriminate].
    exists r, d, z.
    split; [assumption|]. split; [assumption|]. split; [assumption|].
    split; [assumption|]. split; [assumption|].
    unfold RStep.finish, RStep.format_and_parse.
    cbn [RStep.cr_Date RStep.cr_raw RStep.cr_District].
    rewrite Hd, Hz. destruct (recode_code z Hrange) as (-> & _). reflexivity.
  - intros (r & d & z & Hr & Hd & Hw & Hz & Hrange & ->).
    exists (RStep.format_and_parse mdy_hms r). split.
    + unfold RStep.finish, RStep.format_and_parse.
      cbn [RStep.cr_Date RStep.cr_raw RStep.cr_District].
      rewrite Hd, Hz. destruct (recode_code z Hrange) as (-> & _). reflexivity.
    + apply filter_In. split.
      * apply filter_In. split; [apply in_map, Hr|].
        unfold RStep.date_filter, RStep.format_and_parse.
        cbn [RStep.cr_Date]. now rewrite Hd.
      * apply district_filter_keeps_1_to_25. eauto.
Qed.

Lemma code_lstrip (z : Z) :
  (1 <= z <= 25)%Z ->
  String.length (RStep.sprintf_03d (Some z)) = 3%nat.
Proof.
  intro Hz.
  assert (H : In z (map Z.of_nat (seq 1 25))).
  { apply in_map_iff. exists (Z.to_nat z). split; [lia|].
    apply in_seq. lia. }
  clear Hz. cbn [seq map Z.of_nat] in H.
  repeat (destruct H as [<-|H]; [reflexivity|]).
  destruct H.
Qed.

(** X3. The district of every record that the R step writes is the
    three-digit code of a number from 1 to 25 other than 13, 21 and 23,
    and removing its leading zeros, as the notebooks do, gives back
    that number in decimal. *)
Theorem district_normalization_round_trip :
  forall (mdy_hms : string -> option datetime) (in_window : datetime -> bool)
         (crime_data : list RStep.raw_crime) (u : crime_unit),
    In u (RStep.crime_units mdy_hms in_window crime_data) ->
    exists z, (1 <= z <= 25)%Z /\ z <> 13%Z /\ z <> 21%Z /\ z <> 23%Z /\
      District u = RStep.sprintf_03d (Some z) /\
      String.length (District u) = 3%nat /\
      lstrip0 (District u) = str_of_int z.
Proof.
  intros mdy_hms in_window crime_data u Hu.
  apply crime_units_characterization in Hu.
  destruct Hu as (r & d & z & _ & _ & _ & _ & Hz & ->).
  destruct (recode_code z Hz) as (_ & Hrange & H13 & H21 & H23).
  exists (recoded_number z). cbn [District].
  repeat split; try assumption; try apply Hrange.
  - apply code_lstrip, Hrange.
  - apply district_code_roundtrip, Hrange.
Qed.

(** X3 on the file of the small city. *)
Lemma district_normalization_round_trip_witness :
  exists z, (1 <= z <= 25)%Z /\
    lstrip0 (District (nth 6 City.crimeunits City.undated)) = str_of_int z.
Proof.
  destruct (district_normalization_round_trip City.parse_mdy_hms City.in_window
              City.crimes_csv (nth 6 City.crimeunits City.undated))
    as (z & Hz & _ & _ & _ & _ & _ & E).
  - apply nth_In. vm_compute. lia.
  - exists z. split; [exact Hz | exact E].
Defined.

(** ** The district-month counts *)

Lemma list_sum_add {K : Type} (f g : K -> nat) (ks : list K) :
  list_sum (map (fun k => (f k + g k)%nat) ks) =
  (list_sum (map f ks) + list_sum (map g ks))%nat.
Proof.
  induction ks as [|k r IH]; [reflexivity|].
  cbn [map list_sum fold_right]. unfold list_sum in IH. rewrite IH.
  unfold list_sum. lia.
Qed.

Lemma list_sum_zero {K : Type} (f : K -> nat) (ks : list K) :
  (forall k, In k ks -> f k = O) -> list_sum (map f ks) = O.
Proof.
  induction ks as [|k r IH]; intro H; [reflexivity|].
  cbn [map list_sum fold_right]. rewrite (H k) by (left; reflexivity).
  apply IH. intros k' Hk'. apply H. right. exact Hk'.
Qed.

Lemma list_sum_indicator {K : Type} (sel : K -> bool) (ks : list K) (k0 : K) :
  (forall k, sel k = true <-> k0 = k) -> NoDup ks -> In k0 ks ->
  list_sum (map (fun k => if sel k then 1%nat else O) ks) = 1%nat.
Proof.
  intros Hsel Hnd Hin. induction Hnd as [|k r Hk Hr IH]; [contradiction|].
  cbn [map list_sum fold_right]. destruct (sel k) eqn:E.
  - apply Hsel in E. subst k.
    fold (list_sum (map (fun k => if sel k then 1%nat else O) r)).
    rewrite list_sum_zero; [reflexivity|].
    intros k' Hk'. destruct (sel k') eqn:E'; [|reflexivity].
    apply Hsel in E'. subst k'. contradiction.
  - destruct Hin as [->|Hin].
    + assert (sel k0 = true) by (apply Hsel; reflexivity). congruence.
    + fold (list_sum (map (fun k => if sel k then 1%nat else O) r)).
      rewrite IH by assumption. reflexivity.
Qed.

(** Groups over distinct keys partition a list. *)
Lemma count_partition {A K : Type} (key : A -> K) (sel : K -> A -> bool)
    (ks : list K) (l : list A) :
  (forall k x, sel k x = true <-> key x = k) -> NoDup ks ->
  (forall x, In x l -> In (key x) ks) ->
  list_sum (map (fun k => List.length (filter (sel k) l)) ks) = List.length l.
Proof.
  intros Hsel Hnd. induction l as [|x r IH]; intro Hin.
  - cbn [filter List.length]. apply list_sum_zero. reflexivity.
  - rewrite (map_ext _ (fun k => ((if sel k x then 1 else 0) +
                                   List.length (filter (sel k) r))%nat)).
    + rewrite list_sum_add, IH by (intros y Hy; apply Hin; right; exact Hy).
      rewrite (list_sum_indicator (fun k => sel k x) ks (key x)).
      * reflexivity.
      * intro k. apply Hsel.
      * exact Hnd.
      * apply Hin. left. reflexivity.
    + intro k. cbn [filter]. destruct (sel k x); reflexivity.
Qed.

Lemma same_key_spec (a b : string * Z * Z) : Nb.same_key a b = true <-> a = b.
Proof.
  unfold Nb.same_key. destruct (key3_dec a b); split; congruence.
Qed.

(** The counts of a group over the category columns add up to the
    records of the group. *)
Lemma group_row_total (ks : list ((string * Z * Z) * string)) (k : string * Z * Z) :
  list_sum (map (Nb.group_size ks k) (nodup string_dec (map snd ks))) =
  List.length (filter (fun kc => Nb.same_key (fst kc) k) ks).
Proof.
  set (g := filter (fun kc => Nb.same_key (fst kc) k) ks).
  rewrite <- (count_partition snd (fun c kc => String.eqb (snd kc) c)
                (nodup string_dec (map snd ks)) g).
  - f_equal. apply map_ext. intro c. unfold Nb.group_size, g. f_equal.
    clear. induction ks as [|x r IH]; [reflexivity|].
    cbn [filter]. destruct (Nb.same_key (fst x) k); cbn [andb filter];
      destruct (String.eqb (snd x) c); now rewrite IH.
  - intros c kc. apply String.eqb_eq.
  - apply NoDup_nodup.
  - intros kc Hkc. apply nodup_In. apply in_map.
    unfold g in Hkc. apply filter_In in Hkc. apply Hkc.
Qed.

(** Every record that has a group key is counted once. *)
Lemma aggregate_total (l : list Nb.dated_crime) :
  frame_total (Nb.aggregate l) = List.length (Nb.keyed l).
Proof.
  unfold frame_total, Nb.aggregate. cbn [Nb.rows Nb.columns].
  rewrite map_map. unfold row_total. cbn [Nb.ag_count].
  rewrite (map_ext _ (fun k => List.length
                          (filter (fun kc => Nb.same_key k (fst kc)) (Nb.keyed l)))).
  - apply (count_partition fst (fun k kc => Nb.same_key k (fst kc))).
    + intros k kc. rewrite same_key_spec. split; congruence.
    + apply NoDup_nodup.
    + intros kc Hkc. apply nodup_In, in_map, Hkc.
  - intro k. rewrite group_row_total. f_equal. apply filter_ext.
    intro kc. destruct (Nb.same_key (fst kc) k) eqn:E1,
                       (Nb.same_key k (fst kc)) eqn:E2; try reflexivity.
    + apply same_key_spec in E1. symmetry in E1. apply same_key_spec in E1.
      congruence.
    + apply same_key_spec in E2. symmetry in E2. apply same_key_spec in E2.
      congruence.
Qed.

Lemma keyed_length (l : list Nb.dated_crime) :
  (forall x, In x l -> Nb.dc_year x <> None /\ Nb.dc_month x <> None) ->
  List.length (Nb.keyed l) = List.length l.
Proof.
  induction l as [|x r IH]; intro H; [reflexivity|].
  unfold Nb.keyed in *. cbn [flat_map]. rewrite length_app, IH.
  - destruct (H x (or_introl eq_refl)) as [Hy Hm].
    destruct (Nb.dc_year x), (Nb.dc_month x); try congruence. reflexivity.
  - intros y Hy. apply H. right. exact Hy.
Qed.

Lemma year_filter_records (parse_datetime : string -> option datetime)
    (lo hi : Z) (crime_data : list crime_unit) :
  filter (Nb.year_between lo hi)
    (map (fun u => Nb.add_year_month u (coerce_cell parse_datetime (Date u)))
         crime_data) =
  map (fun u => Nb.add_year_month u (coerce_cell parse_datetime (Date u)))
      (filter (in_years parse_datetime lo hi) crime_data).
Proof.
  rewrite filter_map_swap. f_equal. apply filter_ext. intro u.
  unfold Nb.year_between, in_years, Nb.add_year_month. cbn [Nb.dc_year].
  destruct (coerce_cell parse_datetime (Date u)); reflexivity.
Qed.

Lemma dated_records_have_keys (parse_datetime : string -> option datetime)
    (lo hi : Z) (crime_data : list crime_unit) (x : Nb.dated_crime) :
  In x (map (fun u => Nb.add_year_month u (coerce_cell parse_datetime (Date u)))
            (filter (in_years parse_datetime lo hi) crime_data)) ->
  Nb.dc_year x <> None /\ Nb.dc_month x <> None.
Proof.
  intro H. apply in_map_iff in H. destruct H as (u & <- & Hu).
  apply filter_In in Hu. destruct Hu as [_ Hu]. unfold in_years in Hu.
  unfold Nb.add_year_month. cbn [Nb.dc_year Nb.dc_month].
  destruct (coerce_cell parse_datetime (Date u)); [|discriminate].
  split; discriminate.
Qed.

Lemma strip_frame_total (frame : Nb.crime_frame) :
  frame_total (Nb.mk_crime_frame (Nb.columns frame)
                 (map Post2009.strip_row (Nb.rows frame))) =
  frame_total frame.
Proof.
  unfold frame_total. cbn [Nb.rows Nb.columns]. rewrite map_map. reflexivity.
Qed.

(** X4. The tables of counts conserve the incidents: in either
    notebook, the counts of all rows and category columns add up to the
    number of crime records whose converted date has a year of the
    notebook's period (2010 to 2020, or 2005 to 2009). *)
Theorem counts_conserve_incidents :
  forall (parse_datetime : string -> option datetime)
         (crime_data : list crime_unit),
    (forall frame,
       Post2009.crime_counts parse_datetime crime_data = Returned frame ->
       frame_total frame =
       List.length (filter (in_years parse_datetime 2010 2020) crime_data)) /\
    (forall frame,
       Pre2010.crime_counts parse_datetime crime_data = Returned frame ->
       frame_total frame =
       List.length (filter (in_years parse_datetime 2005 2009) crime_data)).
Proof.
  intros parse_datetime crime_data. split.
  - intros frame E. unfold Post2009.crime_counts,
      Post2009.crime_filtered_2010_2020 in E.
    rewrite convert_dates_returns in E. cbn [bind] in E. injection E as <-.
    set (X := filter (Nb.year_between 2010 2020) _).
    change (frame_total
              (Nb.mk_crime_frame (Nb.columns (Nb.aggregate X))
                 (map Post2009.strip_row (Nb.rows (Nb.aggregate X)))) =
            List.length (filter (in_years parse_datetime 2010 2020) crime_data)).
    rewrite strip_frame_total. subst X.
    rewrite aggregate_total, year_filter_records, keyed_length.
    + apply length_map.
    + apply dated_records_have_keys.
  - intros frame E. unfold Pre2010.crime_counts, Pre2010.crime_filtered2005 in E.
    rewrite convert_dates_returns in E. cbn [bind] in E. injection E as <-.
    rewrite aggregate_total, year_filter_records, keyed_length.
    + rewrite !length_map. reflexivity.
    + intros x Hx. apply in_map_iff in Hx. destruct Hx as (x0 & <- & Hx0).
      apply dated_records_have_keys in Hx0. exact Hx0.
Qed.

(** X4 on the small city: seven of its records are of 2010-2020. *)
Lemma counts_conserve_incidents_witness :
  exists frame,
    Post2009.crime_counts City.parse_mdy_hms City.crimeunits = Returned frame /\
    frame_total frame = 7%nat.
Proof.
  destruct (Post2009_counts_returns City.parse_mdy_hms City.crimeunits)
    as (frame & E).
  exists frame. split; [exact E|].
  destruct (counts_conserve_incidents City.parse_mdy_hms City.crimeunits)
    as (H & _).
  rewrite (H frame E). vm_compute. reflexivity.
Defined.

Lemma filter_length_pos {A : Type} (f : A -> bool) (l : list A) (x : A) :
  In x (filter f l) -> (1 <= List.length (filter f l))%nat.
Proof.
  destruct (filter f l); [contradiction|]. intros _. cbn. lia.
Qed.

(** The columns of the counts are the categories of the records that
    have a key, and each row has an incident in one of them. *)
Lemma aggregate_columns (l : list Nb.dated_crime) (c : string) :
  In c (Nb.columns (Nb.aggregate l)) <->
  exists x, In x l /\ Nb.dc_year x <> None /\ Nb.dc_month x <> None /\
            Crime_Category (Nb.dc_unit x) = c.
Proof.
  unfold Nb.aggregate. cbn [Nb.columns]. rewrite nodup_In, in_map_iff. split.
  - intros ([k c'] & <- & H). apply keyed_In in H.
    destruct H as (x & Hx & Hy & Hm & _ & Hc). exists x.
    rewrite Hy, Hm. repeat split; try assumption; discriminate.
  - intros (x & Hx & Hy & Hm & Hc).
    destruct (Nb.dc_year x) as [y|] eqn:Ey; [|congruence].
    destruct (Nb.dc_month x) as [m|] eqn:Em; [|congruence].
    exists ((Nb.dc_District x, y, m), c). split; [reflexivity|].
    apply keyed_In. exists x. cbn. auto.
Qed.

Lemma aggregate_rows_nonempty (l : list Nb.dated_crime) (r : Nb.agg_row) :
  In r (Nb.rows (Nb.aggregate l)) ->
  exists c, In c (Nb.columns (Nb.aggregate l)) /\ (1 <= Nb.ag_count r c)%nat.
Proof.
  unfold Nb.aggregate. cbn [Nb.rows Nb.columns]. intro H.
  apply in_map_iff in H. destruct H as (k & <- & Hk).
  unfold group_keys in Hk. apply nodup_In in Hk.
  apply in_map_iff in Hk. destruct Hk as ([k' c] & E & Hkc).
  cbn [fst] in E. subst k'. exists c. split.
  - apply nodup_In. apply (in_map snd) in Hkc. exact Hkc.
  - cbn [Nb.ag_count]. unfold Nb.group_size.
    apply (filter_length_pos _ _ (k, c)). apply filter_In.
    split; [assumption|]. cbn [fst snd].
    rewrite String.eqb_refl, andb_true_r. now apply same_key_spec.
Qed.

(** X5. The tables of counts of both notebooks have no empty row:
    every row has at least one incident in one of the category
    columns, so a district-month without incidents of the period has
    no row at all (zeros are filled in per category only). *)
Theorem counts_have_no_empty_row :
  forall (parse_datetime : string -> option datetime)
         (crime_data : list crime_unit) (frame : Nb.crime_frame)
         (r : Nb.agg_row),
    Post2009.crime_counts parse_datetime crime_data = Returned frame \/
    Pre2010.crime_counts parse_datetime crime_data = Returned frame ->
    In r (Nb.rows frame) ->
    exists c, In c (Nb.columns frame) /\ (1 <= Nb.ag_count r c)%nat.
Proof.
  intros parse_datetime crime_data frame r [E|E] Hr.
  - unfold Post2009.crime_counts, Post2009.crime_filtered_2010_2020 in E.
    rewrite convert_dates_returns in E. cbn [bind] in E. injection E as <-.
    set (X := filter (Nb.year_between 2010 2020) _) in *.
    change (In r (map Post2009.strip_row (Nb.rows (Nb.aggregate X)))) in Hr.
    change (exists c, In c (Nb.columns (Nb.aggregate X)) /\
                      (1 <= Nb.ag_count r c)%nat).
    apply in_map_iff in Hr. destruct Hr as (r0 & <- & Hr0).
    apply aggregate_rows_nonempty in Hr0. exact Hr0.
  - unfold Pre2010.crime_counts, Pre2010.crime_filtered2005 in E.
    rewrite convert_dates_returns in E. cbn [bind] in E. injection E as <-.
    apply aggregate_rows_nonempty in Hr. exact Hr.
Qed.

(** X5 on the first row of the 2005-2009 counts of the small city. *)
Lemma counts_have_no_empty_row_witness :
  exists frame r,
    Pre2010.crime_counts City.parse_mdy_hms City.crimeunits = Returned frame /\
    In r (Nb.rows frame) /\
    exists c, In c (Nb.columns frame) /\ (1 <= Nb.ag_count r c)%nat.
Proof.
  destruct (Pre2010_counts_returns City.parse_mdy_hms City.crimeunits)
    as (frame & E).
  assert (Hrows : Nb.rows frame <> []).
  { intro Hnil. revert E. vm_compute. intro E. injection E as E.
    rewrite <- E in Hnil. discriminate Hnil. }
  destruct (Nb.rows frame) as [|r rest] eqn:Er; [congruence|].
  exists frame, r. split; [exact E|]. split; [rewrite Er; left; reflexivity|].
  apply (counts_have_no_empty_row City.parse_mdy_hms City.crimeunits frame r).
  - right. exact E.
  - rewrite Er. left. reflexivity.
Defined.

(** X6. Every row of the counts of either notebook stems from a crime
    record of its district, year and month, and its year lies in the
    period of the notebook. *)
Theorem counts_rows_lie_in_period :
  forall (parse_datetime : string -> option datetime)
         (crime_data : list crime_unit),
    (forall frame r,
       Post2009.crime_counts parse_datetime crime_data = Returned frame ->
       In r (Nb.rows frame) ->
       (2010 <= Nb.ag_year r <= 2020)%Z /\
       exists u d, In u crime_data /\
         coerce_cell parse_datetime (Date u) = Some d /\
         lstrip0 (District u) = Nb.ag_District r /\
         dt_year d = Nb.ag_year r /\ dt_month d = Nb.ag_month r) /\
    (forall frame r,
       Pre2010.crime_counts parse_datetime crime_data = Returned frame ->
       In r (Nb.rows frame) ->
       (2005 <= Nb.ag_year r <= 2009)%Z /\
       exists u d, In u crime_data /\
         coerce_cell parse_datetime (Date u) = Some d /\
         lstrip0 (District u) = Nb.ag_District r /\
         dt_year d = Nb.ag_year r /\ dt_month d = Nb.ag_month r).
Proof.
  intros parse_datetime crime_data.
  assert (Hrec : forall lo hi x,
            In x (filter (Nb.year_between lo hi)
                    (map (fun u => Nb.add_year_month u
                                     (coerce_cell parse_datetime (Date u)))
                         crime_data)) ->
            forall y m, Nb.dc_year x = Some y -> Nb.dc_month x = Some m ->
            (lo <= y <= hi)%Z /\
            exists u d, In u crime_data /\
              coerce_cell parse_datetime (Date u) = Some d /\
              District u = Nb.dc_District x /\ dt_year d = y /\ dt_month d = m).
  { intros lo hi x Hx y m Hy Hm. apply filter_In in Hx. destruct Hx as [Hx Hb].
    unfold Nb.year_between in Hb. rewrite Hy in Hb.
    apply andb_prop in Hb. destruct Hb as [Hlo Hhi].
    apply Z.leb_le in Hlo. apply Z.leb_le in Hhi. split; [lia|].
    apply in_map_iff in Hx. destruct Hx as (u & <- & Hu).
    unfold Nb.add_year_month in *. cbn [Nb.dc_year Nb.dc_month Nb.dc_District] in *.
    destruct (coerce_cell parse_datetime (Date u)) as [d|] eqn:Ed;
      [|discriminate].
    cbn in Hy, Hm. injection Hy as Hy. injection Hm as Hm.
    exists u, d. auto. }
  split.
  - intros frame r E Hr.
    unfold Post2009.crime_counts, Post2009.crime_filtered_2010_2020 in E.
    rewrite convert_dates_returns in E. cbn [bind] in E. injection E as <-.
    set (X := filter (Nb.year_between 2010 2020) _) in *.
    change (In r (map Post2009.strip_row (Nb.rows (Nb.aggregate X)))) in Hr.
    apply in_map_iff in Hr. destruct Hr as (r0 & <- & Hr0).
    apply aggregate_row_origin in Hr0. destruct Hr0 as (x & Hx & Hd & Hy & Hm).
    destruct (Hrec 2010%Z 2020%Z x Hx _ _ Hy Hm)
      as (Hrange & u & d & Hu & Hdate & Hdist & Hyear & Hmonth).
    split; [exact Hrange|]. exists u, d. cbn. rewrite Hdist, Hd. auto.
  - intros frame r E Hr.
    unfold Pre2010.crime_counts, Pre2010.crime_filtered2005 in E.
    rewrite convert_dates_returns in E. cbn [bind] in E. injection E as <-.
    apply aggregate_row_origin in Hr. destruct Hr as (x & Hx & Hd & Hy & Hm).
    apply in_map_iff in Hx. destruct Hx as (x0 & <- & Hx0).
    cbn [Nb.strip_district Nb.dc_year Nb.dc_month Nb.dc_District] in *.
    destruct (Hrec 2005%Z 2009%Z x0 Hx0 _ _ Hy Hm)
      as (Hrange & u & d & Hu & Hdate & Hdist & Hyear & Hmonth).
    split; [exact Hrange|]. exists u, d. rewrite Hdist, Hd. auto.
Qed.

(** X6 on the small city: its 2010-2020 rows are rows of 2015. *)
Lemma counts_rows_lie_in_period_witness :
  exists frame,
    Post2009.crime_counts City.parse_mdy_hms City.crimeunits = Returned frame /\
    forall r, In r (Nb.rows frame) -> (2010 <= Nb.ag_year r <= 2020)%Z.
Proof.
  destruct (Post2009_counts_returns City.parse_mdy_hms City.crimeunits)
    as (frame & E).
  exists frame. split; [exact E|]. intros r Hr.
  destruct (counts_rows_lie_in_period City.parse_mdy_hms City.crimeunits)
    as (H & _).
  apply (H frame r E Hr).
Defined.

(** ** One row per district, year and month *)

Lemma aggregate_keys (l : list Nb.dated_crime) :
  map row_key (Nb.rows (Nb.aggregate l)) =
  nodup key3_dec (map fst (Nb.keyed l)).
Proof.
  unfold Nb.aggregate, group_keys. cbn [Nb.rows]. rewrite map_map.
  rewrite <- (map_id (nodup key3_dec (map fst (Nb.keyed l)))) at 2.
  apply map_ext. intros [[d y] m]. reflexivity.
Qed.

Lemma written_codes_In (mdy_hms : string -> option datetime)
    (in_window : datetime -> bool) (crime_csv : list RStep.raw_crime)
    (u : crime_unit) :
  In u (RStep.crime_units mdy_hms in_window crime_csv) ->
  In (District u) written_codes.
Proof.
  unfold RStep.crime_units. intro Hu.
  apply in_map_iff in Hu. destruct Hu as (r & <- & Hr).
  apply filter_In in Hr. destruct Hr as [_ Hdist].
  unfold written_codes. apply nodup_In.
  apply str_in_In in Hdist. cbn [RStep.finish District].
  apply (in_map (fun d => RStep.recode d RStep.district_mapping)) in Hdist.
  exact Hdist.
Qed.

(** Removing the leading zeros keeps the written codes apart. *)
Lemma lstrip0_written_codes (a b : string) :
  In a written_codes -> In b written_codes ->
  lstrip0 a = lstrip0 b -> a = b.
Proof.
  assert (H : forallb (fun a => forallb (fun b =>
                implb (String.eqb (lstrip0 a) (lstrip0 b)) (String.eqb a b))
                written_codes) written_codes = true) by (vm_compute; reflexivity).
  intros Ha Hb E. rewrite forallb_forall in H.
  specialize (H a Ha). rewrite forallb_forall in H. specialize (H b Hb).
  rewrite E, String.eqb_refl in H. cbn in H. now apply String.eqb_eq.
Qed.

(** X7. The counts have one row for each district, year and month: the
    keys of the rows are pairwise distinct, in the 2005-2009 notebook
    for any crime file, and in the 2010-2020 notebook, which removes
    the leading zeros after the grouping, for the crime file that the R
    step writes. *)
Theorem counts_keys_are_distinct :
  forall (mdy_hms parse_datetime : string -> option datetime)
         (in_window : datetime -> bool)
         (crime_csv : list RStep.raw_crime) (crime_data : list crime_unit),
    (forall frame,
       Pre2010.crime_counts parse_datetime crime_data = Returned frame ->
       NoDup (map row_key (Nb.rows frame))) /\
    (forall frame,
       Post2009.crime_counts parse_datetime
         (RStep.crime_units mdy_hms in_window crime_csv) = Returned frame ->
       NoDup (map row_key (Nb.rows frame))).
Proof.
  intros mdy_hms parse_datetime in_window crime_csv crime_data. split.
  - intros frame E.
    unfold Pre2010.crime_counts, Pre2010.crime_filtered2005 in E.
    rewrite convert_dates_returns in E. cbn [bind] in E. injection E as <-.
    rewrite aggregate_keys. apply NoDup_nodup.
  - intros frame E.
    unfold Post2009.crime_counts, Post2009.crime_filtered_2010_2020 in E.
    rewrite convert_dates_returns in E. cbn [bind] in E. injection E as <-.
    set (X := filter (Nb.year_between 2010 2020) _) in *.
    change (NoDup (map row_key (map Post2009.strip_row (Nb.rows (Nb.aggregate X))))).
    rewrite map_map.
    apply NoDup_map_NoDup_ForallPairs.
    + intros r1 r2 H1 H2 Ekey.
      assert (Hcode : forall r, In r (Nb.rows (Nb.aggregate X)) ->
                                In (Nb.ag_District r) written_codes).
      { intros r Hr. apply aggregate_row_origin in Hr.
        destruct Hr as (x & Hx & <- & _).
        unfold X in Hx. apply filter_In in Hx. destruct Hx as [Hx _].
        apply in_map_iff in Hx. destruct Hx as (u & <- & Hu).
        cbn. apply (written_codes_In _ _ _ _ Hu). }
      unfold row_key, Post2009.strip_row in Ekey.
      cbn [Nb.ag_District Nb.ag_year Nb.ag_month] in Ekey.
      injection Ekey as Ed Ey Em.
      apply (lstrip0_written_codes _ _ (Hcode r1 H1) (Hcode r2 H2)) in Ed.
      assert (Hk : row_key r1 = row_key r2)
        by (unfold row_key; congruence).
      assert (Hnd : NoDup (map row_key (Nb.rows (Nb.aggregate X))))
        by (rewrite aggregate_keys; apply NoDup_nodup).
      revert H1 H2 Hk Hnd. clear. generalize (Nb.rows (Nb.aggregate X)).
      intro l. induction l as [|a rest IH]; [contradiction|].
      intros H1 H2 Hk Hnd. cbn [map] in Hnd.
      inversion Hnd as [|? ? Ha Hrest]; subst.
      destruct H1 as [<-|H1], H2 as [<-|H2].
      * reflexivity.
      * exfalso. apply Ha. rewrite Hk. apply in_map, H2.
      * exfalso. apply Ha. rewrite <- Hk. apply in_map, H1.
      * apply IH; assumption.
    + assert (Hnd : NoDup (map row_key (Nb.rows (Nb.aggregate X))))
        by (rewrite aggregate_keys; apply NoDup_nodup).
      apply NoDup_map_inv in Hnd. exact Hnd.
Qed.

(** X7 on the small city. *)
Lemma counts_keys_are_distinct_witness :
  exists frame,
    Post2009.crime_counts City.parse_mdy_hms City.crimeunits = Returned frame /\
    NoDup (map row_key (Nb.rows frame)).
Proof.
  destruct (Post2009_counts_returns City.parse_mdy_hms City.crimeunits)
    as (frame & E).
  exists frame. split; [exact E|].
  destruct (counts_keys_are_distinct City.parse_mdy_hms City.parse_mdy_hms
              City.in_window City.crimes_csv City.crimeunits) as (_ & H).
  apply (H frame E).
Defined.

(** ** The missing category column *)

Lemma first_missing_None (cols wanted : list string) :
  Nb.first_missing cols wanted = None <-> forall c, In c wanted -> In c cols.
Proof.
  induction wanted as [|c rest IH]; cbn [Nb.first_missing].
  - split; [intros _ c []|reflexivity].
  - destruct (str_in c cols) eqn:E.
    + apply str_in_In in E. rewrite IH. split.
      * intros H c' [<-|Hc']; auto.
      * intros H c' Hc'. apply H. right. exact Hc'.
    + split; [discriminate|]. intro H. exfalso.
      assert (Hc : In c cols) by (apply H; left; reflexivity).
      apply str_in_In in Hc. congruence.
Qed.

Lemma first_missing_Some (cols wanted : list string) (c : string) :
  Nb.first_missing cols wanted = Some c -> In c wanted /\ ~ In c cols.
Proof.
  induction wanted as [|c' rest IH]; cbn [Nb.first_missing]; [discriminate|].
  destruct (str_in c' cols) eqn:E.
  - intro H. destruct (IH H) as [Hin Hnot]. split; [right|]; assumption.
  - intro H. injection H as <-. split; [left; reflexivity|].
    intro Hc. apply str_in_In in Hc. congruence.
Qed.

Lemma Post2009_columns (parse_datetime : string -> option datetime)
    (crime_data : list crime_unit) (frame : Nb.crime_frame) (c : string) :
  Post2009.crime_counts parse_datetime crime_data = Returned frame ->
  (In c (Nb.columns frame) <->
   exists u, In u crime_data /\ in_years parse_datetime 2010 2020 u = true /\
             Crime_Category u = c).
Proof.
  intro E. unfold Post2009.crime_counts, Post2009.crime_filtered_2010_2020 in E.
  rewrite convert_dates_returns in E. cbn [bind] in E. injection E as <-.
  set (X := filter (Nb.year_between 2010 2020) _) in *.
  change (In c (Nb.columns (Nb.aggregate X)) <->
          exists u, In u crime_data /\
            in_years parse_datetime 2010 2020 u = true /\ Crime_Category u = c).
  rewrite aggregate_columns. unfold X. rewrite year_filter_records. split.
  - intros (x & Hx & _ & _ & Hc). apply in_map_iff in Hx.
    destruct Hx as (u & <- & Hu). apply filter_In in Hu. exists u.
    cbn in Hc. tauto.
  - intros (u & Hu & Hy & Hc).
    exists (Nb.add_year_month u (coerce_cell parse_datetime (Date u))).
    assert (Hin : In (Nb.add_year_month u (coerce_cell parse_datetime (Date u)))
                     (map (fun u => Nb.add_year_month u
                                      (coerce_cell parse_datetime (Date u)))
                          (filter (in_years parse_datetime 2010 2020) crime_data))).
    { apply (in_map (fun v => Nb.add_year_month v
                                (coerce_cell parse_datetime (Date v)))).
      apply filter_In. auto. }
    split; [exact Hin|].
    destruct (dated_records_have_keys _ _ _ _ _ Hin) as [H1 H2].
    auto.
Qed.

Lemma Pre2010_columns (parse_datetime : string -> option datetime)
    (crime_data : list crime_unit) (frame : Nb.crime_frame) (c : string) :
  Pre2010.crime_counts parse_datetime crime_data = Returned frame ->
  (In c (Nb.columns frame) <->
   exists u, In u crime_data /\ in_years parse_datetime 2005 2009 u = true /\
             Crime_Category u = c).
Proof.
  intro E. unfold Pre2010.crime_counts, Pre2010.crime_filtered2005 in E.
  rewrite convert_dates_returns in E. cbn [bind] in E. injection E as <-.
  rewrite aggregate_columns, year_filter_records. split.
  - intros (x & Hx & _ & _ & Hc). apply in_map_iff in Hx.
    destruct Hx as (x0 & <- & Hx0). apply in_map_iff in Hx0.
    destruct Hx0 as (u & <- & Hu). apply filter_In in Hu. exists u.
    cbn in Hc. tauto.
  - intros (u & Hu & Hy & Hc).
    assert (Hin : In (Nb.add_year_month u (coerce_cell parse_datetime (Date u)))
                     (map (fun u => Nb.add_year_month u
                                      (coerce_cell parse_datetime (Date u)))
                          (filter (in_years parse_datetime 2005 2009) crime_data))).
    { apply (in_map (fun v => Nb.add_year_month v
                                (coerce_cell parse_datetime (Date v)))).
      apply filter_In. auto. }
    exists (Nb.strip_district
              (Nb.add_year_month u (coerce_cell parse_datetime (Date u)))).
    split; [apply in_map, Hin|].
    destruct (dated_records_have_keys _ _ _ _ _ Hin) as [H1 H2].
    cbn [Nb.strip_district Nb.dc_year Nb.dc_month Nb.dc_unit]. auto.
Qed.

(** X8. The crime table of either notebook is produced exactly when
    each of the six categories occurs among the crime records of the
    notebook's period; otherwise the rate loop raises [KeyError] for a
    category of which the period has no record.  In particular an
    empty crime file raises [KeyError] for ['Violent Crime']. *)
Theorem crime_table_or_key_error :
  forall (parse_datetime : string -> option datetime)
         (survey2010 : list Post2009.district_row)
         (survey2005 : list Pre2010.district_row)
         (crime_data : list crime_unit),
    match Post2009.crime_aggregated_2010_2020 parse_datetime survey2010
            crime_data with
    | Returned _ =>
        forall c, In c crime_types ->
          exists u, In u crime_data /\
            in_years parse_datetime 2010 2020 u = true /\ Crime_Category u = c
    | Raised e =>
        exists c, In c crime_types /\ e = ("KeyError: " ++ c)%string /\
          forall u, In u crime_data ->
            in_years parse_datetime 2010 2020 u = true -> Crime_Category u <> c
    end /\
    match Pre2010.crime_aggregated_monthly2005 parse_datetime survey2005
            crime_data with
    | Returned _ =>
        forall c, In c crime_types ->
          exists u, In u crime_data /\
            in_years parse_datetime 2005 2009 u = true /\ Crime_Category u = c
    | Raised e =>
        exists c, In c crime_types /\ e = ("KeyError: " ++ c)%string /\
          forall u, In u crime_data ->
            in_years parse_datetime 2005 2009 u = true -> Crime_Category u <> c
    end /\
    Post2009.crime_aggregated_2010_2020 parse_datetime survey2010 []
      = Raised "KeyError: Violent Crime" /\
    Pre2010.crime_aggregated_monthly2005 parse_datetime survey2005 []
      = Raised "KeyError: Violent Crime".
Proof.
  intros parse_datetime survey2010 survey2005 crime_data.
  split; [|split; [|split; reflexivity]].
  - unfold Post2009.crime_aggregated_2010_2020.
    destruct (Post2009_counts_returns parse_datetime crime_data) as (frame & E).
    rewrite E. cbn [bind].
    destruct (Nb.first_missing (Nb.columns frame) crime_types) as [c|] eqn:Hm.
    + apply first_missing_Some in Hm. destruct Hm as [Hc Hnot].
      exists c. split; [exact Hc|]. split; [reflexivity|].
      intros u Hu Hy Hcat. apply Hnot.
      apply (Post2009_columns _ _ _ c E). eauto.
    + intros c Hc. apply (Post2009_columns _ _ _ c E).
      apply (proj1 (first_missing_None _ _) Hm c Hc).
  - unfold Pre2010.crime_aggregated_monthly2005.
    destruct (Pre2010_counts_returns parse_datetime crime_data) as (frame & E).
    rewrite E. cbn [bind].
    destruct (Nb.first_missing (Nb.columns frame) crime_types) as [c|] eqn:Hm.
    + apply first_missing_Some in Hm. destruct Hm as [Hc Hnot].
      exists c. split; [exact Hc|]. split; [reflexivity|].
      intros u Hu Hy Hcat. apply Hnot.
      apply (Pre2010_columns _ _ _ c E). eauto.
    + intros c Hc. apply (Pre2010_columns _ _ _ c E).
      apply (proj1 (first_missing_None _ _) Hm c Hc).
Qed.

(** ** The merge with the population *)

Lemma NoDup_key_inj {A K : Type} (key : A -> K) (l : list A) (a b : A) :
  NoDup (map key l) -> In a l -> In b l -> key a = key b -> a = b.
Proof.
  induction l as [|x r IH]; [contradiction|].
  cbn [map]. intros Hnd Ha Hb E. inversion Hnd as [|? ? Hx Hr]; subst.
  destruct Ha as [<-|Ha], Hb as [<-|Hb].
  - reflexivity.
  - exfalso. apply Hx. rewrite E. apply in_map, Hb.
  - exfalso. apply Hx. rewrite <- E. apply in_map, Ha.
  - apply IH; assumption.
Qed.

Lemma filter_at_most_one {A : Type} (f : A -> bool) (l : list A) :
  NoDup l ->
  (forall a b, In a l -> In b l -> f a = true -> f b = true -> a = b) ->
  filter f l = [] \/ exists a, filter f l = [a].
Proof.
  induction l as [|x r IH]; intros Hnd Huniq; [left; reflexivity|].
  inversion Hnd as [|? ? Hx Hr]; subst. cbn [filter].
  destruct (f x) eqn:E.
  - right. exists x. f_equal.
    destruct (filter f r) as [|y rest] eqn:Er; [reflexivity|].
    exfalso. assert (Hy : In y (filter f r)) by (rewrite Er; left; reflexivity).
    apply filter_In in Hy. destruct Hy as [Hy Hfy].
    assert (x = y) by (apply Huniq; cbn; auto). subst y. contradiction.
  - apply IH; [assumption|].
    intros a b Ha Hb. apply Huniq; right; assumption.
Qed.

Lemma Post2009_survey_keys (acs5 : Z -> list Post2009.api_row)
    (weights : list Geo.weight) :
  NoDup (map (fun d => (Post2009.dist_num d, Post2009.year d))
             (Post2009.district_aggregated_post_2009 acs5 weights)).
Proof.
  unfold Post2009.district_aggregated_post_2009, Post2009.district_sums,
    group_keys.
  rewrite !map_map. cbn [Post2009.derive Post2009.dist_num Post2009.year
                         Post2009.s_dist_num Post2009.s_year].
  rewrite (map_ext _ (fun k => k)) by (intros [d y]; reflexivity).
  rewrite map_id. apply NoDup_nodup.
Qed.

Lemma Pre2010_survey_keys (filtered : list Pre2010.filtered_row) :
  NoDup (map Pre2010.dist_num (Pre2010.district_aggregated2005 filtered)).
Proof. rewrite district_aggregated2005_keys. apply NoDup_nodup. Qed.

(** X9. Each survey table has one row for each district (and year, in
    2010-2020), and the left merge of the counts with it keeps the rows
    of the counts as they are: no row is dropped, repeated or moved. *)
Theorem merge_keeps_the_rows :
  forall (acs5 : Z -> list Post2009.api_row) (weights : list Geo.weight)
         (filtered : list Pre2010.filtered_row) (counts : list Nb.agg_row),
    NoDup (map (fun d => (Post2009.dist_num d, Post2009.year d))
               (Post2009.district_aggregated_post_2009 acs5 weights)) /\
    map Post2009.cm_counts
        (Post2009.merge_population
           (Post2009.district_aggregated_post_2009 acs5 weights) counts)
      = counts /\
    NoDup (map Pre2010.dist_num (Pre2010.district_aggregated2005 filtered)) /\
    map Pre2010.cm_counts
        (Pre2010.merge_population
           (Pre2010.district_aggregated2005 filtered) counts)
      = counts.
Proof.
  intros acs5 weights filtered counts.
  pose proof (Post2009_survey_keys acs5 weights) as H2010.
  pose proof (Pre2010_survey_keys filtered) as H2005.
  split; [exact H2010|]. split; [|split; [exact H2005|]].
  - set (survey := Post2009.district_aggregated_post_2009 acs5 weights) in *.
    unfold Post2009.merge_population.
    induction counts as [|r rest IH]; [reflexivity|].
    cbn [flat_map]. rewrite map_app, IH. clear IH.
    destruct (filter_at_most_one (Post2009.matches r) survey) as [E|(d & E)].
    + apply NoDup_map_inv in H2010. exact H2010.
    + intros a b Ha Hb Hfa Hfb.
      apply (NoDup_key_inj (fun d => (Post2009.dist_num d, Post2009.year d))
               survey a b H2010 Ha Hb).
      unfold Post2009.matches in Hfa, Hfb.
      apply andb_prop in Hfa. apply andb_prop in Hfb.
      destruct Hfa as [Ha1 Ha2], Hfb as [Hb1 Hb2].
      apply String.eqb_eq in Ha1, Hb1. apply Z.eqb_eq in Ha2, Hb2. congruence.
    + rewrite E. reflexivity.
    + rewrite E. reflexivity.
  - set (survey := Pre2010.district_aggregated2005 filtered) in *.
    unfold Pre2010.merge_population.
    induction counts as [|r rest IH]; [reflexivity|].
    cbn [flat_map]. rewrite map_app, IH. clear IH.
    destruct (filter_at_most_one (Pre2010.matches r) survey) as [E|(d & E)].
    + apply NoDup_map_inv in H2005. exact H2005.
    + intros a b Ha Hb Hfa Hfb.
      apply (NoDup_key_inj Pre2010.dist_num survey a b H2005 Ha Hb).
      unfold Pre2010.matches in Hfa, Hfb.
      apply String.eqb_eq in Hfa, Hfb. congruence.
    + rewrite E. reflexivity.
    + rewrite E. reflexivity.
Qed.

(** ** Records and proportions of the areal weights *)

Lemma Qsum_member_le (l : list Q) (x : Q) :
  Forall (fun y => 0 <= y) l -> In x l -> x <= Qsum l.
Proof.
  induction 1 as [|y r Hy Hr IH]; [contradiction|].
  intros [->|Hin]; cbn [Qsum].
  - pose proof (Qsum_nonneg r Hr). lra.
  - specialize (IH Hin). lra.
Qed.

(** X10. Every proportion of the areal-weight table of either notebook
    is a number above 0 and at most 1, and it is 1 for a record that is
    the only one of its tract. *)
Theorem proportions_lie_in_unit_interval :
  forall (geometry : Type) (to_crs : geometry -> geometry)
         (inter_area : geometry -> geometry -> Q)
         (tracts : list (Geo.tract geometry))
         (districts : list (Geo.district geometry))
         (table : list Geo.weight) (w : Geo.weight),
    table = Post2009.tracts_to_districts to_crs inter_area tracts districts \/
    table = Pre2010.tracts_to_districts to_crs inter_area tracts districts ->
    In w table ->
    exists p, Geo.proportion w = Num p /\ 0 < p <= 1 /\
      (filter (fun w' => String.eqb (Geo.w_tract w') (Geo.w_tract w)) table = [w] ->
       p == 1).
Proof.
  intros geometry to_crs inter_area tracts districts table w Htable Hw.
  set (pieces := Geo.overlay inter_area (Geo.reproject_tracts to_crs tracts)
                   (Geo.reproject_districts to_crs (Geo.drop_31ST districts))).
  assert (E : table = Geo.areal_weights pieces).
  { destruct Htable as [-> | ->].
    - reflexivity.
    - unfold Pre2010.tracts_to_districts. cbv zeta.
      apply Pre2010_filter_31_keeps_all. }
  assert (Hpos : positive_areas pieces) by apply overlay_positive.
  subst table. pose proof Hw as Hw'.
  unfold Geo.areal_weights in Hw'.
  apply in_map_iff in Hw'. destruct Hw' as (p & Ep & Hp).
  destruct (proportion_value pieces p Hpos Hp) as (Hprop & Ha & HT).
  set (T := Qsum (map area_of
                (filter (fun x => String.eqb (Geo.p_tract x) (Geo.p_tract p))
                        pieces))) in *.
  exists (area_of p / T). split; [rewrite <- Ep; exact Hprop|].
  assert (Hle : area_of p <= T).
  { apply Qsum_member_le.
    - apply Forall_map. apply Forall_forall. intros x Hx.
      apply filter_In in Hx. destruct Hx as [Hx _].
      unfold positive_areas in Hpos. rewrite Forall_forall in Hpos.
      destruct (Hpos x Hx) as (a & Hxa & Hapos).
      unfold area_of. rewrite Hxa. lra.
    - apply in_map. apply filter_In. split; [assumption|].
      apply String.eqb_refl. }
  split.
  - split.
    + apply Qlt_shift_div_l; [assumption|lra].
    + apply Qle_shift_div_r; [assumption|lra].
  - intro Hone.
    assert (Hk : In (Geo.w_tract w) (map Geo.p_tract pieces)).
    { rewrite <- Ep. cbn [Geo.w_tract]. apply in_map, Hp. }
    pose proof (areal_weights_sum_to_one pieces (Geo.w_tract w) Hpos Hk) as Hsum.
    unfold proportion_sum in Hsum. rewrite Hone in Hsum.
    cbn [map fsum] in Hsum. rewrite <- Ep in Hsum. cbn [Geo.proportion] in Hsum.
    rewrite Hprop in Hsum. cbn [fadd feq] in Hsum. fold T in Hsum. lra.
Qed.

(** X10 on the small city: each half of its tract weighs at most 1. *)
Lemma proportions_lie_in_unit_interval_witness :
  exists p,
    Geo.proportion
      (nth 0 (Post2009.tracts_to_districts City.same_crs City.overlap
                City.tracts City.districts)
             (Geo.mk_weight "" "" NaN)) = Num p /\
    0 < p <= 1.
Proof.
  destruct (proportions_lie_in_unit_interval City.strip City.same_crs
              City.overlap City.tracts City.districts
              (Post2009.tracts_to_districts City.same_crs City.overlap
                 City.tracts City.districts)
              (nth 0 (Post2009.tracts_to_districts City.same_crs City.overlap
                        City.tracts City.districts)
                     (Geo.mk_weight "" "" NaN)))
    as (p & Hp & Hrange & _).
  - left. reflexivity.
  - apply nth_In. vm_compute. lia.
  - exists p. split; [exact Hp | exact Hrange].
Defined.

(** X11. The areal-weight table of either notebook has a record for a
    tract and a district number exactly when a tract of that identifier
    and a district of that number whose label is not ['31ST'] overlap in
    a positive area.  The number of the district plays no role: the
    filter [dist_num != 31] of the 2005-2009 notebook keeps a district
    numbered 31 that carries another label. *)
Theorem areal_records_are_the_overlaps :
  forall (geometry : Type) (to_crs : geometry -> geometry)
         (inter_area : geometry -> geometry -> Q)
         (tracts : list (Geo.tract geometry))
         (districts : list (Geo.district geometry))
         (table : list Geo.weight) (k n : string),
    table = Post2009.tracts_to_districts to_crs inter_area tracts districts \/
    table = Pre2010.tracts_to_districts to_crs inter_area tracts districts ->
    ((exists w, In w table /\ Geo.w_tract w = k /\ Geo.w_dist w = n) <->
     (exists t d, In t tracts /\ In d districts /\
        Geo.dist_label d <> "31ST" /\
        0 < inter_area (to_crs (Geo.tract_geom t)) (to_crs (Geo.dist_geom d)) /\
        Geo.tract_id t = k /\ Geo.dist_num d = n)).
Proof.
  intros geometry to_crs inter_area tracts districts table k n Htable.
  assert (E : table =
              Geo.areal_weights
                (Geo.overlay inter_area (Geo.reproject_tracts to_crs tracts)
                   (Geo.reproject_districts to_crs (Geo.drop_31ST districts)))).
  { destruct Htable as [-> | ->].
    - reflexivity.
    - unfold Pre2010.tracts_to_districts. cbv zeta.
      apply Pre2010_filter_31_keeps_all. }
  subst table. split.
  - intros (w & Hw & <- & <-). unfold Geo.areal_weights in Hw.
    apply in_map_iff in Hw. destruct Hw as (p & <- & Hp).
    apply overlay_In in Hp. destruct Hp as (t & d & Ht & Hd & Hpos & ->).
    unfold Geo.reproject_tracts in Ht. apply in_map_iff in Ht.
    destruct Ht as (t0 & <- & Ht0).
    unfold Geo.reproject_districts in Hd. apply in_map_iff in Hd.
    destruct Hd as (d0 & <- & Hd0).
    unfold Geo.drop_31ST in Hd0. apply filter_In in Hd0.
    destruct Hd0 as [Hd0 Hlabel].
    exists t0, d0. cbn in *. repeat split; try assumption.
    intro El. rewrite El in Hlabel. discriminate.
  - intros (t & d & Ht & Hd & Hlabel & Hpos & <- & <-).
    eexists. split.
    + unfold Geo.areal_weights. apply in_map. apply overlay_In.
      exists (Geo.mk_tract (Geo.tract_id t) (to_crs (Geo.tract_geom t))),
             (Geo.mk_district (Geo.dist_label d) (Geo.dist_num d)
                              (to_crs (Geo.dist_geom d))).
      split; [|split; [|split; [exact Hpos|reflexivity]]].
      * unfold Geo.reproject_tracts.
        apply (in_map (fun t => Geo.mk_tract (Geo.tract_id t)
                                  (to_crs (Geo.tract_geom t)))), Ht.
      * unfold Geo.reproject_districts.
        apply (in_map (fun d => Geo.mk_district (Geo.dist_label d)
                                  (Geo.dist_num d) (to_crs (Geo.dist_geom d)))).
        unfold Geo.drop_31ST. apply filter_In. split; [exact Hd|].
        destruct (String.eqb_spec (Geo.dist_label d) "31ST"); [contradiction|].
        reflexivity.
    + split; reflexivity.
Qed.

(** X11 on a boundary table whose area 31 is labelled ['OHARE']: the
    2005-2009 table keeps a record of district 31. *)
Lemma areal_records_are_the_overlaps_witness :
  exists w,
    In w (Pre2010.tracts_to_districts City.same_crs City.overlap
            City.tracts Relabelled.districts) /\
    Geo.w_tract w = "17031010100" /\ Geo.w_dist w = "31".
Proof.
  apply (areal_records_are_the_overlaps City.strip City.same_crs City.overlap
           City.tracts Relabelled.districts
           (Pre2010.tracts_to_districts City.same_crs City.overlap
              City.tracts Relabelled.districts)
           "17031010100" "31").
  - right. reflexivity.
  - exists (Geo.mk_tract "17031010100" (0, 2)),
           (Geo.mk_district "OHARE" "31" (1, 2)).
    split; [left; reflexivity|]. split; [right; left; reflexivity|].
    split; [discriminate|]. split; [vm_compute; reflexivity|].
    split; reflexivity.
Defined.

(** ** The crime file of the R step in the notebooks *)

(** X12. On the crime file that the R step writes, the date conversion
    of the notebooks gives every record the timestamp it already has,
    so that no record has a missing year and the counts and the crime
    table of either notebook do not depend on the date parser of
    pandas. *)
Theorem notebooks_keep_the_dates_of_the_R_step :
  forall (mdy_hms parse1 parse2 : string -> option datetime)
         (in_window : datetime -> bool)
         (crime_csv : list RStep.raw_crime)
         (survey2010 : list Post2009.district_row)
         (survey2005 : list Pre2010.district_row),
    let crime_data := RStep.crime_units mdy_hms in_window crime_csv in
    (exists dated,
       Nb.convert_dates parse1 crime_data = Returned dated /\
       List.length dated = List.length crime_data /\
       forall x, In x dated ->
         exists d, Date (Nb.dc_unit x) = DTimestamp d /\
           Nb.dc_Date x = Some d /\ Nb.dc_year x = Some (dt_year d) /\
           Nb.dc_month x = Some (dt_month d)) /\
    Post2009.crime_aggregated_2010_2020 parse1 survey2010 crime_data =
    Post2009.crime_aggregated_2010_2020 parse2 survey2010 crime_data /\
    Pre2010.crime_aggregated_monthly2005 parse1 survey2005 crime_data =
    Pre2010.crime_aggregated_monthly2005 parse2 survey2005 crime_data.
Proof.
  intros mdy_hms parse1 parse2 in_window crime_csv survey2010 survey2005
         crime_data.
  assert (Hdate : forall u, In u crime_data -> exists d, Date u = DTimestamp d).
  { intros u Hu. apply (crime_units_record _ _ _ _ Hu). }
  assert (Hconv : forall parse,
            Nb.convert_dates parse crime_data =
            Nb.convert_dates parse1 crime_data).
  { intro parse. rewrite !convert_dates_returns. f_equal.
    apply map_ext_in. intros u Hu. destruct (Hdate u Hu) as (d & ->).
    reflexivity. }
  split; [|split].
  - eexists. split; [apply convert_dates_returns|].
    split; [apply length_map|].
    intros x Hx. apply in_map_iff in Hx. destruct Hx as (u & <- & Hu).
    destruct (Hdate u Hu) as (d & Ed). exists d.
    unfold Nb.add_year_month. cbn [Nb.dc_unit Nb.dc_Date Nb.dc_year Nb.dc_month].
    rewrite Ed. cbn. auto.
  - unfold Post2009.crime_aggregated_2010_2020, Post2009.crime_counts,
      Post2009.crime_filtered_2010_2020.
    rewrite (Hconv parse2). reflexivity.
  - unfold Pre2010.crime_aggregated_monthly2005, Pre2010.crime_counts,
      Pre2010.crime_filtered2005.
    rewrite (Hconv parse2). reflexivity.
Qed.

(** ** Sums over groups and over merged rows *)

Lemma Qsum_app (l1 l2 : list Q) : Qsum (l1 ++ l2) == Qsum l1 + Qsum l2.
Proof.
  induction l1 as [|x r IH]; cbn [app Qsum]; [lra|]. rewrite IH. lra.
Qed.

Lemma Qsum_ext {A : Type} (f g : A -> Q) (l : list A) :
  (forall x, In x l -> f x == g x) -> Qsum (map f l) == Qsum (map g l).
Proof.
  induction l as [|x r IH]; intro H; cbn [map Qsum]; [reflexivity|].
  rewrite (H x) by (left; reflexivity).
  rewrite IH by (intros y Hy; apply H; right; exact Hy). reflexivity.
Qed.

Lemma Qsum_zero {A : Type} (f : A -> Q) (l : list A) :
  (forall x, In x l -> f x == 0) -> Qsum (map f l) == 0.
Proof.
  induction l as [|x r IH]; intro H; cbn [map Qsum]; [reflexivity|].
  rewrite (H x) by (left; reflexivity).
  rewrite IH by (intros y Hy; apply H; right; exact Hy). lra.
Qed.

Lemma Qsum_add {A : Type} (f g : A -> Q) (l : list A) :
  Qsum (map (fun x => f x + g x) l) == Qsum (map f l) + Qsum (map g l).
Proof.
  induction l as [|x r IH]; cbn [map Qsum]; [lra|]. rewrite IH. lra.
Qed.

Lemma Qsum_filter {A : Type} (f : A -> Q) (p : A -> bool) (l : list A) :
  Qsum (map f (filter p l)) == Qsum (map (fun x => if p x then f x else 0) l).
Proof.
  induction l as [|x r IH]; cbn [filter map Qsum]; [reflexivity|].
  destruct (p x); cbn [map Qsum]; rewrite IH; lra.
Qed.

Lemma Qsum_indicator {K : Type} (sel : K -> bool) (ks : list K) (k0 : K) (v : Q) :
  (forall k, sel k = true <-> k0 = k) -> NoDup ks -> In k0 ks ->
  Qsum (map (fun k => if sel k then v else 0) ks) == v.
Proof.
  intros Hsel Hnd Hin. induction Hnd as [|k r Hk Hr IH]; [contradiction|].
  cbn [map Qsum]. destruct (sel k) eqn:E.
  - apply Hsel in E. subst k.
    rewrite Qsum_zero; [lra|].
    intros k' Hk'. destruct (sel k') eqn:E'; [|reflexivity].
    apply Hsel in E'. subst k'. contradiction.
  - destruct Hin as [->|Hin].
    + assert (sel k0 = true) by (apply Hsel; reflexivity). congruence.
    + rewrite IH by assumption. lra.
Qed.

(** The sums of the groups over distinct keys add up to the sum of the
    whole list. *)
Lemma Qsum_partition {A K : Type} (key : A -> K) (sel : K -> A -> bool)
    (val : A -> Q) (ks : list K) (l : list A) :
  (forall k x, sel k x = true <-> key x = k) -> NoDup ks ->
  (forall x, In x l -> In (key x) ks) ->
  Qsum (map (fun k => Qsum (map val (filter (sel k) l))) ks) == Qsum (map val l).
Proof.
  intros Hsel Hnd. induction l as [|x r IH]; intro Hin.
  - cbn [filter map Qsum]. apply Qsum_zero. reflexivity.
  - rewrite (Qsum_ext _ (fun k => (if sel k x then val x else 0) +
                                   Qsum (map val (filter (sel k) r)))).
    + rewrite Qsum_add, IH by (intros y Hy; apply Hin; right; exact Hy).
      rewrite (Qsum_indicator (fun k => sel k x) ks (key x)).
      * cbn [map Qsum]. reflexivity.
      * intro k. apply Hsel.
      * exact Hnd.
      * apply Hin. left. reflexivity.
    + intros k _. cbn [filter]. destruct (sel k x); cbn [map Qsum]; lra.
Qed.

(** A sum over the rows of an inner merge is a double sum. *)
Lemma Qsum_merged {A B C : Type} (l1 : list A) (l2 : list B)
    (sel : A -> B -> bool) (mk : A -> B -> C) (val : C -> Q) :
  Qsum (map val (flat_map (fun a => map (mk a) (filter (sel a) l2)) l1)) ==
  Qsum (map (fun a => Qsum (map (fun b => val (mk a b)) (filter (sel a) l2))) l1).
Proof.
  induction l1 as [|a r IH]; [reflexivity|].
  cbn [flat_map map Qsum]. rewrite map_app, Qsum_app, IH, map_map. reflexivity.
Qed.

Lemma sum_skipna_numbers {A : Type} (f : A -> fval) (l : list A) :
  (forall x, In x l -> exists q, f x = Num q) ->
  sum_skipna (map f l) = Num (Qsum (map (fun x => num_of (f x)) l)).
Proof.
  intro H. rewrite <- sum_skipna_Num, map_map. f_equal.
  apply map_ext_in. intros x Hx. destruct (H x Hx) as (q & ->). reflexivity.
Qed.


(** ** Totals of the survey attributes over the districts *)




Section Conservation.

Variable acs5 : Z -> list Post2009.api_row.
Variable pieces : list Geo.piece.
Variable v : Post2009.acs_var.
Variable y : Z.

Hypothesis pieces_positive : positive_areas pieces.
Hypothesis estimates_finite :
  forall y' a, In y' Post2009.acs_years -> In a (acs5 y') ->
    finite_or_missing (Post2009.estimate a v).






End Conservation.




Lemma Qsum_exchange_count {A B : Type} (l1 : list A) (l2 : list B)
    (m : A -> B -> bool) (q : B -> Q) :
  Qsum (map (fun a => Qsum (map q (filter (m a) l2))) l1) ==
  Qsum (map (fun b => q b * inject_Z (Z.of_nat
                               (List.length (filter (fun a => m a b) l1))))
            l2).
Proof.
  induction l1 as [|a r IH].
  - cbn [map Qsum]. symmetry. apply Qsum_zero.
    intros b _. cbn [filter List.length Z.of_nat].
    change (inject_Z 0) with 0. lra.
  - cbn [map Qsum]. rewrite IH, Qsum_filter, <- Qsum_add.
    apply Qsum_ext. intros b _. cbn [filter].
    destruct (m a b); cbn [List.length]; [|lra].
    rewrite Nat2Z.inj_succ. unfold Z.succ. rewrite inject_Z_plus.
    change (inject_Z 1) with 1. lra.
Qed.

(** X14. In the 2005-2009 notebook the populations of the districts
    add up to the population of every survey tract counted once for
    each areal-weight record of the tract, that is, once for each
    district that the tract overlaps: the proportion is not applied. *)
Theorem tract_population_counted_per_district_2005 :
  forall (nhgis : list Pre2010.nhgis_row) (weights : list Geo.weight),
    (forall a, In a nhgis ->
       finite_or_missing (Pre2010.nhgis_value a Pre2010.RK9E001)) ->
    let acs := Pre2010.acs2005_2009_chicago nhgis in
    let survey := Pre2010.district_aggregated2005
                    (Pre2010.filtered_df weights acs) in
    (forall d, In d survey -> exists q, Pre2010.Total_Population d = Num q) /\
    Qsum (map (fun d => num_of (Pre2010.Total_Population d)) survey) ==
    Qsum (map (fun a =>
                 num_of (Pre2010.ch_value a Pre2010.RK9E001) *
                 inject_Z (Z.of_nat (List.length
                   (filter (fun w => String.eqb (Geo.w_tract w)
                                       (Pre2010.census_tract_id a))
                           weights))))
              acs).
Proof.
  intros nhgis weights Hest acs survey.
  assert (Hacs : forall a, In a acs ->
            exists q, Pre2010.ch_value a Pre2010.RK9E001 = Num q).
  { intros a Ha. unfold acs, Pre2010.acs2005_2009_chicago in Ha.
    apply in_map_iff in Ha. destruct Ha as (a0 & <- & Ha0).
    apply filter_In in Ha0. destruct Ha0 as [Ha0 _].
    cbn [Pre2010.ch_value].
    destruct (Hest a0 Ha0) as [->|(q & ->)]; cbn; eauto. }
  set (filtered := Pre2010.filtered_df weights acs) in *.
  assert (Hf : forall f, In f filtered ->
            exists q, Pre2010.f_Total_Population f = Num q).
  { intros f Hf. unfold filtered, Pre2010.filtered_df in Hf.
    apply in_flat_map in Hf. destruct Hf as (w & _ & Hf).
    apply in_map_iff in Hf. destruct Hf as (a & <- & Ha).
    apply filter_In in Ha. destruct Ha as [Ha _].
    cbn [Pre2010.f_Total_Population].
    destruct (Hacs a Ha) as (q & ->). cbn. eauto. }
  assert (Hgroup : forall k,
            sum_skipna (map Pre2010.f_Total_Population
                          (filter (fun f => String.eqb (Pre2010.f_dist_num f) k)
                                  filtered)) =
            Num (Qsum (map (fun f => num_of (Pre2010.f_Total_Population f))
                           (filter (fun f => String.eqb (Pre2010.f_dist_num f) k)
                                   filtered)))).
  { intro k. apply sum_skipna_numbers. intros f Hin.
    apply filter_In in Hin. apply Hf, Hin. }
  split.
  - intros d Hd. unfold survey, Pre2010.district_aggregated2005 in Hd.
    apply in_map_iff in Hd. destruct Hd as (k & <- & _).
    cbn [Pre2010.Total_Population]. rewrite Hgroup. eauto.
  - unfold survey, Pre2010.district_aggregated2005. rewrite map_map.
    cbn [Pre2010.Total_Population].
    rewrite (Qsum_ext _ (fun k => Qsum (map (fun f => num_of (Pre2010.f_Total_Population f))
                             (filter (fun f => String.eqb (Pre2010.f_dist_num f) k)
                                     filtered))))
      by (intros k _; rewrite Hgroup; reflexivity).
    rewrite (Qsum_partition Pre2010.f_dist_num
               (fun k f => String.eqb (Pre2010.f_dist_num f) k)).
    + unfold filtered, Pre2010.filtered_df.
      rewrite (Qsum_merged weights acs
                 (fun w a => String.eqb (Geo.w_tract w) (Pre2010.census_tract_id a))
                 _ (fun f => num_of (Pre2010.f_Total_Population f))).
      cbn [Pre2010.f_Total_Population].
      rewrite (Qsum_ext _ (fun w => Qsum (map (fun a => num_of (Pre2010.ch_value a Pre2010.RK9E001))
                               (filter (fun a => String.eqb (Geo.w_tract w)
                                                   (Pre2010.census_tract_id a)) acs)))).
      * apply (Qsum_exchange_count weights acs
                 (fun w a => String.eqb (Geo.w_tract w) (Pre2010.census_tract_id a))
                 (fun a => num_of (Pre2010.ch_value a Pre2010.RK9E001))).
      * intros w _. apply Qsum_ext. intros a Ha.
        apply filter_In in Ha. destruct Ha as [Ha _].
        destruct (Hacs a Ha) as (q & ->). reflexivity.
    + intros k f. apply String.eqb_eq.
    + apply NoDup_nodup.
    + intros f Hin. unfold group_keys. apply nodup_In, in_map, Hin.
Qed.

(** The survey file of the small city has finite estimates. *)
Lemma nhgis_city_finite :
  forall a, In a City.nhgis_csv ->
    finite_or_missing (Pre2010.nhgis_value a Pre2010.RK9E001).
Proof. intros a [<-|[]]. right. cbn. eauto. Qed.

(** X14 on the small city: the 100 residents of its tract, which lies
    in two districts, make 200 residents of districts. *)
Lemma tract_population_counted_per_district_2005_witness :
  Qsum (map (fun d => num_of (Pre2010.Total_Population d)) City.survey2005)
    == 200.
Proof.
  destruct (tract_population_counted_per_district_2005 City.nhgis_csv
              (Pre2010.tracts_to_districts City.same_crs City.overlap
                 City.tracts City.districts)
              nhgis_city_finite) as (_ & H).
  unfold City.survey2005, Pre2010.survey_table. rewrite H.
  vm_compute. reflexivity.
Defined.

(** ** Percentages of the 2010-2020 survey table *)

Lemma Qsum_le {A : Type} (f g : A -> Q) (l : list A) :
  (forall x, In x l -> f x <= g x) -> Qsum (map f l) <= Qsum (map g l).
Proof.
  induction l as [|x r IH]; intro H; cbn [map Qsum]; [lra|].
  pose proof (H x (or_introl eq_refl)).
  assert (Qsum (map f r) <= Qsum (map g r))
    by (apply IH; intros z Hz; apply H; right; exact Hz).
  lra.
Qed.

Lemma estimate_ok_number (a : fval) :
  estimate_ok a -> fillna0 a = Num (num_of a) /\ 0 <= num_of a.
Proof.
  intros [->|(q & -> & Hq)]; cbn; split; (reflexivity || lra).
Qed.

Lemma percent_bounds (a b : Q) :
  0 <= a <= b -> percent_ok (Post2009.percent (Num a) (Num b)).
Proof.
  intros [Ha Hab]. unfold Post2009.percent. cbn [fdiv].
  destruct (Qsign b) eqn:Eb.
  - apply (proj1 (Qsign_zero _)) in Eb.
    assert (Ea : Qsign a = Eq) by (apply Qsign_zero; lra).
    rewrite Ea. left. reflexivity.
  - apply (proj1 (Qsign_pos _)) in Eb. right. cbn [fmul].
    eexists. split; [reflexivity|].
    assert (0 <= a / b) by (apply Qle_shift_div_l; [assumption|lra]).
    assert (a / b <= 1) by (apply Qle_shift_div_r; [assumption|lra]).
    lra.
  - apply (proj1 (Qsign_neg _)) in Eb. lra.
Qed.

Section Percentages.

Variable acs5 : Z -> list Post2009.api_row.
Variable pieces : list Geo.piece.

Hypothesis pieces_positive : positive_areas pieces.
Hypothesis estimates_consistent :
  forall y a, In y Post2009.acs_years -> In a (acs5 y) ->
    consistent_estimates (Post2009.estimate a).

(** The value of a merged row is the estimate of its tract times a
    positive proportion. *)
Lemma mapped_value_Q (m : Post2009.mapped_row) :
  In m (Post2009.acs_mapped_post_2009 acs5 (Geo.areal_weights pieces)) ->
  exists e p, consistent_estimates e /\ 0 < p /\
    forall v, Post2009.m_value m v = Num (num_of (e v) * p).
Proof.
  intro Hm. apply acs_mapped_post_2009_In in Hm.
  destruct Hm as (a & w & Ha & Hw & _ & _ & _ & Hval).
  apply acs_data_post_2009_In in Ha.
  destruct Ha as (y & a0 & Hy & Ha0 & _ & _ & Hfill).
  destruct (areal_weights_positive pieces pieces_positive w Hw) as (p & Hp & Hpos).
  exists (Post2009.estimate a0), p.
  split; [apply (estimates_consistent y a0 Hy Ha0)|]. split; [exact Hpos|].
  intro v. rewrite Hval, Hfill, Hp.
  destruct (estimates_consistent y a0 Hy Ha0) as (Hok & _).
  destruct (estimate_ok_number _ (Hok v)) as (-> & _). reflexivity.
Qed.

Lemma sums_row_numbers (s : Post2009.sums_row) :
  In s (Post2009.district_sums
          (Post2009.acs_mapped_post_2009 acs5 (Geo.areal_weights pieces))) ->
  exists S : Post2009.acs_var -> Q,
    (forall v, Post2009.s_sum s v = Num (S v)) /\
    (forall v, 0 <= S v) /\
    S Post2009.B03002_003E <= S Post2009.B01003_001E /\
    S Post2009.B03002_004E <= S Post2009.B01003_001E /\
    S Post2009.B03002_006E <= S Post2009.B01003_001E /\
    S Post2009.B03002_012E <= S Post2009.B01003_001E /\
    S Post2009.C17002_002E + S Post2009.C17002_003E <= S Post2009.C17002_001E.
Proof.
  unfold Post2009.district_sums. intro Hs.
  apply in_map_iff in Hs. destruct Hs as (k & <- & _).
  set (G := filter (Post2009.in_group k)
              (Post2009.acs_mapped_post_2009 acs5 (Geo.areal_weights pieces))).
  assert (HG : forall m, In m G ->
            exists e p, consistent_estimates e /\ 0 < p /\
              forall v, Post2009.m_value m v = Num (num_of (e v) * p)).
  { intros m Hm. unfold G in Hm. apply filter_In in Hm.
    apply mapped_value_Q, Hm. }
  exists (fun v => Qsum (map (fun m => num_of (Post2009.m_value m v)) G)).
  cbn [Post2009.s_sum]. fold G.
  assert (Hle : forall v1 v2,
            (forall e, consistent_estimates e -> num_of (e v1) <= num_of (e v2)) ->
            Qsum (map (fun m => num_of (Post2009.m_value m v1)) G) <=
            Qsum (map (fun m => num_of (Post2009.m_value m v2)) G)).
  { intros v1 v2 H. apply Qsum_le. intros m Hm.
    destruct (HG m Hm) as (e & p & He & Hp & Hval).
    rewrite !Hval. cbn [num_of]. specialize (H e He).
    apply Qmult_le_compat_r; lra. }
  split; [|split; [|repeat split]].
  - intro v. apply (sum_skipna_numbers (fun m => Post2009.m_value m v)).
    intros m Hm. destruct (HG m Hm) as (e & p & _ & _ & Hval).
    rewrite Hval. eauto.
  - intro v. apply Qsum_nonneg, Forall_map, Forall_forall.
    intros m Hm. destruct (HG m Hm) as (e & p & (Hok & _) & Hp & Hval).
    rewrite Hval. cbn [num_of].
    destruct (estimate_ok_number _ (Hok v)) as (_ & Hq).
    apply Qmult_le_0_compat; lra.
  - apply Hle. intros e He. apply He.
  - apply Hle. intros e He. apply He.
  - apply Hle. intros e He. apply He.
  - apply Hle. intros e He. apply He.
  - rewrite <- Qsum_add. apply Qsum_le. intros m Hm.
    destruct (HG m Hm) as (e & p & He & Hp & Hval).
    rewrite !Hval. cbn [num_of].
    destruct He as (_ & _ & _ & _ & _ & Hpov).
    rewrite <- Qmult_plus_distr_l. apply Qmult_le_compat_r; lra.
Qed.

End Percentages.

(** X15. When the ACS estimates of every tract are missing or
    non-negative, each race or ethnicity group is at most the total
    population and the two poverty bands are together at most the
    population for whom poverty status is determined, every percentage
    of the 2010-2020 survey table is missing or a number from 0 to 100,
    and the two populations of a row are non-negative numbers. *)
Theorem survey_percentages_are_percentages :
  forall (geometry : Type) (to_crs : geometry -> geometry)
         (inter_area : geometry -> geometry -> Q)
         (acs5 : Z -> list Post2009.api_row)
         (tracts : list (Geo.tract geometry))
         (districts : list (Geo.district geometry))
         (d : Post2009.district_row),
    (forall y a, In y Post2009.acs_years -> In a (acs5 y) ->
       consistent_estimates (Post2009.estimate a)) ->
    In d (Post2009.survey_table to_crs inter_area acs5 tracts districts) ->
    finite_nonneg (Post2009.Total_Population d) /\
    finite_nonneg (Post2009.Total_Population_Poverty_Status d) /\
    percent_ok (Post2009.Percent_Hispanic d) /\
    percent_ok (Post2009.Percent_NonHispanic_White d) /\
    percent_ok (Post2009.Percent_NonHispanic_Black d) /\
    percent_ok (Post2009.Percent_NonHispanic_Asian d) /\
    percent_ok (Post2009.Poverty_Percent d).
Proof.
  intros geometry to_crs inter_area acs5 tracts districts d Hest Hd.
  unfold Post2009.survey_table, Post2009.district_aggregated_post_2009 in Hd.
  apply in_map_iff in Hd. destruct Hd as (s & <- & Hs).
  set (pieces := Geo.overlay inter_area (Geo.reproject_tracts to_crs tracts)
                   (Geo.reproject_districts to_crs (Geo.drop_31ST districts))).
  assert (Hpos : positive_areas pieces) by apply overlay_positive.
  destruct (sums_row_numbers acs5 pieces Hpos Hest s Hs)
    as (S & HS & H0 & Hw & Hb & Ha & Hh & Hp).
  unfold Post2009.derive.
  cbn [Post2009.Total_Population Post2009.Total_Population_Poverty_Status
       Post2009.Percent_Hispanic Post2009.Percent_NonHispanic_White
       Post2009.Percent_NonHispanic_Black Post2009.Percent_NonHispanic_Asian
       Post2009.Poverty_Percent].
  rewrite !HS. cbn [fadd].
  split; [exists (S Post2009.B01003_001E); auto|].
  split; [exists (S Post2009.C17002_001E); auto|].
  repeat split; apply percent_bounds; split; try assumption; try apply H0.
  pose proof (H0 Post2009.C17002_002E). pose proof (H0 Post2009.C17002_003E). lra.
Qed.

(** The estimates of the small city are consistent. *)
Lemma acs5_city_consistent :
  forall y a, In y Post2009.acs_years -> In a (City.acs5 y) ->
    consistent_estimates (Post2009.estimate a).
Proof.
  intros y a _ [<-|[]]. split.
  - intro v. right. destruct v; cbn; eexists; (split; [reflexivity|lra]).
  - cbn. repeat split; lra.
Qed.

(** X15 on the first row of the 2010-2020 survey table of the small
    city. *)
Lemma survey_percentages_are_percentages_witness :
  percent_ok (Post2009.Poverty_Percent
                (nth 0 City.survey2010
                     (Post2009.mk_district_row "" 0 NaN NaN NaN NaN NaN NaN NaN))).
Proof.
  apply (survey_percentages_are_percentages City.strip City.same_crs
           City.overlap City.acs5 City.tracts City.districts
           (nth 0 City.survey2010
                (Post2009.mk_district_row "" 0 NaN NaN NaN NaN NaN NaN NaN))
           acs5_city_consistent).
  apply nth_In. vm_compute. lia.
Defined.

(** ** The survey rows of the 2005-2009 notebook *)

Lemma prefix_17031 (x y : string) :
  ("17031" ++ x)%string = ("17031" ++ y)%string -> x = y.
Proof. cbn. intro H. injection H as H. exact H. Qed.

(** X16. Every row that the 2005-2009 notebook keeps from the survey
    file is a row of Cook County, Illinois, and has no missing value;
    when its tract code is not negative its identifier is ["17031"]
    followed by the tract code padded to six digits, and two kept rows
    with different non-negative tract codes have different
    identifiers. *)
Theorem chicago_rows_and_identifiers :
  forall (nhgis : list Pre2010.nhgis_row) (a : Pre2010.chicago_row),
    In a (Pre2010.acs2005_2009_chicago nhgis) ->
    Pre2010.ch_STATEA a = 17%Z /\ Pre2010.ch_COUNTYA a = 31%Z /\
    (forall v, Pre2010.ch_value a v <> NaN) /\
    (exists r, In r nhgis /\ Pre2010.TRACTA r = Pre2010.ch_TRACTA a /\
       forall v, Pre2010.ch_value a v = fillna0 (Pre2010.nhgis_value r v)) /\
    ((0 <= Pre2010.ch_TRACTA a)%Z ->
     Pre2010.census_tract_id a =
       ("17031" ++ zfill 6 (digits_of (Pre2010.ch_TRACTA a)))%string /\
     forall b, In b (Pre2010.acs2005_2009_chicago nhgis) ->
       (0 <= Pre2010.ch_TRACTA b)%Z ->
       Pre2010.census_tract_id a = Pre2010.census_tract_id b ->
       Pre2010.ch_TRACTA a = Pre2010.ch_TRACTA b).
Proof.
  intros nhgis a Ha.
  assert (Hrow : forall x, In x (Pre2010.acs2005_2009_chicago nhgis) ->
            Pre2010.ch_STATEA x = 17%Z /\ Pre2010.ch_COUNTYA x = 31%Z /\
            (forall v, Pre2010.ch_value x v <> NaN) /\
            (exists r, In r nhgis /\ Pre2010.TRACTA r = Pre2010.ch_TRACTA x /\
               forall v, Pre2010.ch_value x v = fillna0 (Pre2010.nhgis_value r v)) /\
            ((0 <= Pre2010.ch_TRACTA x)%Z ->
             Pre2010.census_tract_id x =
               ("17031" ++ zfill 6 (digits_of (Pre2010.ch_TRACTA x)))%string)).
  { intros x Hx. unfold Pre2010.acs2005_2009_chicago in Hx.
    apply in_map_iff in Hx. destruct Hx as (r & <- & Hr).
    apply filter_In in Hr. destruct Hr as [Hr Hcook].
    apply andb_prop in Hcook. destruct Hcook as [Hs Hc].
    apply Z.eqb_eq in Hs. apply Z.eqb_eq in Hc.
    cbn [Pre2010.ch_STATEA Pre2010.ch_COUNTYA Pre2010.ch_value
         Pre2010.census_tract_id Pre2010.ch_TRACTA].
    split; [exact Hs|]. split; [exact Hc|]. split; [|split].
    - intro v. destruct (Pre2010.nhgis_value r v); discriminate.
    - exists r. auto.
    - intro Hn. rewrite Hs, Hc. unfold str_of_int at 3.
      destruct (Z.ltb_spec (Pre2010.TRACTA r) 0) as [?|_]; [lia|].
      reflexivity. }
  destruct (Hrow a Ha) as (Hs & Hc & Hv & Hr & Hid).
  split; [exact Hs|]. split; [exact Hc|]. split; [exact Hv|].
  split; [exact Hr|]. intro Hna. split; [exact (Hid Hna)|].
  intros b Hb Hnb E.
  destruct (Hrow b Hb) as (_ & _ & _ & _ & Hidb).
  rewrite (Hid Hna), (Hidb Hnb) in E. apply prefix_17031 in E.
  apply (f_equal code_value) in E. unfold zfill in E.
  rewrite !code_value_zeros, !digits_of_value in E by apply digits_of_nonempty.
  injection E as E. lia.
Qed.

(** X16 on the survey file of the small city. *)
Lemma chicago_rows_and_identifiers_witness :
  Pre2010.census_tract_id
    (nth 0 (Pre2010.acs2005_2009_chicago City.nhgis_csv)
           (Pre2010.mk_chicago_row 0 0 0 (fun _ => NaN) "")) =
  "17031010100".
Proof.
  destruct (chicago_rows_and_identifiers City.nhgis_csv
              (nth 0 (Pre2010.acs2005_2009_chicago City.nhgis_csv)
                     (Pre2010.mk_chicago_row 0 0 0 (fun _ => NaN) "")))
    as (_ & _ & _ & _ & Hid).
  - apply nth_In. vm_compute. lia.
  - destruct Hid as [Hid _]; [vm_compute; discriminate|].
    rewrite Hid. vm_compute. reflexivity.
Defined.

(** ** Percentages of the 2005-2009 survey table *)

Lemma Qsum_bounds {A : Type} (f : A -> Q) (lo hi : Q) (l : list A) :
  (forall x, In x l -> lo <= f x <= hi) ->
  lo * inject_Z (Z.of_nat (List.length l)) <= Qsum (map f l) /\
  Qsum (map f l) <= hi * inject_Z (Z.of_nat (List.length l)).
Proof.
  induction l as [|x r IH]; intro H.
  - cbn [map Qsum List.length Z.of_nat]. change (inject_Z 0) with 0. lra.
  - cbn [map Qsum List.length]. rewrite Nat2Z.inj_succ. unfold Z.succ.
    rewrite inject_Z_plus. change (inject_Z 1) with 1.
    pose proof (H x (or_introl eq_refl)).
    assert (IH' : forall z, In z r -> lo <= f z <= hi)
      by (intros z Hz; apply H; right; exact Hz).
    destruct (IH IH'). lra.
Qed.

(** pandas' [mean] of a non-empty group of numbers lies between the
    bounds of the numbers. *)
Lemma mean_bounds (lo hi : Q) (l : list fval) :
  l <> [] ->
  (forall a, In a l -> exists q, a = Num q /\ lo <= q <= hi) ->
  exists q, Pre2010.mean l = Num q /\ lo <= q <= hi.
Proof.
  intros Hne H. unfold Pre2010.mean.
  assert (Hall : filter (fun a => negb (is_nan a)) l = l).
  { clear Hne. induction l as [|a r IH]; [reflexivity|].
    cbn [filter]. destruct (H a (or_introl eq_refl)) as (q & -> & _).
    cbn [is_nan negb]. f_equal. apply IH. intros z Hz. apply H. right. exact Hz. }
  rewrite Hall.
  assert (Hsum : sum_skipna l = Num (Qsum (map num_of l))).
  { pose proof (sum_skipna_numbers (fun a => a) l) as E.
    rewrite map_id in E. apply E.
    intros a Ha. destruct (H a Ha) as (q & -> & _). eauto. }
  rewrite Hsum.
  assert (Hn : 0 < inject_Z (Z.of_nat (List.length l))).
  { change 0 with (inject_Z 0). rewrite <- Zlt_Qlt.
    destruct l; [contradiction|cbn [List.length]; lia]. }
  unfold of_count, of_int. cbn [fdiv].
  rewrite (proj2 (Qsign_pos _) Hn).
  destruct (Qsum_bounds num_of lo hi l) as [Hlo Hhi].
  { intros a Ha. destruct (H a Ha) as (q & -> & Hq). exact Hq. }
  eexists. split; [reflexivity|]. split.
  - apply Qle_shift_div_l; assumption.
  - apply Qle_shift_div_r; assumption.
Qed.

Lemma fillna0_percent (a b : Q) :
  0 <= a <= b -> percentage (fillna0 (Pre2010.percent (Num a) (Num b))).
Proof.
  intro H. destruct (percent_bounds a b H) as [E|(q & E & Hq)];
    change (Post2009.percent (Num a) (Num b))
      with (Pre2010.percent (Num a) (Num b)) in E; rewrite E; cbn [fillna0].
  - exists 0. split; [reflexivity|lra].
  - exists q. split; [reflexivity|exact Hq].
Qed.

(** The percentages of a row of [filtered_df]. *)
Lemma filtered_df_percentages (nhgis : list Pre2010.nhgis_row)
    (weights : list Geo.weight) (f : Pre2010.filtered_row) :
  (forall r, In r nhgis -> consistent_estimates2005 (Pre2010.nhgis_value r)) ->
  In f (Pre2010.filtered_df weights (Pre2010.acs2005_2009_chicago nhgis)) ->
  percentage (Pre2010.f_Percent_Hispanic f) /\
  percentage (Pre2010.f_Percent_NonHispanic_White f) /\
  percentage (Pre2010.f_Percent_NonHispanic_Black f) /\
  percentage (Pre2010.f_Percent_NonHispanic_Asian f) /\
  percentage (Pre2010.f_Poverty_Percent f).
Proof.
  intros Hest Hf. unfold Pre2010.filtered_df in Hf.
  apply in_flat_map in Hf. destruct Hf as (w & _ & Hf).
  apply in_map_iff in Hf. destruct Hf as (a & <- & Ha).
  apply filter_In in Ha. destruct Ha as [Ha _].
  unfold Pre2010.acs2005_2009_chicago in Ha.
  apply in_map_iff in Ha. destruct Ha as (r & <- & Hr).
  apply filter_In in Hr. destruct Hr as [Hr _].
  destruct (Hest r Hr) as (Hok & Hh & Hw & Hb & Has & Hp).
  cbn [Pre2010.f_Percent_Hispanic Pre2010.f_Percent_NonHispanic_White
       Pre2010.f_Percent_NonHispanic_Black Pre2010.f_Percent_NonHispanic_Asian
       Pre2010.f_Poverty_Percent Pre2010.ch_value].
  assert (Hnum : forall v,
            fillna0 (Pre2010.nhgis_value r v) =
              Num (num_of (Pre2010.nhgis_value r v)) /\
            0 <= num_of (Pre2010.nhgis_value r v))
    by (intro v; apply estimate_ok_number, Hok).
  rewrite !(proj1 (Hnum _)). cbn [fadd].
  pose proof (proj2 (Hnum Pre2010.RLIE012)).
  pose proof (proj2 (Hnum Pre2010.RLIE003)).
  pose proof (proj2 (Hnum Pre2010.RLIE004)).
  pose proof (proj2 (Hnum Pre2010.RLIE006)).
  pose proof (proj2 (Hnum Pre2010.RNBE002)).
  pose proof (proj2 (Hnum Pre2010.RNBE003)).
  repeat split; apply fillna0_percent; lra.
Qed.

(** X17. When the estimates of every tract of the survey file are
    missing or non-negative, each race or ethnicity group is at most
    the total population and the two poverty bands are together at most
    the population for whom poverty status is determined, every
    percentage of the 2005-2009 survey table is a number from 0 to 100
    and is never missing. *)
Theorem survey_percentages_2005_are_percentages :
  forall (geometry : Type) (to_crs : geometry -> geometry)
         (inter_area : geometry -> geometry -> Q)
         (nhgis : list Pre2010.nhgis_row)
         (tracts : list (Geo.tract geometry))
         (districts : list (Geo.district geometry))
         (d : Pre2010.district_row),
    (forall r, In r nhgis -> consistent_estimates2005 (Pre2010.nhgis_value r)) ->
    In d (Pre2010.survey_table to_crs inter_area nhgis tracts districts) ->
    percentage (Pre2010.Percent_Hispanic d) /\
    percentage (Pre2010.Percent_NonHispanic_White d) /\
    percentage (Pre2010.Percent_NonHispanic_Black d) /\
    percentage (Pre2010.Percent_NonHispanic_Asian d) /\
    percentage (Pre2010.Poverty_Percent d).
Proof.
  intros geometry to_crs inter_area nhgis tracts districts d Hest Hd.
  unfold Pre2010.survey_table in Hd.
  set (filtered := Pre2010.filtered_df _ _) in Hd.
  unfold Pre2010.district_aggregated2005 in Hd.
  apply in_map_iff in Hd. destruct Hd as (k & <- & Hk).
  unfold group_keys in Hk. apply nodup_In in Hk.
  apply in_map_iff in Hk. destruct Hk as (f0 & Hf0 & Hin0).
  set (g := filter (fun f => String.eqb (Pre2010.f_dist_num f) k) filtered).
  assert (Hg0 : In f0 g).
  { apply filter_In. split; [exact Hin0|]. rewrite Hf0. apply String.eqb_refl. }
  assert (Hg : forall f, In f g ->
            percentage (Pre2010.f_Percent_Hispanic f) /\
            percentage (Pre2010.f_Percent_NonHispanic_White f) /\
            percentage (Pre2010.f_Percent_NonHispanic_Black f) /\
            percentage (Pre2010.f_Percent_NonHispanic_Asian f) /\
            percentage (Pre2010.f_Poverty_Percent f)).
  { intros f Hf. apply filter_In in Hf.
    apply (filtered_df_percentages nhgis
             (Pre2010.tracts_to_districts to_crs inter_area tracts districts)
             f Hest), Hf. }
  assert (Hmean : forall col : Pre2010.filtered_row -> fval,
            (forall f, In f g -> percentage (col f)) ->
            percentage (Pre2010.mean (map col g))).
  { intros col Hcol. apply (mean_bounds 0 100).
    - intro E. apply (in_map col) in Hg0. rewrite E in Hg0. exact Hg0.
    - intros a Ha. apply in_map_iff in Ha. destruct Ha as (f & <- & Hf).
      apply Hcol, Hf. }
  cbn [Pre2010.Percent_Hispanic Pre2010.Percent_NonHispanic_White
       Pre2010.Percent_NonHispanic_Black Pre2010.Percent_NonHispanic_Asian
       Pre2010.Poverty_Percent].
  repeat split; apply Hmean; intros f Hf; apply (Hg f Hf).
Qed.

(** The estimates of the survey file of the small city are
    consistent. *)
Lemma nhgis_city_consistent :
  forall r, In r City.nhgis_csv ->
    consistent_estimates2005 (Pre2010.nhgis_value r).
Proof.
  intros r [<-|[]]. split.
  - intro v. right. destruct v; cbn; eexists; (split; [reflexivity|lra]).
  - cbn. repeat split; lra.
Qed.

(** X17 on the first row of the 2005-2009 survey table of the small
    city. *)
Lemma survey_percentages_2005_are_percentages_witness :
  percentage (Pre2010.Poverty_Percent
                (nth 0 City.survey2005
                     (Pre2010.mk_district_row "" NaN NaN NaN NaN NaN NaN))).
Proof.
  apply (survey_percentages_2005_are_percentages City.strip City.same_crs
           City.overlap City.nhgis_csv City.tracts City.districts
           (nth 0 City.survey2005
                (Pre2010.mk_district_row "" NaN NaN NaN NaN NaN NaN))
           nhgis_city_consistent).
  apply nth_In. vm_compute. lia.
Defined.
